(** * ADRD Care System: the appointment negotiation of [agent.py]

    A shallow embedding of the request handler of [src/agent.py]
    ([get_doctor_availability], [check_next_available_slots],
    [book_appointment], [process_message] and the [/chat] endpoint) and the
    properties of its specification.

    The handler is a sequential program over decoded JSON values that talks
    to three collaborators: the scheduling service (HTTP), the Swarm client
    (the language-model agents) and the logger.  Values are modelled by the
    type [json]; the dicts built by the handler itself are finite maps
    ([gmap string json]); effects are threaded through a state-and-exception
    monad whose state is the chronological trace of every observable action
    (HTTP exchange, agent run, sleep, log record).  What the collaborators
    answer is given by an environment [Env], a function of the trace so far,
    so each theorem quantifies over every behaviour of the outside world. *)

From Stdlib Require Import Ascii String.
From stdpp Require Import gmap strings list fin_maps pretty.
From Equations Require Import Equations.

Set Warnings "-register-all,-abstract-large-number".
Open Scope string_scope.

(** ** Decoded JSON values *)

(** The values [json.loads] and [response.json()] produce.  Objects keep
    their fields in insertion order (Python dicts iterate in that order).
    Numbers are integers: the contract of the scheduling service and of the
    orchestrator has no fractional field. *)
Inductive json :=
| JNull
| JBool (b : bool)
| JNum (n : Z)
| JStr (s : string)
| JList (l : list json)
| JObj (fields : list (string * json)).

(** Exceptions of the Python run time and of the libraries in use. *)
Inductive exn :=
| TimeoutException
| HTTPStatusError (status : Z)
| JSONDecodeError
| ValueError (msg : string)
| KeyError (key : string)
| TypeError (msg : string)
| AttributeError (msg : string)
| NameError (name : string)
| OverflowError
| ValidationError
| HTTPException (status_code : Z) (detail : string)
| RuntimeFault (msg : string).

Module Py.

(** [dict.get]-style lookup in the fields of an object. *)
Fixpoint assoc (k : string) (fs : list (string * json)) : option json :=
  match fs with
  | [] => None
  | (k', v) :: fs' => if String.eqb k k' then Some v else assoc k fs'
  end.

(** Truth value of a value ([if v:], [not v]). *)
Definition truthy (v : json) : bool :=
  match v with
  | JNull => false
  | JBool b => b
  | JNum n => negb (n =? 0)%Z
  | JStr s => negb (String.eqb s "")
  | JList l => match l with [] => false | _ => true end
  | JObj fs => match fs with [] => false | _ => true end
  end.

(** [None] (a missing key read with [.get]) is falsy. *)
Definition truthy_opt (o : option json) : bool :=
  match o with Some v => truthy v | None => false end.

(** Python's [==] on decoded JSON: booleans compare equal to 0 and 1, lists
    pointwise, objects as maps. *)
Fixpoint eq (a b : json) {struct a} : bool :=
  match a, b with
  | JNull, JNull => true
  | JBool x, JBool y => Bool.eqb x y
  | JBool x, JNum n => (n =? (if x then 1 else 0))%Z
  | JNum n, JBool x => (n =? (if x then 1 else 0))%Z
  | JNum x, JNum y => (x =? y)%Z
  | JStr x, JStr y => String.eqb x y
  | JList x, JList y =>
      (fix go (x y : list json) {struct x} : bool :=
         match x, y with
         | [], [] => true
         | a' :: x', b' :: y' => eq a' b' && go x' y'
         | _, _ => false
         end) x y
  | JObj x, JObj y =>
      (length x =? length y)%nat &&
      forallb (fun kv => match assoc (fst kv) y with
                         | Some v' => eq (snd kv) v'
                         | None => false
                         end) x
  | _, _ => false
  end.

(** [needle in haystack] on strings. *)
Fixpoint is_prefix (p s : string) : bool :=
  match p, s with
  | EmptyString, _ => true
  | String a p', String b s' => Ascii.eqb a b && is_prefix p' s'
  | String _ _, EmptyString => false
  end.

Fixpoint is_substring (p s : string) : bool :=
  is_prefix p s ||
  match s with
  | EmptyString => false
  | String _ s' => is_substring p s'
  end.

(** The one-character strings a [str] iterates over. *)
Fixpoint chars (s : string) : list string :=
  match s with
  | EmptyString => []
  | String a s' => String a EmptyString :: chars s'
  end.

Fixpoint take_str (n : nat) (s : string) : string :=
  match n, s with
  | S n', String a s' => String a (take_str n' s')
  | _, _ => EmptyString
  end.

End Py.

(** ** The calendar of [datetime]

    [datetime.strptime(s, "%m/%d/%Y")], [strftime("%m/%d/%Y")] and
    [+ timedelta(days=1)] on the proleptic Gregorian calendar, years 1 to
    9999. *)
Module Calendar.

Record date := mkDate { year : nat; month : nat; day : nat }.

Definition MAXYEAR : nat := 9999.

Definition is_leap (y : nat) : bool :=
  ((y mod 4 =? 0) && negb (y mod 100 =? 0) || (y mod 400 =? 0))%nat.

Definition days_in_month (y m : nat) : nat :=
  match m with
  | 2 => if is_leap y then 29 else 28
  | 4 | 6 | 9 | 11 => 30
  | _ => 31
  end.

Definition valid (d : date) : bool :=
  ((1 <=? year d) && (year d <=? MAXYEAR) &&
   (1 <=? month d) && (month d <=? 12) &&
   (1 <=? day d) && (day d <=? days_in_month (year d) (month d)))%nat.

Definition digit (a : ascii) : option nat :=
  let n := nat_of_ascii a in
  if ((48 <=? n) && (n <=? 57))%nat then Some (n - 48)%nat else None.

(** The month field: [1[0-2]|0[1-9]|[1-9]]. *)
Definition parse_month (s : string) : option nat :=
  match s with
  | String a EmptyString =>
      match digit a with
      | Some n => if (1 <=? n)%nat then Some n else None
      | None => None
      end
  | String a (String b EmptyString) =>
      match digit a, digit b with
      | Some 0, Some n => if (1 <=? n)%nat then Some n else None
      | Some 1, Some n => if (n <=? 2)%nat then Some (10 + n)%nat else None
      | _, _ => None
      end
  | _ => None
  end.

(** The day field: [3[0-1]|[1-2]\d|0[1-9]|[1-9]| [1-9]]. *)
Definition parse_day (s : string) : option nat :=
  match s with
  | String a EmptyString =>
      match digit a with
      | Some n => if (1 <=? n)%nat then Some n else None
      | None => None
      end
  | String a (String b EmptyString) =>
      if Ascii.eqb a " "%char then
        match digit b with
        | Some n => if (1 <=? n)%nat then Some n else None
        | None => None
        end
      else
        match digit a, digit b with
        | Some 0, Some n => if (1 <=? n)%nat then Some n else None
        | Some 1, Some n => Some (10 + n)%nat
        | Some 2, Some n => Some (20 + n)%nat
        | Some 3, Some n => if (n <=? 1)%nat then Some (30 + n)%nat else None
        | _, _ => None
        end
  | _ => None
  end.

(** The year field: four digits. *)
Definition parse_year (s : string) : option nat :=
  match s with
  | String a (String b (String c (String d EmptyString))) =>
      match digit a, digit b, digit c, digit d with
      | Some x, Some y, Some z, Some w =>
          Some (1000 * x + 100 * y + 10 * z + w)%nat
      | _, _, _, _ => None
      end
  | _ => None
  end.

(** Cut a string at every ["/"]. *)
Fixpoint split_slash (s : string) : list string :=
  match s with
  | EmptyString => [EmptyString]
  | String a s' =>
      if Ascii.eqb a "/"%char then EmptyString :: split_slash s'
      else match split_slash s' with
           | [] => [String a EmptyString]
           | w :: ws => String a w :: ws
           end
  end.

(** [datetime.strptime(s, "%m/%d/%Y")]; [None] stands for its
    [ValueError]. *)
Definition strptime (s : string) : option date :=
  match split_slash s with
  | [m; d; y] =>
      match parse_month m, parse_day d, parse_year y with
      | Some m', Some d', Some y' =>
          let r := mkDate y' m' d' in
          if valid r then Some r else None
      | _, _, _ => None
      end
  | _ => None
  end.

Definition pad (width : nat) (n : nat) : string :=
  let s := pretty n in
  String.concat "" (replicate (width - String.length s) "0") ++ s.

(** [strftime("%m/%d/%Y")]: two digits for the month and the day, four for
    the year (below the year 1000 the padding of [%Y] depends on the C
    library; no statement depends on it). *)
Definition strftime (d : date) : string :=
  pad 2 (month d) ++ "/" ++ pad 2 (day d) ++ "/" ++ pad 4 (year d).

(** [d + timedelta(days=1)]; [None] stands for the [OverflowError] past
    12/31/9999. *)
Definition next_day (d : date) : option date :=
  if (day d <? days_in_month (year d) (month d))%nat
  then Some (mkDate (year d) (month d) (S (day d)))
  else if (month d <? 12)%nat
  then Some (mkDate (year d) (S (month d)) 1)
  else if (year d <? MAXYEAR)%nat
  then Some (mkDate (S (year d)) 1 1)
  else None.

(** Days are ordered by (year, month, day). *)
Definition ordinal (d : date) : nat := (year d * 12 + month d) * 32 + day d.


End Calendar.

(** ** Observable actions and the outside world *)

(** The three Swarm agents created at start-up. *)
Inductive Agent := orchestrator_agent | medical_agent | appointment_agent.

Inductive Level := INFO | WARNING | ERROR.

(** One entry per action the handler performs, in the order performed. *)
Inductive Event :=
| EvGet (path : string) (doctor_id date : json)
| EvPost (path : string) (body : json)
| EvRun (agent : Agent) (conversation : list json)
| EvSleep (seconds : nat)
| EvLog (level : Level) (msg : string).

(** What an [httpx] exchange can end in: a time-out, any other transport
    fault, or a response with its status and its body ([None] when
    [response.json()] cannot decode it). *)
Inductive HttpOutcome :=
| HttpTimeout
| HttpFault (msg : string)
| HttpResponse (status : Z) (body : option json).

(** What [client.run(...)] followed by [response.messages[-1]['content']]
    can end in. *)
Inductive RunOutcome :=
| RunFault (msg : string)
| RunContent (content : string).

(** The environment of one request.  [upstream] and [swarm_run] answer the
    last action of the trace they are given, so an answer may depend on
    everything that happened before.  [asyncio_bound] tells whether the
    module global [asyncio] exists: the only [import asyncio] of the file
    sits under [if __name__ == "__main__":]. *)
Record Env := mkEnv {
  upstream : list Event -> HttpOutcome;
  swarm_run : list Event -> RunOutcome;
  json_loads : string -> option json;
  py_repr : json -> string;
  exn_str : exn -> string;
  asyncio_bound : bool
}.

(** ** The monad of the handler *)

Inductive Result (A : Type) :=
| Ok (a : A)
| Raise (e : exn).
Arguments Ok {A} a.
Arguments Raise {A} e.

Definition M (A : Type) : Type := list Event -> Result A * list Event.

Definition ret {A} (a : A) : M A := fun tr => (Ok a, tr).

Definition bind {A B} (c : M A) (k : A -> M B) : M B :=
  fun tr =>
    match c tr with
    | (Ok a, tr') => k a tr'
    | (Raise e, tr') => (Raise e, tr')
    end.

Definition raise {A} (e : exn) : M A := fun tr => (Raise e, tr).

(** [try: body / except ... as e: handler e]. *)
Definition try_except {A} (body : M A) (handler : exn -> M A) : M A :=
  fun tr =>
    match body tr with
    | (Ok a, tr') => (Ok a, tr')
    | (Raise e, tr') => handler e tr'
    end.

Definition emit (e : Event) : M unit := fun tr => (Ok tt, (tr ++ [e])%list).

Declare Scope monad_scope.
Delimit Scope monad_scope with monad.
Notation "x <- c ;; k" := (bind c (fun x => k))
  (at level 100, c at next level, right associativity) : monad_scope.
Notation "c ;; k" := (bind c (fun _ => k))
  (at level 100, right associativity) : monad_scope.
Open Scope monad_scope.

Definition log (level : Level) (msg : string) : M unit := emit (EvLog level msg).

(** The newline of the response texts. *)
Definition nl : string := String "010"%char EmptyString.

(** ** Python operations that may raise *)

Definition py_get (d : json) (k : string) (dflt : json) : M json :=
  match d with
  | JObj fs => ret (default dflt (Py.assoc k fs))
  | _ => raise (AttributeError "get")
  end.

(** [d.get(k)] with no default: [None] when the key is missing. *)
Definition py_get_opt (d : json) (k : string) : M (option json) :=
  match d with
  | JObj fs => ret (Py.assoc k fs)
  | _ => raise (AttributeError "get")
  end.

(** [d[k]] with a string key. *)
Definition py_getitem (d : json) (k : string) : M json :=
  match d with
  | JObj fs =>
      match Py.assoc k fs with
      | Some v => ret v
      | None => raise (KeyError k)
      end
  | _ => raise (TypeError "subscript")
  end.

(** [x in c]. *)
Definition py_contains (x c : json) : M bool :=
  match c with
  | JList l => ret (existsb (Py.eq x) l)
  | JStr s =>
      match x with
      | JStr p => ret (Py.is_substring p s)
      | _ => raise (TypeError "in <string>")
      end
  | JObj fs =>
      match x with
      | JStr k => ret (match Py.assoc k fs with Some _ => true | None => false end)
      | JList _ | JObj _ => raise (TypeError "unhashable")
      | _ => ret false
      end
  | _ => raise (TypeError "not iterable")
  end.

(** [c[:n]]. *)
Definition py_slice (n : nat) (c : json) : M json :=
  match c with
  | JList l => ret (JList (take n l))
  | JStr s => ret (JStr (Py.take_str n s))
  | _ => raise (TypeError "slice")
  end.

(** The items a [for] loop visits. *)
Definition py_iter (c : json) : M (list json) :=
  match c with
  | JList l => ret l
  | JStr s => ret (JStr <$> Py.chars s)
  | JObj fs => ret ((fun kv => JStr (fst kv)) <$> fs)
  | _ => raise (TypeError "not iterable")
  end.

Fixpoint as_strs (items : list json) : M (list string) :=
  match items with
  | [] => ret []
  | JStr s :: items' => rest <- as_strs items' ;; ret (s :: rest)
  | _ :: _ => raise (TypeError "join: expected str")
  end.

(** [sep.join(c)]. *)
Definition str_join (sep : string) (c : json) : M string :=
  items <- py_iter c ;;
  strs <- as_strs items ;;
  ret (String.concat sep strs).

(** ** The program *)

Record Response := mkResponse { status_code : Z; body : option json }.

Record MessageRequest := mkRequest {
  message : string;
  history : option (list json);
  req_context : option json
}.

Record MessageResponse := mkMessageResponse {
  response : string;
  agent : string;
  context : option json;
  suggestions : option (gmap string json)
}.

Definition APPOINTMENT_API : string :=
  "https://adrd-doctor-appointment-api.vercel.app/api/v1".

Section Program.

Context (env : Env).

(** [str(v)] as f-strings apply it; the text of lists and objects is left to
    the environment. *)
Definition py_str (v : json) : string :=
  match v with
  | JNull => "None"
  | JBool true => "True"
  | JBool false => "False"
  | JNum n => pretty n
  | JStr s => s
  | _ => py_repr env v
  end.

Definition py_str_opt (o : option json) : string :=
  match o with Some v => py_str v | None => "None" end.

(** [client.get(url, params={"doctor_id": ..., "date": ...})]. *)
Definition client_get (url : string) (doctor_id date : json) : M Response :=
  fun tr =>
    let tr' := (tr ++ [EvGet url doctor_id date])%list in
    match upstream env tr' with
    | HttpTimeout => (Raise TimeoutException, tr')
    | HttpFault msg => (Raise (RuntimeFault msg), tr')
    | HttpResponse status b => (Ok (mkResponse status b), tr')
    end.

(** [client.post(url, json=details)]. *)
Definition client_post (url : string) (details : json) : M Response :=
  fun tr =>
    let tr' := (tr ++ [EvPost url details])%list in
    match upstream env tr' with
    | HttpTimeout => (Raise TimeoutException, tr')
    | HttpFault msg => (Raise (RuntimeFault msg), tr')
    | HttpResponse status b => (Ok (mkResponse status b), tr')
    end.

(** [response.raise_for_status()]: anything but 2xx raises. *)
Definition raise_for_status (r : Response) : M unit :=
  if ((200 <=? status_code r) && (status_code r <? 300))%Z then ret tt
  else raise (HTTPStatusError (status_code r)).

(** [response.json()]. *)
Definition response_json (r : Response) : M json :=
  match body r with
  | Some j => ret j
  | None => raise JSONDecodeError
  end.

(** agent.py, lines 81-119. *)
Definition get_doctor_availability (doctor_id date : json) : M (gmap string json) :=
  try_except
    (response <- client_get (APPOINTMENT_API ++ "/doctor/availability") doctor_id date ;;
     raise_for_status response ;;
     data <- response_json response ;;
     times <- py_get data "available_times" (JList []) ;;
     ret {[ "success" := JBool true;
            "data" := data;
            "available_times" := times ]})
    (fun e =>
       match e with
       | TimeoutException =>
           log ERROR ("Timeout while fetching availability for doctor " ++ py_str doctor_id) ;;
           ret {[ "success" := JBool false;
                  "error" := JStr "Service temporarily unavailable" ]}
       | HTTPStatusError status =>
           log ERROR ("HTTP error " ++ pretty status ++ " while fetching availability") ;;
           ret {[ "success" := JBool false;
                  "error" := JStr "Unable to fetch availability" ]}
       | _ =>
           log ERROR ("Unexpected error fetching availability: " ++ exn_str env e) ;;
           ret {[ "success" := JBool false;
                  "error" := JStr "An unexpected error occurred" ]}
       end).

(** [datetime.strptime(start_date, "%m/%d/%Y")]. *)
Definition strptime (start_date : json) : M Calendar.date :=
  match start_date with
  | JStr s =>
      match Calendar.strptime s with
      | Some d => ret d
      | None => raise (ValueError "time data does not match format '%m/%d/%Y'")
      end
  | _ => raise (TypeError "strptime() argument 1 must be str")
  end.

(** [current_date += timedelta(days=1)]. *)
Definition add_one_day (d : Calendar.date) : M Calendar.date :=
  match Calendar.next_day d with
  | Some d' => ret d'
  | None => raise OverflowError
  end.

(** The dict appended for a day with free slots. *)
Definition day_slot (date_str : string) (times : json) : json :=
  JObj [("date", JStr date_str); ("times", times)].

(** The [for _ in range(num_days)] loop of lines 140-154; the loop variables
    are [current_date], [available_slots] and [errors]. *)
Fixpoint scan_days (n : nat) (doctor_id : json) (current_date : Calendar.date)
    (available_slots : list json) (errors : list string)
    : M (list json * list string) :=
  match n with
  | O => ret (available_slots, errors)
  | S n' =>
      let date_str := Calendar.strftime current_date in
      availability <- get_doctor_availability doctor_id (JStr date_str) ;;
      acc <-
        (if Py.truthy_opt (availability !! "success") then
           if Py.truthy_opt (availability !! "available_times") then
             match availability !! "available_times" with
             | Some times =>
                 ret ((available_slots ++ [day_slot date_str times])%list, errors)
             | None => raise (KeyError "available_times")
             end
           else ret (available_slots, errors)
         else
           let err := "Error checking " ++ date_str ++ ": " ++
                      py_str_opt (availability !! "error") in
           ret (available_slots, (errors ++ [err])%list)) ;;
      current_date' <- add_one_day current_date ;;
      scan_days n' doctor_id current_date' (fst acc) (snd acc)
  end.

(** agent.py, lines 121-159. *)
Definition check_next_available_slots (doctor_id start_date : json) (num_days : Z)
    : M (list json) :=
  current_date <- strptime start_date ;;
  r <- scan_days (Z.to_nat num_days) doctor_id current_date [] [] ;;
  (match snd r with
   | [] => ret tt
   | _ :: _ =>
       log WARNING ("Errors while checking availability: " ++ String.concat "; " (snd r))
   end) ;;
  ret (fst r).

Definition required_fields : list string :=
  ["doctor_id"; "preferred_date"; "preferred_time"].

(** [[field for field in fields if not details.get(field)]]. *)
Fixpoint fields_missing (details : json) (fields : list string) : M (list string) :=
  match fields with
  | [] => ret []
  | field :: fields' =>
      v <- py_get_opt details field ;;
      rest <- fields_missing details fields' ;;
      ret (if Py.truthy_opt v then rest else field :: rest)
  end.

(** agent.py, lines 161-224. *)
Definition book_appointment (details : json) : M (gmap string json) :=
  missing_fields <- fields_missing details required_fields ;;
  match missing_fields with
  | _ :: _ =>
      ret {[ "success" := JBool false;
             "error" := JStr ("Missing required fields: " ++
                              String.concat ", " missing_fields) ]}
  | [] =>
      try_except
        (response <- client_post (APPOINTMENT_API ++ "/appointments/book") details ;;
         if (status_code response =? 200)%Z then
           doctor <- py_getitem details "doctor_id" ;;
           log INFO ("Successfully booked appointment for " ++ py_str doctor) ;;
           data <- response_json response ;;
           ret {[ "success" := JBool true; "data" := data ]}
         else
           response_data <- response_json response ;;
           log INFO ("Booking attempt failed: " ++ py_str response_data) ;;
           if (status_code response =? 409)%Z then
             log WARNING "Requested time slot conflict - fetching alternatives" ;;
             doctor <- py_getitem details "doctor_id" ;;
             date <- py_getitem details "preferred_date" ;;
             alternative_times <- get_doctor_availability doctor date ;;
             ret {[ "success" := JBool false;
                    "error" := JStr "Time slot no longer available";
                    "alternatives" :=
                      default (JList []) (alternative_times !! "available_times") ]}
           else
             detail <- py_get response_data "detail" (JStr "Booking failed") ;;
             ret {[ "success" := JBool false; "error" := detail ]})
        (fun e =>
           match e with
           | TimeoutException =>
               log ERROR "Timeout while booking appointment" ;;
               ret {[ "success" := JBool false;
                      "error" := JStr "Service temporarily unavailable" ]}
           | _ =>
               log ERROR ("Error booking appointment: " ++ exn_str env e) ;;
               ret {[ "success" := JBool false;
                      "error" := JStr "An unexpected error occurred" ]}
           end)
  end.

(** [client.run(agent, conversation)] and the read of the last message's
    content. *)
Definition client_run (a : Agent) (conversation : list json) : M string :=
  fun tr =>
    let tr' := (tr ++ [EvRun a conversation])%list in
    match swarm_run env tr' with
    | RunFault msg => (Raise (RuntimeFault msg), tr')
    | RunContent c => (Ok c, tr')
    end.

(** [await asyncio.sleep(1)]: a [NameError] when the module was imported
    rather than run as a script. *)
Definition asyncio_sleep (seconds : nat) : M unit :=
  if asyncio_bound env then emit (EvSleep seconds)
  else raise (NameError "asyncio").

Definition max_retries : nat := 2.

(** The [while retry_count <= max_retries] loop of lines 239-253, entered
    with the given [retry_count].  Leaving the loop by its condition makes
    the function return [None]. *)
Equations process_message_from (retry_count : nat) (a : Agent)
    (msg : string) (hist : list json) : M (option string)
    by wf (S max_retries - retry_count) lt :=
process_message_from retry_count a msg hist with le_dec retry_count max_retries := {
  | left _ =>
      try_except
        (let conversation :=
           (hist ++ [JObj [("role", JStr "user"); ("content", JStr msg)]])%list in
         content <- client_run a conversation ;;
         ret (Some content))
        (fun e =>
           let retry_count' := S retry_count in
           log ERROR ("Attempt " ++ pretty retry_count' ++ " failed: " ++ exn_str env e) ;;
           (if (max_retries <? retry_count')%nat then
              raise (HTTPException 500
                       ("Processing error after " ++ pretty max_retries ++ " retries"))
            else ret tt) ;;
           asyncio_sleep 1 ;;
           process_message_from retry_count' a msg hist)
  | right _ => ret None }.
Next Obligation. unfold max_retries in *. lia. Qed.

(** agent.py, lines 226-253. *)
Definition process_message (a : Agent) (msg : string) (hist : list json)
    : M (option string) :=
  process_message_from 0 a msg hist.

Definition GENERIC_RESPONSE : string :=
  "I'm having trouble finding available appointments. Would you like to try a different date or see other doctors' availability?".

Definition SYSTEM_RESPONSE : string :=
  "I apologize, but I encountered an error. Please try again or rephrase your request.".

(** [for time in items: response += f"- {time}\n"]. *)
Definition add_time_lines (items : list json) (text : string) : string :=
  fold_left (fun acc time => acc ++ "- " ++ py_str time ++ nl) items text.

(** The [for day in next_days[:3]] loop of lines 344-348. *)
Fixpoint add_day_blocks (days : list json) (text : string) : M string :=
  match days with
  | [] => ret text
  | day :: days' =>
      date <- py_getitem day "date" ;;
      times <- py_getitem day "times" ;;
      shown <- py_slice 3 times ;;
      items <- py_iter shown ;;
      add_day_blocks days'
        (add_time_lines items (text ++ "For " ++ py_str date ++ ":" ++ nl) ++ nl)
  end.

(** Step 2, lines 308-315: when the preferred time is on offer, try to book
    it.  [Some reply] when the handler returns from this step, [None] when
    control falls through to step 3. *)
Definition try_preferred_time (details available_times : json)
    : M (option MessageResponse) :=
  preferred_time <- py_getitem details "preferred_time" ;;
  present <- py_contains preferred_time available_times ;;
  if present : bool then
    booking_result <- book_appointment details ;;
    if Py.truthy_opt (booking_result !! "success") then
      doctor <- py_getitem details "doctor_id" ;;
      doctor_name <- py_get details "doctor_name" doctor ;;
      date <- py_getitem details "preferred_date" ;;
      time <- py_getitem details "preferred_time" ;;
      ret (Some (mkMessageResponse
                   ("Great! Your appointment with Dr. " ++ py_str doctor_name ++
                    " is confirmed for " ++ py_str date ++
                    " at " ++ py_str time ++ ".")
                   "Appointment Coordinator" None None))
    else ret None
  else ret None.

(** Step 3, lines 318-331: the reply that offers the other times of the
    requested day. *)
Definition suggest_same_day (details available_times : json) : M MessageResponse :=
  time <- py_getitem details "preferred_time" ;;
  date <- py_getitem details "preferred_date" ;;
  shown <- py_slice 5 available_times ;;
  items <- py_iter shown ;;
  date' <- py_getitem details "preferred_date" ;;
  ret (mkMessageResponse
         (add_time_lines items
            ("I see that " ++ py_str time ++ " isn't available on " ++
             py_str date ++ ". Here are available times:" ++ nl)
          ++ nl ++ "Would you like me to book any of these times?")
         "Appointment Coordinator" None
         (Some {[ "available_times" := available_times; "date" := date' ]})).

(** Step 4, lines 333-355: scan the next days; [None] when the scan finds
    nothing and control falls through to step 5. *)
Definition suggest_next_days (details : json) : M (option MessageResponse) :=
  doctor_id <- py_getitem details "doctor_id" ;;
  preferred_date <- py_getitem details "preferred_date" ;;
  next_days <- check_next_available_slots doctor_id preferred_date 5 ;;
  match next_days with
  | _ :: _ =>
      date <- py_getitem details "preferred_date" ;;
      text <- add_day_blocks (take 3 next_days)
                ("I apologize, but there are no appointments available on " ++
                 py_str date ++ ". Here are the next available slots:" ++ nl ++ nl) ;;
      ret (Some (mkMessageResponse
                   (text ++ "Would you like to book any of these times?")
                   "Appointment Coordinator" None
                   (Some {[ "available_days" := JList next_days ]})))
  | [] => ret None
  end.

(** Lines 289-361: the appointment branch of the endpoint. *)
Definition appointment_turn (routing : json) : M MessageResponse :=
  details <- py_get routing "details" (JObj []) ;;
  missing_fields <- py_get routing "missing_fields" (JList []) ;;
  if Py.truthy missing_fields then
    joined <- str_join ", " missing_fields ;;
    ret (mkMessageResponse
           ("I need these additional details to book your appointment: " ++
            joined ++ ". Please provide them.")
           "Appointment Coordinator" None None)
  else
    doctor_id <- py_getitem details "doctor_id" ;;
    preferred_date <- py_getitem details "preferred_date" ;;
    availability <- get_doctor_availability doctor_id preferred_date ;;
    returned <-
      (if Py.truthy_opt (availability !! "success") then
         available_times <-
           py_get (default (JObj []) (availability !! "data")) "available_times" (JList []) ;;
         booked <- try_preferred_time details available_times ;;
         match booked with
         | Some reply => ret (Some reply)
         | None =>
             if Py.truthy available_times then
               reply <- suggest_same_day details available_times ;;
               ret (Some reply)
             else suggest_next_days details
         end
       else ret None) ;;
    match returned with
    | Some reply => ret reply
    | None => ret (mkMessageResponse GENERIC_RESPONSE "Appointment Coordinator" None None)
    end.

(** [MessageResponse(response=v, ...)]: the field is declared [str], and
    pydantic rejects a value of another JSON type. *)
Definition validated_str (v : json) : M string :=
  match v with
  | JStr s => ret s
  | _ => raise ValidationError
  end.

(** The body of the [try] of the endpoint, lines 271-377. *)
Definition chat_body (request : MessageRequest) : M MessageResponse :=
  orchestrator_response <-
    process_message orchestrator_agent (message request) (default [] (history request)) ;;
  routing <-
    match orchestrator_response with
    | None => raise (TypeError "the JSON object must be str, bytes or bytearray")
    | Some text =>
        match json_loads env text with
        | Some v => ret v
        | None =>
            log WARNING ("Invalid orchestrator response format: " ++ text) ;;
            ret (JObj [("agent", JStr "orchestrator"); ("response", JStr text)])
        end
    end ;;
  agent_name <- py_get routing "agent" (JStr "orchestrator") ;;
  if Py.eq agent_name (JStr "appointment") then
    appointment_turn routing
  else if Py.eq agent_name (JStr "medical") then
    medical_response <-
      process_message medical_agent (message request) (default [] (history request)) ;;
    match medical_response with
    | Some text => ret (mkMessageResponse text "Medical Advisor" None None)
    | None => raise ValidationError
    end
  else
    v <- py_get routing "response"
           (JStr "Could you please clarify what you need help with?") ;;
    text <- validated_str v ;;
    ret (mkMessageResponse text "orchestrator" None None).

(** agent.py, lines 255-385: the [/chat] endpoint. *)
Definition chat (request : MessageRequest) : M MessageResponse :=
  try_except (chat_body request)
    (fun e =>
       log ERROR ("Chat error: " ++ exn_str env e) ;;
       ret (mkMessageResponse SYSTEM_RESPONSE "system" None None)).

End Program.

(** The status line FastAPI sends for a handler's outcome: 200 for a
    returned model, the carried status for an [HTTPException], 500 for any
    other escaped exception. *)
Definition http_status {A} (r : Result A) : Z :=
  match r with
  | Ok _ => 200
  | Raise (HTTPException status _) => status
  | Raise _ => 500
  end.

(** A 2xx status. *)
Definition is_success (status : Z) : bool :=
  ((200 <=? status) && (status <? 300))%Z.

(** * The vocabulary of the specification

    The traces, outcomes and texts the theorems speak about. *)

(** ** Traces *)

(** A request to the scheduling service. *)
Definition is_http (e : Event) : bool :=
  match e with
  | EvGet _ _ _ | EvPost _ _ => true
  | _ => false
  end.

(** A run of an agent. *)
Definition is_run (e : Event) : bool :=
  match e with
  | EvRun _ _ => true
  | _ => false
  end.

(** The HTTP exchanges of a trace, in order. *)
Definition http_calls (tr : list Event) : list Event := filter (fun e => is_http e = true) tr.

(** The agent runs of a trace, in order. *)
Definition agent_runs (tr : list Event) : list Event := filter (fun e => is_run e = true) tr.

(** [emits P c]: whatever the trace it starts from, [c] only appends to it,
    and every action it appends satisfies [P]. *)
Definition emits (P : Event -> Prop) {A} (c : M A) : Prop :=
  forall tr, exists delta, snd (c tr) = (tr ++ delta)%list /\ Forall P delta.

(** Neither an agent run nor a sleep: an action made outside
    [process_message]. *)
Definition quiet (e : Event) : Prop :=
  match e with
  | EvRun _ _ | EvSleep _ => False
  | _ => True
  end.

(** ** The outcomes of an availability request *)

Definition AVAILABILITY_URL : string := APPOINTMENT_API ++ "/doctor/availability".
Definition BOOKING_URL : string := APPOINTMENT_API ++ "/appointments/book".

(** The list a successful fetch yields: the response is 2xx and its body
    decodes to an object; a missing field reads as the empty list. *)
Definition fetched_times (o : HttpOutcome) : option json :=
  match o with
  | HttpResponse status (Some (JObj fs)) =>
      if is_success status
      then Some (default (JList []) (Py.assoc "available_times" fs))
      else None
  | _ => None
  end.

(** A failure dict. *)
Definition failure (msg : string) : gmap string json :=
  {[ "success" := JBool false; "error" := JStr msg ]}.

(** The dict [get_doctor_availability] returns for each outcome of its
    request. *)
Definition availability_of (o : HttpOutcome) : gmap string json :=
  match o with
  | HttpTimeout => failure "Service temporarily unavailable"
  | HttpFault _ => failure "An unexpected error occurred"
  | HttpResponse status b =>
      if is_success status then
        match b with
        | Some (JObj fs) =>
            {[ "success" := JBool true;
               "data" := JObj fs;
               "available_times" := default (JList []) (Py.assoc "available_times" fs) ]}
        | _ => failure "An unexpected error occurred"
        end
      else failure "Unable to fetch availability"
  end.

(** The record it logs. *)
Definition availability_log (env : Env) (doctor_id : json) (o : HttpOutcome) : list Event :=
  match o with
  | HttpTimeout =>
      [EvLog ERROR ("Timeout while fetching availability for doctor " ++ py_str env doctor_id)]
  | HttpFault msg =>
      [EvLog ERROR ("Unexpected error fetching availability: " ++ exn_str env (RuntimeFault msg))]
  | HttpResponse status b =>
      if is_success status then
        match b with
        | Some (JObj _) => []
        | Some _ =>
            [EvLog ERROR ("Unexpected error fetching availability: " ++
                          exn_str env (AttributeError "get"))]
        | None =>
            [EvLog ERROR ("Unexpected error fetching availability: " ++
                          exn_str env JSONDecodeError)]
        end
      else [EvLog ERROR ("HTTP error " ++ pretty status ++ " while fetching availability")]
  end.

(** ** The days of a scan *)

Module Scan.

(** [n] days from [d] on. *)
Fixpoint window (n : nat) (d : Calendar.date) : list Calendar.date :=
  match n with
  | O => []
  | S n' =>
      d :: match Calendar.next_day d with
           | Some d' => window n' d'
           | None => []
           end
  end.

(** [d] moved [n] days ahead, if the calendar reaches that far. *)
Fixpoint add_days (n : nat) (d : Calendar.date) : option Calendar.date :=
  match n with
  | O => Some d
  | S n' =>
      match Calendar.next_day d with
      | Some d' => add_days n' d'
      | None => None
      end
  end.

(** The answers of the scheduling service to one request per day, each
    asked in the trace the previous days left behind. *)
Fixpoint outcomes (env : Env) (doctor_id : json) (days : list Calendar.date)
    (tr : list Event) : list (string * HttpOutcome) * list Event :=
  match days with
  | [] => ([], tr)
  | d :: days' =>
      let date_str := Calendar.strftime d in
      let tr1 := (tr ++ [EvGet AVAILABILITY_URL doctor_id (JStr date_str)])%list in
      let o := upstream env tr1 in
      let rest := outcomes env doctor_id days' (tr1 ++ availability_log env doctor_id o)%list in
      ((date_str, o) :: fst rest, snd rest)
  end.

(** The record of a day, when its call succeeded with at least one time. *)
Definition slot_of (day : string * HttpOutcome) : option json :=
  match fetched_times (snd day) with
  | Some times => if Py.truthy times then Some (day_slot (fst day) times) else None
  | None => None
  end.

(** The error line of a day, when its call failed. *)
Definition error_of (env : Env) (day : string * HttpOutcome) : option string :=
  match fetched_times (snd day) with
  | Some _ => None
  | None =>
      Some ("Error checking " ++ fst day ++ ": " ++
            py_str_opt env (availability_of (snd day) !! "error"))
  end.

(** The one warning that closes a scan with errors. *)
Definition warning (env : Env) (days : list (string * HttpOutcome)) : list Event :=
  match omap (error_of env) days with
  | [] => []
  | errors => [EvLog WARNING ("Errors while checking availability: " ++
                              String.concat "; " errors)]
  end.

End Scan.

(** The requests of a scan: one per day, in order. *)
Definition scan_requests (doctor_id : json) (days : list Calendar.date) : list Event :=
  (fun d => EvGet AVAILABILITY_URL doctor_id (JStr (Calendar.strftime d))) <$> days.

(** ** The texts of the replies *)

Module Display.

(** One ["- time"] line per item. *)
Fixpoint time_lines (env : Env) (items : list json) : string :=
  match items with
  | [] => ""
  | time :: items' => "- " ++ py_str env time ++ nl ++ time_lines env items'
  end.

(** The items of a value that can be sliced and iterated: the elements of a
    list, the characters of a string. *)
Definition items_of (v : json) : list json :=
  match v with
  | JList l => l
  | JStr s => JStr <$> Py.chars s
  | _ => []
  end.

(** The text of the same-day reply that lists [items]. *)
Definition same_day_text (env : Env) (time date : json) (items : list json) : string :=
  "I see that " ++ py_str env time ++ " isn't available on " ++ py_str env date ++
  ". Here are available times:" ++ nl ++
  time_lines env items ++ nl ++ "Would you like me to book any of these times?".

Definition field (k : string) (v : json) : json :=
  match v with
  | JObj fs => default JNull (Py.assoc k fs)
  | _ => JNull
  end.

(** The block of one day: its date and its first three times. *)
Definition day_block (env : Env) (day : json) : string :=
  "For " ++ py_str env (field "date" day) ++ ":" ++ nl ++
  time_lines env (take 3 (items_of (field "times" day))) ++ nl.

Fixpoint day_blocks (env : Env) (days : list json) : string :=
  match days with
  | [] => ""
  | day :: days' => day_block env day ++ day_blocks env days'
  end.

(** The text of the multi-day reply that shows [days]. *)
Definition next_days_text (env : Env) (date : json) (days : list json) : string :=
  "I apologize, but there are no appointments available on " ++ py_str env date ++
  ". Here are the next available slots:" ++ nl ++ nl ++
  day_blocks env days ++ "Would you like to book any of these times?".

End Display.

(** ** The replies *)

(** The reply of step 5. *)
Definition generic_reply : MessageResponse :=
  mkMessageResponse GENERIC_RESPONSE "Appointment Coordinator" None None.

(** The same-day reply: the text shows [shown], the payload carries
    [available_times] and the date. *)
Definition same_day_reply (env : Env) (time date available_times : json)
    (shown : list json) : MessageResponse :=
  mkMessageResponse (Display.same_day_text env time date shown)
    "Appointment Coordinator" None
    (Some {[ "available_times" := available_times; "date" := date ]}).

(** The multi-day reply: the text shows [shown], the payload carries
    [next_days]. *)
Definition next_days_reply (env : Env) (date : json) (next_days shown : list json)
    : MessageResponse :=
  mkMessageResponse (Display.next_days_text env date shown)
    "Appointment Coordinator" None
    (Some {[ "available_days" := JList next_days ]}).

(** The prompt for the fields named by the orchestrator. *)
Definition missing_fields_prompt (names : list string) : MessageResponse :=
  mkMessageResponse
    ("I need these additional details to book your appointment: " ++
     String.concat ", " names ++ ". Please provide them.")
    "Appointment Coordinator" None None.

(** The required fields that [details] leaves empty or lacks. *)
Definition empty_fields (dfs : list (string * json)) : list string :=
  filter (fun field => Py.truthy_opt (Py.assoc field dfs) = false) required_fields.

(** The reply of the outermost handler. *)
Definition system_reply : MessageResponse :=
  mkMessageResponse SYSTEM_RESPONSE "system" None None.

(** ** The attempts of the retry loop *)

(** The message the wrapper appends to the history. *)
Definition user_message (msg : string) : json :=
  JObj [("role", JStr "user"); ("content", JStr msg)].

(** The record of a failed attempt. *)
Definition attempt_log (env : Env) (k : nat) (fault : string) : Event :=
  EvLog ERROR ("Attempt " ++ pretty k ++ " failed: " ++ exn_str env (RuntimeFault fault)).

(** What the wrapper raises after the last attempt. *)
Definition RETRIES_EXHAUSTED : exn :=
  HTTPException 500 "Processing error after 2 retries".

(** What [process_message] does to the trace, case by case: the first run
    answers; or it fails and the second answers; or two fail and the third
    answers; or all three fail.  Between two runs lie the record of the
    failure and a sleep of one second. *)
Definition retried (env : Env) (run : Event) (tr : list Event)
    (r : Result (option string)) (delta : list Event) : Prop :=
  (exists content,
     swarm_run env (tr ++ [run])%list = RunContent content /\
     r = Ok (Some content) /\ delta = [run])
  \/
  (exists f1 content,
     swarm_run env (tr ++ [run])%list = RunFault f1 /\
     swarm_run env (tr ++ [run; attempt_log env 1 f1; EvSleep 1; run])%list
       = RunContent content /\
     r = Ok (Some content) /\
     delta = [run; attempt_log env 1 f1; EvSleep 1; run])
  \/
  (exists f1 f2 content,
     swarm_run env (tr ++ [run])%list = RunFault f1 /\
     swarm_run env (tr ++ [run; attempt_log env 1 f1; EvSleep 1; run])%list
       = RunFault f2 /\
     swarm_run env (tr ++ [run; attempt_log env 1 f1; EvSleep 1;
                           run; attempt_log env 2 f2; EvSleep 1; run])%list
       = RunContent content /\
     r = Ok (Some content) /\
     delta = [run; attempt_log env 1 f1; EvSleep 1;
              run; attempt_log env 2 f2; EvSleep 1; run])
  \/
  (exists f1 f2 f3,
     swarm_run env (tr ++ [run])%list = RunFault f1 /\
     swarm_run env (tr ++ [run; attempt_log env 1 f1; EvSleep 1; run])%list
       = RunFault f2 /\
     swarm_run env (tr ++ [run; attempt_log env 1 f1; EvSleep 1;
                           run; attempt_log env 2 f2; EvSleep 1; run])%list
       = RunFault f3 /\
     r = Raise RETRIES_EXHAUSTED /\
     delta = [run; attempt_log env 1 f1; EvSleep 1;
              run; attempt_log env 2 f2; EvSleep 1;
              run; attempt_log env 3 f3]).

(** ** The outcomes of a booking request *)

(** The dict of a confirmed booking. *)
Definition booked (data : json) : gmap string json :=
  {[ "success" := JBool true; "data" := data ]}.

(** The dict of a refused booking that passes on what the service said. *)
Definition refused (detail : json) : gmap string json :=
  {[ "success" := JBool false; "error" := detail ]}.

(** The dict of a slot conflict. *)
Definition conflict (alternatives : json) : gmap string json :=
  {[ "success" := JBool false;
     "error" := JStr "Time slot no longer available";
     "alternatives" := alternatives ]}.

Definition UNEXPECTED : string := "An unexpected error occurred".

(** What [book_appointment] returns, and the trace it leaves, once the
    three required fields are there: by the outcome of its POST and, after a
    409, of the GET that follows. *)
Definition booking_run (env : Env) (dfs : list (string * json))
    (doctor_id preferred_date : json) (tr : list Event)
    : gmap string json * list Event :=
  let tr1 := (tr ++ [EvPost BOOKING_URL (JObj dfs)])%list in
  let oops (e : exn) := EvLog ERROR ("Error booking appointment: " ++ exn_str env e) in
  match upstream env tr1 with
  | HttpTimeout =>
      (failure "Service temporarily unavailable",
       (tr1 ++ [EvLog ERROR "Timeout while booking appointment"])%list)
  | HttpFault msg => (failure UNEXPECTED, (tr1 ++ [oops (RuntimeFault msg)])%list)
  | HttpResponse status b =>
      if (status =? 200)%Z then
        let tr2 := (tr1 ++ [EvLog INFO ("Successfully booked appointment for " ++
                                        py_str env doctor_id)])%list in
        match b with
        | Some data => (booked data, tr2)
        | None => (failure UNEXPECTED, (tr2 ++ [oops JSONDecodeError])%list)
        end
      else
        match b with
        | None => (failure UNEXPECTED, (tr1 ++ [oops JSONDecodeError])%list)
        | Some response_data =>
            let tr2 := (tr1 ++ [EvLog INFO ("Booking attempt failed: " ++
                                            py_str env response_data)])%list in
            if (status =? 409)%Z then
              let tr3 :=
                (tr2 ++ [EvLog WARNING "Requested time slot conflict - fetching alternatives";
                         EvGet AVAILABILITY_URL doctor_id preferred_date])%list in
              let o := upstream env tr3 in
              (conflict (default (JList []) (fetched_times o)),
               (tr3 ++ availability_log env doctor_id o)%list)
            else
              match response_data with
              | JObj fs =>
                  (refused (default (JStr "Booking failed") (Py.assoc "detail" fs)), tr2)
              | _ => (failure UNEXPECTED, (tr2 ++ [oops (AttributeError "get")])%list)
              end
        end
  end.

(** A 409 whose body decodes: the case in which [book_appointment] asks for
    the alternatives. *)
Definition conflicting (o : HttpOutcome) : bool :=
  match o with
  | HttpResponse status (Some _) => (status =? 409)%Z
  | _ => false
  end.

(** ** Dates as the scanner writes them *)

Definition not_slash (a : ascii) : bool := negb (Ascii.eqb a "/"%char).

(** [s] has two characters, none a slash, and reads back as [n] under
    [parse]. *)
Definition two_chars_back (parse : string -> option nat) (n : nat) (s : string) : bool :=
  match s with
  | String a (String b EmptyString) =>
      not_slash a && not_slash b &&
      match parse s with Some n' => (n' =? n)%nat | None => false end
  | _ => false
  end.

(** The four decimal digits of a number below 10000. *)
Definition digits4 (n : N) : string :=
  String (pretty_N_char (n / 1000))
    (String (pretty_N_char (n / 100 mod 10))
       (String (pretty_N_char (n / 10 mod 10))
          (String (pretty_N_char (n mod 10)) EmptyString))).

(** ** The actions of a turn *)

(** An action of the retry wrapper around [run]: the run itself, the
    record of a failed attempt or the pause before the next one. *)
Definition attempt (run : Event) (e : Event) : Prop :=
  match e with
  | EvRun _ _ => e = run
  | EvSleep _ | EvLog _ _ => True
  | EvGet _ _ _ | EvPost _ _ => False
  end.

(** The conversation the endpoint hands to an agent: the history of the
    request followed by the user's message. *)
Definition conversation_of (request : MessageRequest) : list json :=
  (default [] (history request) ++ [user_message (message request)])%list.

(** An action of the endpoint: when it is a run, it is a run of the
    orchestrator or of the medical agent on the conversation of the
    request. *)
Definition turn_action (request : MessageRequest) (e : Event) : Prop :=
  match e with
  | EvRun a conversation =>
      (a = orchestrator_agent \/ a = medical_agent) /\
      conversation = conversation_of request
  | _ => True
  end.

(** Anything but a booking request. *)
Definition not_post (e : Event) : Prop :=
  match e with
  | EvPost _ _ => False
  | _ => True
  end.

(** The reply that confirms a booking. *)
Definition confirmation (env : Env) (doctor date time : json) : MessageResponse :=
  mkMessageResponse
    ("Great! Your appointment with Dr. " ++ py_str env doctor ++
     " is confirmed for " ++ py_str env date ++ " at " ++ py_str env time ++ ".")
    "Appointment Coordinator" None None.

(** What the outermost handler of the endpoint makes of the outcome of its
    [try] block. *)
Definition handled (env : Env) (outcome : Result MessageResponse * list Event)
    : Result MessageResponse * list Event :=
  match outcome with
  | (Ok reply, tr) => (Ok reply, tr)
  | (Raise e, tr) =>
      (Ok system_reply, (tr ++ [EvLog ERROR ("Chat error: " ++ exn_str env e)])%list)
  end.

Definition CLARIFY : string := "Could you please clarify what you need help with?".

(** The record of an orchestrator answer that is not JSON. *)
Definition invalid_format_log (text : string) : Event :=
  EvLog WARNING ("Invalid orchestrator response format: " ++ text).

(** An action that only reads: an availability request or a log record. *)
Definition reads (e : Event) : Prop :=
  match e with
  | EvGet _ _ _ | EvLog _ _ => True
  | _ => False
  end.

(** The requests a booking attempt of [details] may have made: none, the
    POST, or the POST and the GET for the alternatives. *)
Definition booking_calls (details doctor_id preferred_date : json)
    (calls : list Event) : Prop :=
  calls = []
  \/ calls = [EvPost BOOKING_URL details]
  \/ calls = [EvPost BOOKING_URL details; EvGet AVAILABILITY_URL doctor_id preferred_date].

(** ** Scripted environments

    The counterpart of the mocks of [test_app.py]: the scheduling service
    and the Swarm client answer from a script, one entry per call, and the
    decoder is a finite table. *)

(** The answer to the n-th request is the n-th entry; past the script, a
    time-out. *)
Definition scripted_upstream (script : list HttpOutcome) (tr : list Event) : HttpOutcome :=
  nth (length (http_calls tr) - 1) script HttpTimeout.

Definition scripted_swarm (script : list RunOutcome) (tr : list Event) : RunOutcome :=
  nth (length (agent_runs tr) - 1) script (RunFault "script exhausted").

Fixpoint table_loads (table : list (string * json)) (s : string) : option json :=
  match table with
  | [] => None
  | (k, v) :: table' => if String.eqb s k then Some v else table_loads table' s
  end.

Definition scripted_env (http : list HttpOutcome) (runs : list RunOutcome)
    (table : list (string * json)) (asyncio : bool) : Env :=
  mkEnv (scripted_upstream http) (scripted_swarm runs) (table_loads table)
        (fun _ => "<repr>") (fun _ => "<exception>") asyncio.

(** ** Scenarios

    Concrete turns, after the data of [test_app.py]. *)

Module Scenario.

Definition times3 : json := JList [JStr "09:00"; JStr "10:00"; JStr "14:00"].

Definition times7 : json :=
  JList [JStr "08:00"; JStr "09:00"; JStr "10:00"; JStr "11:00";
         JStr "13:00"; JStr "14:00"; JStr "15:00"].

(** The body of an availability response. *)
Definition data (times : json) : json :=
  JObj [("doctor_id", JStr "dr_001"); ("date", JStr "12/15/2024");
        ("available_times", times)].

Definition details (time : string) : list (string * json) :=
  [("doctor_id", JStr "dr_001");
   ("preferred_date", JStr "12/15/2024");
   ("preferred_time", JStr time)].

(** What the orchestrator hands over for an appointment intent. *)
Definition routing (time : string) (missing : list json) : list (string * json) :=
  [("agent", JStr "appointment");
   ("details", JObj (details time));
   ("missing_fields", JList missing)].

Definition doctor : json := JStr "dr_001".
Definition date : json := JStr "12/15/2024".
Definition check : Event := EvGet AVAILABILITY_URL doctor date.
Definition question : string := "What are the symptoms of ADRD?".

(** The scheduling service answers from [http]; no agent is run. *)
Definition service (http : list HttpOutcome) : Env := scripted_env http [] [] false.

(** The Swarm client answers from [runs]; ["M"] decodes to a medical
    routing and ["L"] to a list. *)
Definition swarm (runs : list RunOutcome) (asyncio : bool) : Env :=
  scripted_env [] runs [("M", JObj [("agent", JStr "medical")]); ("L", JList [])] asyncio.

End Scenario.

(** * Properties *)

(** ** The calendar, on examples *)

Example strptime_ok :
  Calendar.strptime "12/15/2024" = Some (Calendar.mkDate 2024 12 15).
Proof. reflexivity. Qed.

Example strptime_short :
  Calendar.strptime "2/9/2024" = Some (Calendar.mkDate 2024 2 9).
Proof. reflexivity. Qed.

Example strptime_iso_rejected : Calendar.strptime "2024-12-15" = None.
Proof. reflexivity. Qed.

Example strptime_feb30_rejected : Calendar.strptime "02/30/2024" = None.
Proof. reflexivity. Qed.

Example strftime_pads :
  Calendar.strftime (Calendar.mkDate 2024 2 9) = "02/09/2024".
Proof. reflexivity. Qed.

Example next_day_year_end :
  Calendar.next_day (Calendar.mkDate 2024 12 31) = Some (Calendar.mkDate 2025 1 1).
Proof. reflexivity. Qed.

Example next_day_leap :
  Calendar.next_day (Calendar.mkDate 2024 2 28) = Some (Calendar.mkDate 2024 2 29).
Proof. reflexivity. Qed.

(** ** Running the monad *)

Lemma bind_ok {A B} (c : M A) (k : A -> M B) tr a tr1 :
  c tr = (Ok a, tr1) -> bind c k tr = k a tr1.
Proof. intros H. unfold bind. rewrite H. reflexivity. Qed.

Lemma bind_raise {A B} (c : M A) (k : A -> M B) tr e tr1 :
  c tr = (Raise e, tr1) -> bind c k tr = (Raise e, tr1).
Proof. intros H. unfold bind. rewrite H. reflexivity. Qed.

Lemma try_ok {A} (c : M A) h tr a tr1 :
  c tr = (Ok a, tr1) -> try_except c h tr = (Ok a, tr1).
Proof. intros H. unfold try_except. rewrite H. reflexivity. Qed.

Lemma try_raise {A} (c : M A) h tr e tr1 :
  c tr = (Raise e, tr1) -> try_except c h tr = h e tr1.
Proof. intros H. unfold try_except. rewrite H. reflexivity. Qed.

(** ** The availability client, outcome by outcome *)

Lemma get_doctor_availability_run env doctor_id date tr :
  let tr1 := (tr ++ [EvGet AVAILABILITY_URL doctor_id date])%list in
  get_doctor_availability env doctor_id date tr =
    (Ok (availability_of (upstream env tr1)),
     (tr1 ++ availability_log env doctor_id (upstream env tr1))%list).
Proof.
  intros tr1. unfold get_doctor_availability, try_except, bind, client_get.
  fold AVAILABILITY_URL. fold tr1.
  destruct (upstream env tr1) as [| msg | status b]; cbn [availability_of availability_log].
  - reflexivity.
  - reflexivity.
  - unfold raise_for_status, is_success. cbn [status_code].
    destruct ((200 <=? status)%Z && (status <? 300)%Z).
    + unfold response_json. cbn [body].
      destruct b as [[| | | | | fs]|]; try reflexivity.
      unfold py_get, ret. rewrite app_nil_r. reflexivity.
    + reflexivity.
Qed.

Lemma failure_success msg : failure msg !! "success" = Some (JBool false).
Proof. reflexivity. Qed.

Lemma failure_error msg : failure msg !! "error" = Some (JStr msg).
Proof. reflexivity. Qed.

Lemma failure_available_times msg : failure msg !! "available_times" = None.
Proof. reflexivity. Qed.

Lemma failure_data msg : failure msg !! "data" = None.
Proof. reflexivity. Qed.

(** The four keys of the result, read off the outcome. *)
Lemma availability_of_available_times o :
  availability_of o !! "available_times" = fetched_times o.
Proof.
  destruct o as [| msg | status b]; try reflexivity.
  unfold availability_of, fetched_times.
  destruct (is_success status); [| destruct b as [[]|]; reflexivity].
  destruct b as [[| | | | | fs]|]; reflexivity.
Qed.

Lemma availability_of_success o :
  availability_of o !! "success" =
    Some (JBool (match fetched_times o with Some _ => true | None => false end)).
Proof.
  destruct o as [| msg | status b]; try reflexivity.
  unfold availability_of, fetched_times.
  destruct (is_success status); [| destruct b as [[]|]; reflexivity].
  destruct b as [[| | | | | fs]|]; reflexivity.
Qed.

Lemma availability_of_data o times :
  fetched_times o = Some times ->
  exists fs, availability_of o !! "data" = Some (JObj fs) /\
             times = default (JList []) (Py.assoc "available_times" fs).
Proof.
  destruct o as [| msg | status b]; try discriminate.
  unfold availability_of, fetched_times.
  destruct b as [[| | | | | fs]|]; try discriminate.
  destruct (is_success status); [| discriminate].
  intros [= <-]. exists fs. split; reflexivity.
Qed.

Lemma availability_of_error o :
  fetched_times o = None -> exists msg, availability_of o = failure msg.
Proof.
  destruct o as [| msg | status b]; [eauto | eauto |].
  unfold availability_of, fetched_times.
  destruct (is_success status); [| eauto].
  destruct b as [[| | | | | fs]|]; eauto. discriminate.
Qed.

(** ** C10: the shape of an availability result *)

(** C10. [get_doctor_availability] never raises, and every dict it returns
    has one of two shapes.  With [success] true it holds the decoded body
    under ["data"] and, under ["available_times"], the body's
    [available_times] field (the empty list when the body has no such
    field).  With [success] false it holds an ["error"] and no
    ["available_times"] key, so a read with the default [[]] yields the
    empty list. *)
Theorem C10_availability_result_shape env doctor_id date tr :
  exists r tr',
    get_doctor_availability env doctor_id date tr = (Ok r, tr') /\
    ((exists status fs,
        upstream env (tr ++ [EvGet AVAILABILITY_URL doctor_id date])%list
          = HttpResponse status (Some (JObj fs)) /\
        r !! "success" = Some (JBool true) /\
        r !! "data" = Some (JObj fs) /\
        r !! "available_times" =
          Some (default (JList []) (Py.assoc "available_times" fs)))
     \/
     (r !! "success" = Some (JBool false) /\
      is_Some (r !! "error") /\
      r !! "available_times" = None /\
      default (JList []) (r !! "available_times") = JList [])).
Proof.
  eexists _, _. split; [apply get_doctor_availability_run |].
  set (o := upstream env _).
  destruct (fetched_times o) as [times|] eqn:Hf.
  - left. destruct o as [| msg | status [[| | | | | fs]|]]; try discriminate.
    exists status, fs. unfold fetched_times in Hf. unfold availability_of.
    destruct (is_success status); [| discriminate].
    repeat split; reflexivity.
  - right. destruct (availability_of_error o Hf) as [msg ->].
    rewrite failure_success, failure_error, failure_available_times.
    repeat split; eauto.
Qed.

(** ** C9: a start date that does not parse *)

(** C9. When [start_date] is a string that [strptime] rejects under
    ["%m/%d/%Y"], [check_next_available_slots] raises a [ValueError] from
    the parse that precedes its loop: nothing is added to the trace (no
    availability call is made) and no list, empty or not, is returned. *)
Theorem C9_malformed_start_date_raises env doctor_id s num_days tr :
  Calendar.strptime s = None ->
  exists msg,
    check_next_available_slots env doctor_id (JStr s) num_days tr
      = (Raise (ValueError msg), tr).
Proof.
  intros Hparse. eexists.
  unfold check_next_available_slots, bind, strptime.
  rewrite Hparse. reflexivity.
Qed.

(** ** C5: the multi-day scan *)

Lemma omap_cons {A B} (f : A -> option B) (x : A) (l : list A) :
  omap f (x :: l) =
    match f x with
    | Some y => y :: omap f l
    | None => omap f l
    end.
Proof. reflexivity. Qed.


(** *** The calendar moves forward *)

Lemma days_in_month_bounds y m :
  (28 <= Calendar.days_in_month y m <= 31)%nat.
Proof.
  unfold Calendar.days_in_month.
  do 12 (destruct m as [| m]; [try destruct (Calendar.is_leap y); lia |]).
  lia.
Qed.

Lemma valid_spec d :
  Calendar.valid d = true <->
  (1 <= Calendar.year d <= Calendar.MAXYEAR /\
   1 <= Calendar.month d <= 12 /\
   1 <= Calendar.day d <= Calendar.days_in_month (Calendar.year d) (Calendar.month d))%nat.
Proof.
  unfold Calendar.valid. rewrite !andb_true_iff, !Nat.leb_le. tauto.
Qed.

Lemma strptime_valid s d : Calendar.strptime s = Some d -> Calendar.valid d = true.
Proof.
  unfold Calendar.strptime. intros H.
  repeat match type of H with
         | match ?x with _ => _ end = _ => destruct x eqn:?; try discriminate
         | (if ?x then _ else _) = _ => destruct x eqn:?; try discriminate
         end.
  congruence.
Qed.

Lemma next_day_forward d d' :
  Calendar.valid d = true ->
  Calendar.next_day d = Some d' ->
  Calendar.valid d' = true /\ (Calendar.ordinal d < Calendar.ordinal d')%nat.
Proof.
  rewrite !valid_spec. intros (Hy & Hm & Hd). unfold Calendar.next_day.
  pose proof (days_in_month_bounds (Calendar.year d) (Calendar.month d)) as Hb.
  destruct (Nat.ltb_spec (Calendar.day d)
              (Calendar.days_in_month (Calendar.year d) (Calendar.month d))) as [H1 | H1].
  { intros [= <-]. unfold Calendar.ordinal. cbn [Calendar.year Calendar.month Calendar.day].
    split; [split; [lia | split; lia] | lia]. }
  destruct (Nat.ltb_spec (Calendar.month d) 12) as [H2 | H2].
  { intros [= <-]. unfold Calendar.ordinal. cbn [Calendar.year Calendar.month Calendar.day].
    pose proof (days_in_month_bounds (Calendar.year d) (S (Calendar.month d))).
    split; [split; [lia | split; lia] | lia]. }
  destruct (Nat.ltb_spec (Calendar.year d) Calendar.MAXYEAR) as [H3 | H3]; [| discriminate].
  intros [= <-]. unfold Calendar.ordinal. cbn [Calendar.year Calendar.month Calendar.day].
  pose proof (days_in_month_bounds (S (Calendar.year d)) 1).
  split; [split; [lia | split; lia] | lia].
Qed.


Lemma window_forward n :
  forall d i a,
    Calendar.valid d = true ->
    Scan.window n d !! i = Some a ->
    Calendar.valid a = true /\ (Calendar.ordinal d + i <= Calendar.ordinal a)%nat.
Proof.
  induction n as [| n IH]; intros d i a Hv Hi; [discriminate |].
  cbn [Scan.window] in Hi. destruct i as [| i].
  - injection Hi as <-. split; [assumption | lia].
  - cbn in Hi. destruct (Calendar.next_day d) as [d'|] eqn:Hn; [| discriminate].
    destruct (next_day_forward d d' Hv Hn) as [Hv' Hlt].
    destruct (IH d' i a Hv' Hi) as [Ha Hle]. split; [assumption | lia].
Qed.



Lemma outcomes_dates env doctor_id days :
  forall tr, (fst <$> fst (Scan.outcomes env doctor_id days tr)) = (Calendar.strftime <$> days).
Proof.
  induction days as [| d days IH]; intros tr; [reflexivity |].
  cbn [Scan.outcomes fst fmap list_fmap]. cbn zeta. cbn [fst].
  f_equal. apply IH.
Qed.

(** *** Network calls of a trace *)

Lemma http_calls_app tr1 tr2 :
  http_calls (tr1 ++ tr2)%list = (http_calls tr1 ++ http_calls tr2)%list.
Proof. unfold http_calls. apply filter_app. Qed.

Lemma http_calls_availability_log env doctor_id o :
  http_calls (availability_log env doctor_id o) = [].
Proof.
  destruct o as [| msg | status b]; try reflexivity.
  unfold availability_log. destruct (is_success status); [| reflexivity].
  destruct b as [[]|]; reflexivity.
Qed.

Lemma http_calls_warning env days : http_calls (Scan.warning env days) = [].
Proof. unfold Scan.warning. destruct (omap _ days); reflexivity. Qed.

Lemma outcomes_http_calls env doctor_id days :
  forall tr,
    http_calls (snd (Scan.outcomes env doctor_id days tr)) =
      (http_calls tr ++ scan_requests doctor_id days)%list.
Proof.
  induction days as [| d days IH]; intros tr.
  - cbn. rewrite app_nil_r. reflexivity.
  - cbn [Scan.outcomes snd]. cbn zeta. cbn [snd]. rewrite IH.
    rewrite !http_calls_app, http_calls_availability_log, app_nil_r.
    rewrite <- app_assoc. reflexivity.
Qed.


(** ** What the reply texts show *)

Lemma string_app_assoc (a b c : string) : (a ++ b) ++ c = a ++ (b ++ c).
Proof.
  induction a as [| x a IH]; [reflexivity |].
  change (String x ((a ++ b) ++ c) = String x (a ++ (b ++ c))).
  by rewrite IH.
Qed.

Lemma string_app_nil_r (a : string) : a ++ "" = a.
Proof.
  induction a as [| x a IH]; [reflexivity |].
  change (String x (a ++ "") = String x a). by rewrite IH.
Qed.

Lemma add_time_lines_spec env items :
  forall text, add_time_lines env items text = text ++ Display.time_lines env items.
Proof.
  unfold add_time_lines.
  induction items as [| t items IH]; intros text; cbn [fold_left Display.time_lines].
  - by rewrite string_app_nil_r.
  - rewrite IH, !string_app_assoc. reflexivity.
Qed.

Lemma chars_take n : forall s, Py.chars (Py.take_str n s) = take n (Py.chars s).
Proof.
  induction n as [| n IH]; intros [| a s]; try reflexivity.
  cbn [Py.take_str Py.chars take]. by rewrite IH.
Qed.

(** Slicing then iterating visits the first [n] items. *)
Lemma slice_iter n v tr shown tr1 items tr2 :
  py_slice n v tr = (Ok shown, tr1) ->
  py_iter shown tr1 = (Ok items, tr2) ->
  items = take n (Display.items_of v) /\ tr2 = tr /\
  ((exists l, v = JList l) \/ (exists s, v = JStr s)).
Proof.
  destruct v as [| | | s | l |]; try discriminate; intros [= <- <-] [= <- <-].
  - cbn [Display.items_of]. rewrite chars_take, fmap_take. eauto.
  - eauto.
Qed.

Lemma add_day_blocks_spec env days :
  forall text tr text' tr',
    add_day_blocks env days text tr = (Ok text', tr') ->
    text' = text ++ Display.day_blocks env days /\ tr' = tr.
Proof.
  induction days as [| day days IH]; intros text tr text' tr'.
  - intros [= <- <-]. by rewrite string_app_nil_r.
  - cbn [add_day_blocks Display.day_blocks]. unfold bind at 1.
    destruct day as [| | | | | fs]; try discriminate.
    cbn [py_getitem]. unfold Display.day_block, Display.field.
    destruct (Py.assoc "date" fs) as [date|]; [| discriminate].
    unfold ret at 1. unfold bind at 1.
    destruct (Py.assoc "times" fs) as [times|]; [| discriminate].
    unfold ret at 1. unfold bind at 1.
    destruct (py_slice 3 times tr) as [[shown | e] tr1] eqn:Hs; [| discriminate].
    unfold bind at 1.
    destruct (py_iter shown tr1) as [[items | e] tr2] eqn:Hi; [| discriminate].
    destruct (slice_iter _ _ _ _ _ _ _ Hs Hi) as (-> & -> & _).
    intros H. apply IH in H as [-> ->]. split; [| reflexivity].
    rewrite add_time_lines_spec. cbn [default from_option id].
    rewrite !string_app_assoc. reflexivity.
Qed.

(** ** The appointment turn *)

Lemma fetched_no_log env doctor_id o times :
  fetched_times o = Some times -> availability_log env doctor_id o = [].
Proof.
  destruct o as [| msg | status [[| | | | | fs]|]]; try discriminate.
  unfold fetched_times, availability_log. by destruct (is_success status).
Qed.

Section Turn.

(** An appointment routing whose [missing_fields] is empty or absent and
    whose [details] name a doctor and a date. *)
Context (env : Env) (rfs dfs : list (string * json)) (doctor_id preferred_date : json).
Hypothesis Hmissing : Py.truthy (default (JList []) (Py.assoc "missing_fields" rfs)) = false.
Hypothesis Hdetails : default (JObj []) (Py.assoc "details" rfs) = JObj dfs.
Hypothesis Hdoctor : Py.assoc "doctor_id" dfs = Some doctor_id.
Hypothesis Hdate : Py.assoc "preferred_date" dfs = Some preferred_date.

(** The turn, step by step. *)
Lemma appointment_turn_run tr :
  appointment_turn env (JObj rfs) tr =
    (let tr1 := (tr ++ [EvGet AVAILABILITY_URL doctor_id preferred_date])%list in
     let o := upstream env tr1 in
     match fetched_times o with
     | None => (Ok generic_reply, (tr1 ++ availability_log env doctor_id o)%list)
     | Some times =>
         match try_preferred_time env (JObj dfs) times tr1 with
         | (Ok (Some reply), tr2) => (Ok reply, tr2)
         | (Ok None, tr2) =>
             if Py.truthy times then suggest_same_day env (JObj dfs) times tr2
             else match suggest_next_days env (JObj dfs) tr2 with
                  | (Ok (Some reply), tr3) => (Ok reply, tr3)
                  | (Ok None, tr3) => (Ok generic_reply, tr3)
                  | (Raise e, tr3) => (Raise e, tr3)
                  end
         | (Raise e, tr2) => (Raise e, tr2)
         end
     end).
Proof.
  cbn zeta. unfold appointment_turn.
  cbv beta iota delta [py_get bind ret].
  rewrite Hmissing, Hdetails.
  cbv beta iota delta [py_getitem ret].
  rewrite Hdoctor, Hdate.
  rewrite get_doctor_availability_run. cbv beta iota zeta.
  rewrite availability_of_success.
  set (tr1 := (tr ++ [EvGet AVAILABILITY_URL doctor_id preferred_date])%list).
  destruct (fetched_times (upstream env tr1)) as [times|] eqn:Hf;
    cbn [Py.truthy_opt Py.truthy]; [| reflexivity].
  rewrite (fetched_no_log env doctor_id _ _ Hf), app_nil_r.
  destruct (availability_of_data _ _ Hf) as (fs & -> & ->).
  cbn [default from_option id].
  change (from_option id (JList []) (Py.assoc "available_times" fs))
    with (default (JList []) (Py.assoc "available_times" fs)).
  set (times := default (JList []) (Py.assoc "available_times" fs)).
  destruct (try_preferred_time env (JObj dfs) times tr1) as [[[reply|] | e] tr2];
    try reflexivity.
  destruct (Py.truthy times).
  - destruct (suggest_same_day env (JObj dfs) times tr2) as [[reply | e] tr3]; reflexivity.
  - destruct (suggest_next_days env (JObj dfs) tr2) as [[[reply|] | e] tr3]; reflexivity.
Qed.

(** C3. When the availability check of the turn returns [success] false,
    the turn answers with the generic "trouble finding available
    appointments" reply and ends in the very trace the check left: its one
    GET is the only network call, so no booking request and no scan
    follows. *)
Theorem C3_failed_check_generic_reply tr av tr1 :
  get_doctor_availability env doctor_id preferred_date tr = (Ok av, tr1) ->
  Py.truthy_opt (av !! "success") = false ->
  appointment_turn env (JObj rfs) tr = (Ok generic_reply, tr1) /\
  http_calls tr1 =
    (http_calls tr ++ [EvGet AVAILABILITY_URL doctor_id preferred_date])%list.
Proof.
  rewrite get_doctor_availability_run. cbv zeta. intros [= <- <-].
  rewrite availability_of_success. intros Hfail.
  rewrite appointment_turn_run. cbv zeta.
  destruct (fetched_times _) as [times|]; [discriminate |].
  split; [reflexivity |].
  rewrite !http_calls_app, http_calls_availability_log, app_nil_r. reflexivity.
Qed.

(** Step 3 on a list of times. *)
Lemma suggest_same_day_list preferred_time l tr :
  Py.assoc "preferred_time" dfs = Some preferred_time ->
  suggest_same_day env (JObj dfs) (JList l) tr =
    (Ok (same_day_reply env preferred_time preferred_date (JList l) (take 5 l)), tr).
Proof.
  intros Htime. unfold suggest_same_day.
  cbv beta iota delta [py_getitem py_slice py_iter bind ret].
  rewrite Htime, Hdate.
  unfold same_day_reply, Display.same_day_text.
  rewrite add_time_lines_spec, !string_app_assoc. reflexivity.
Qed.

(** Step 3 read backwards: a reply from it shows the first five items of
    the times it was given and carries them all. *)
Lemma suggest_same_day_inv times tr reply tr' :
  suggest_same_day env (JObj dfs) times tr = (Ok reply, tr') ->
  exists preferred_time,
    Py.assoc "preferred_time" dfs = Some preferred_time /\
    reply = same_day_reply env preferred_time preferred_date times
              (take 5 (Display.items_of times)) /\
    tr' = tr.
Proof.
  unfold suggest_same_day.
  cbv beta iota delta [py_getitem bind ret].
  destruct (Py.assoc "preferred_time" dfs) as [time|]; [| discriminate].
  rewrite Hdate.
  destruct (py_slice 5 times tr) as [[shown | e] tr1] eqn:Hs; [| discriminate].
  destruct (py_iter shown tr1) as [[items | e] tr2] eqn:Hi; [| discriminate].
  destruct (slice_iter _ _ _ _ _ _ _ Hs Hi) as (-> & -> & _).
  intros [= <- <-]. exists time. split; [reflexivity |]. split; [| reflexivity].
  unfold same_day_reply, Display.same_day_text.
  rewrite add_time_lines_spec, !string_app_assoc. reflexivity.
Qed.

(** C4. The availability check succeeds with the list [l], the preferred
    time is in [l], and the booking attempt that follows reports failure.
    Then the turn answers with the same-day reply built from [l] itself:
    the text lists the first five entries of [l] in their order and the
    payload carries [l] whole, with the requested date.  The turn ends in
    the trace [tr2] that [book_appointment] left, so it performs no action
    of its own, and in particular no availability request, after the
    booking attempt. *)
Theorem C4_failed_booking_offers_fetched_times
    tr av tr1 l preferred_time booking_result tr2 :
  Py.assoc "preferred_time" dfs = Some preferred_time ->
  get_doctor_availability env doctor_id preferred_date tr = (Ok av, tr1) ->
  Py.truthy_opt (av !! "success") = true ->
  av !! "available_times" = Some (JList l) ->
  existsb (Py.eq preferred_time) l = true ->
  book_appointment env (JObj dfs) tr1 = (Ok booking_result, tr2) ->
  Py.truthy_opt (booking_result !! "success") = false ->
  appointment_turn env (JObj rfs) tr =
    (Ok (same_day_reply env preferred_time preferred_date (JList l) (take 5 l)), tr2).
Proof.
  intros Htime. rewrite get_doctor_availability_run. cbv zeta. intros [= <- <-].
  rewrite availability_of_success, availability_of_available_times.
  intros Hsucc Hf Hin Hbook Hfail.
  rewrite (fetched_no_log _ _ _ _ Hf), app_nil_r in Hbook.
  rewrite appointment_turn_run. cbv zeta. rewrite Hf.
  unfold try_preferred_time.
  cbv beta iota delta [py_getitem py_contains bind ret].
  rewrite Htime, Hin, Hbook, Hfail.
  destruct l as [| t l]; [discriminate |].
  cbn [Py.truthy]. apply suggest_same_day_list, Htime.
Qed.

End Turn.

(** ** C1: truncation is for display only *)

(** Case analysis on the next [match] or [if] of a hypothesis about a run. *)
Ltac break_run H :=
  match type of H with
  | context [match ?x with _ => _ end] => destruct x eqn:?; try discriminate H
  | context [if ?x then _ else _] => destruct x eqn:?; try discriminate H
  end.

Lemma fetched_times_inv o times :
  fetched_times o = Some times ->
  exists status fs,
    o = HttpResponse status (Some (JObj fs)) /\
    times = default (JList []) (Py.assoc "available_times" fs).
Proof.
  destruct o as [| msg | status [[| | | | | fs]|]]; try discriminate.
  unfold fetched_times. destruct (is_success status); [| discriminate].
  intros [= <-]. eauto.
Qed.

(** A reply of step 2 is the confirmation: it carries no payload. *)
Lemma try_preferred_time_no_suggestions env details times tr reply tr' :
  try_preferred_time env details times tr = (Ok (Some reply), tr') ->
  suggestions reply = None.
Proof.
  unfold try_preferred_time. cbv beta iota delta [bind ret]. intros H.
  repeat break_run H.
  injection H as <- _. reflexivity.
Qed.

(** Step 4 read backwards. *)
Lemma suggest_next_days_inv env dfs doctor_id preferred_date tr reply tr' :
  Py.assoc "doctor_id" dfs = Some doctor_id ->
  Py.assoc "preferred_date" dfs = Some preferred_date ->
  suggest_next_days env (JObj dfs) tr = (Ok (Some reply), tr') ->
  exists next_days,
    check_next_available_slots env doctor_id preferred_date 5 tr = (Ok next_days, tr') /\
    reply = next_days_reply env preferred_date next_days (take 3 next_days).
Proof.
  intros Hdoctor Hdate. unfold suggest_next_days.
  cbv beta iota delta [py_getitem bind ret]. rewrite Hdoctor, Hdate.
  destruct (check_next_available_slots env doctor_id preferred_date 5 tr)
    as [[next_days | e] tr1]; [| discriminate].
  destruct next_days as [| day next_days]; [discriminate |].
  destruct (add_day_blocks _ _ _ tr1) as [[text | e] tr2] eqn:Hblocks; [| discriminate].
  apply add_day_blocks_spec in Hblocks as [-> ->].
  intros [= <- <-]. eexists. split; [reflexivity |].
  unfold next_days_reply, Display.next_days_text.
  cbn [take Display.day_blocks]. rewrite !string_app_assoc. reflexivity.
Qed.

(** C1. Whenever an appointment turn returns a reply with a suggestions
    payload, the availability check of the turn succeeded with some
    [fetched] value of [available_times], and the reply is one of two.
    Same-day: the text lists the first five items of [fetched], in their
    order, while the payload maps ["available_times"] to [fetched] itself
    and ["date"] to the requested date.  Multi-day: the text shows the
    first three days the scanner returned, each with its first three times,
    while the payload maps ["available_days"] to the whole list the scanner
    returned. *)
Theorem C1_truncation_is_display_only env routing tr reply tr' payload :
  appointment_turn env routing tr = (Ok reply, tr') ->
  suggestions reply = Some payload ->
  exists rfs dfs doctor_id preferred_date status body,
    routing = JObj rfs /\
    default (JObj []) (Py.assoc "details" rfs) = JObj dfs /\
    Py.assoc "doctor_id" dfs = Some doctor_id /\
    Py.assoc "preferred_date" dfs = Some preferred_date /\
    upstream env (tr ++ [EvGet AVAILABILITY_URL doctor_id preferred_date])%list
      = HttpResponse status (Some (JObj body)) /\
    let fetched := default (JList []) (Py.assoc "available_times" body) in
    ((exists preferred_time,
        reply = same_day_reply env preferred_time preferred_date fetched
                  (take 5 (Display.items_of fetched)) /\
        payload = {[ "available_times" := fetched; "date" := preferred_date ]})
     \/
     (exists next_days tr2,
        check_next_available_slots env doctor_id preferred_date 5 tr2
          = (Ok next_days, tr') /\
        reply = next_days_reply env preferred_date next_days (take 3 next_days) /\
        payload = {[ "available_days" := JList next_days ]})).
Proof.
  intros Hrun Hpayload.
  destruct routing as [| | | | | rfs]; try discriminate.
  destruct (Py.truthy (default (JList []) (Py.assoc "missing_fields" rfs))) eqn:Hmissing.
  { exfalso. unfold appointment_turn in Hrun.
    cbv beta iota delta [py_get bind ret] in Hrun. rewrite Hmissing in Hrun.
    break_run Hrun. break_run Hrun. injection Hrun as <- _. discriminate. }
  destruct (default (JObj []) (Py.assoc "details" rfs)) as [| | | | | dfs] eqn:Hdetails;
    try (exfalso; unfold appointment_turn in Hrun;
         cbv beta iota delta [py_get bind ret] in Hrun;
         rewrite Hmissing, Hdetails in Hrun; discriminate).
  destruct (Py.assoc "doctor_id" dfs) as [doctor_id|] eqn:Hdoctor;
    [| exfalso; unfold appointment_turn in Hrun;
       cbv beta iota delta [py_get py_getitem bind ret] in Hrun;
       rewrite Hmissing, Hdetails in Hrun; cbv beta iota in Hrun;
       rewrite Hdoctor in Hrun; discriminate].
  destruct (Py.assoc "preferred_date" dfs) as [preferred_date|] eqn:Hdate;
    [| exfalso; unfold appointment_turn in Hrun;
       cbv beta iota delta [py_get py_getitem bind ret] in Hrun;
       rewrite Hmissing, Hdetails in Hrun; cbv beta iota in Hrun;
       rewrite Hdoctor, Hdate in Hrun; discriminate].
  rewrite (appointment_turn_run env rfs dfs doctor_id preferred_date
             Hmissing Hdetails Hdoctor Hdate) in Hrun.
  cbv zeta in Hrun.
  destruct (fetched_times _) as [times|] eqn:Hf;
    [| injection Hrun as <- _; discriminate].
  destruct (fetched_times_inv _ _ Hf) as (status & body & Hup & ->).
  exists rfs, dfs, doctor_id, preferred_date, status, body.
  do 5 (split; [done |]). cbv zeta.
  set (fetched := default (JList []) (Py.assoc "available_times" body)) in *.
  destruct (try_preferred_time env (JObj dfs) fetched _)
    as [[[confirmed|] | e] tr2] eqn:Hbook; [| | discriminate].
  { injection Hrun as <- _.
    rewrite (try_preferred_time_no_suggestions _ _ _ _ _ _ Hbook) in Hpayload.
    discriminate. }
  destruct (Py.truthy fetched).
  - left.
    destruct (suggest_same_day_inv env dfs preferred_date Hdate _ _ _ _ Hrun)
      as (preferred_time & _ & -> & _).
    exists preferred_time. split; [reflexivity |].
    cbn in Hpayload. by injection Hpayload as <-.
  - right.
    destruct (suggest_next_days env (JObj dfs) tr2) as [[[r|] | e] tr3] eqn:Hnext;
      [| injection Hrun as <- _; discriminate | discriminate].
    injection Hrun as -> ->.
    destruct (suggest_next_days_inv _ _ _ _ _ _ _ Hdoctor Hdate Hnext)
      as (next_days & Hscan & ->).
    exists next_days, tr2. split; [done |]. split; [reflexivity |].
    cbn in Hpayload. by injection Hpayload as <-.
Qed.

(** ** C2: the prompt for missing fields *)

Lemma as_strs_names names tr : as_strs (JStr <$> names) tr = (Ok names, tr).
Proof.
  induction names as [| name names IH]; [reflexivity |].
  cbn [fmap list_fmap as_strs]. unfold bind.
  change (list_fmap string json JStr names) with (JStr <$> names).
  rewrite IH. reflexivity.
Qed.

Lemma fields_missing_run dfs fields tr :
  fields_missing (JObj dfs) fields tr =
    (Ok (filter (fun field => Py.truthy_opt (Py.assoc field dfs) = false) fields), tr).
Proof.
  induction fields as [| field fields IH]; [reflexivity |].
  cbn [fields_missing py_get_opt]. unfold bind at 1. unfold ret at 1.
  unfold bind at 1. rewrite IH. unfold ret.
  rewrite filter_cons. destruct (Py.truthy_opt (Py.assoc field dfs)).
  - rewrite decide_False by discriminate. reflexivity.
  - rewrite decide_True by reflexivity. reflexivity.
Qed.

(** [book_appointment] validates before any request (lines 177-185). *)
Lemma book_appointment_missing env dfs tr :
  empty_fields dfs <> [] ->
  book_appointment env (JObj dfs) tr =
    (Ok (failure ("Missing required fields: " ++ String.concat ", " (empty_fields dfs))), tr).
Proof.
  intros Hne. unfold book_appointment.
  rewrite (bind_ok _ _ _ _ _ (fields_missing_run dfs required_fields tr)).
  fold (empty_fields dfs). destruct (empty_fields dfs); [done | reflexivity].
Qed.

(** C2 (as the code has it).  The turn prompts for missing details exactly
    when the routing's own [missing_fields] is non-empty: for a non-empty
    list of names the reply lists these names, comma-joined in their order,
    and the trace is left as it was, so no request of any kind is made.
    Whether [doctor_id], [preferred_date] or [preferred_time] are empty is
    not looked at by the turn; only [book_appointment] checks it, answering
    with the names of the empty fields before any request. *)
Theorem C2_missing_fields_prompt env rfs names tr :
  Py.assoc "missing_fields" rfs = Some (JList (JStr <$> names)) ->
  names <> [] ->
  appointment_turn env (JObj rfs) tr = (Ok (missing_fields_prompt names), tr)
  /\ (forall dfs tr0,
        empty_fields dfs <> [] ->
        book_appointment env (JObj dfs) tr0 =
          (Ok (failure ("Missing required fields: " ++
                        String.concat ", " (empty_fields dfs))), tr0)).
Proof.
  intros Hmf Hne. split; [| intros dfs tr0; apply book_appointment_missing].
  unfold appointment_turn. cbv beta iota delta [py_get bind ret].
  rewrite Hmf. cbn [default from_option id].
  replace (Py.truthy (JList (JStr <$> names))) with true
    by (by destruct names).
  unfold str_join. cbv beta iota delta [py_iter bind ret].
  rewrite as_strs_names. reflexivity.
Qed.

(** ** C6: a booking conflict *)

Lemma empty_fields_complete dfs :
  Py.truthy_opt (Py.assoc "doctor_id" dfs) = true ->
  Py.truthy_opt (Py.assoc "preferred_date" dfs) = true ->
  Py.truthy_opt (Py.assoc "preferred_time" dfs) = true ->
  empty_fields dfs = [].
Proof.
  intros H1 H2 H3. unfold empty_fields, required_fields.
  rewrite !filter_cons, filter_nil, H1, H2, H3.
  rewrite !decide_False by discriminate. reflexivity.
Qed.

(** C6 (as the code has it).  The details are complete and the booking
    request is answered by a 409 whose body decodes, as the contract of the
    service has it.  Then [book_appointment] logs the conflict,
    fetches the availability of the same doctor and date anew (a request
    made after the booking request) and returns [success] false with the
    error "Time slot no longer available" and an ["alternatives"] key: the
    [available_times] of that fetch when it succeeded, the empty list when
    it failed.  The key is always present. *)
Theorem C6_conflict_fetches_alternatives
    env dfs doctor_id preferred_date response_data tr :
  Py.assoc "doctor_id" dfs = Some doctor_id ->
  Py.truthy doctor_id = true ->
  Py.assoc "preferred_date" dfs = Some preferred_date ->
  Py.truthy preferred_date = true ->
  Py.truthy_opt (Py.assoc "preferred_time" dfs) = true ->
  upstream env (tr ++ [EvPost BOOKING_URL (JObj dfs)])%list
    = HttpResponse 409 (Some response_data) ->
  let tr1 := (tr ++ [EvPost BOOKING_URL (JObj dfs);
                     EvLog INFO ("Booking attempt failed: " ++ py_str env response_data);
                     EvLog WARNING "Requested time slot conflict - fetching alternatives"])%list in
  exists av tr2 result,
    get_doctor_availability env doctor_id preferred_date tr1 = (Ok av, tr2) /\
    book_appointment env (JObj dfs) tr = (Ok result, tr2) /\
    result !! "success" = Some (JBool false) /\
    result !! "error" = Some (JStr "Time slot no longer available") /\
    result !! "alternatives" = Some (default (JList []) (av !! "available_times")) /\
    (Py.truthy_opt (av !! "success") = true ->
     result !! "alternatives" = av !! "available_times") /\
    (Py.truthy_opt (av !! "success") = false ->
     result !! "alternatives" = Some (JList [])).
Proof.
  intros Hdoctor Htd Hdate Htdate Htime Hpost tr1.
  pose proof (get_doctor_availability_run env doctor_id preferred_date tr1) as Hfetch.
  cbv zeta in Hfetch.
  set (o := upstream env (tr1 ++ [EvGet AVAILABILITY_URL doctor_id preferred_date])%list) in *.
  eexists _, _, _. split; [exact Hfetch |].
  split.
  - unfold book_appointment.
    rewrite (bind_ok _ _ _ _ _ (fields_missing_run dfs required_fields tr)).
    fold (empty_fields dfs).
    rewrite empty_fields_complete
      by (rewrite ?Hdoctor, ?Hdate; cbn [Py.truthy_opt]; assumption).
    unfold try_except, bind at 1, client_post. fold BOOKING_URL.
    cbv zeta. rewrite Hpost. cbn [status_code Z.eqb Pos.eqb].
    unfold bind at 1, response_json. cbn [body]. unfold ret at 1.
    unfold bind at 1, log, emit.
    unfold bind at 1. unfold bind at 1.
    unfold bind at 1, py_getitem. rewrite Hdoctor. unfold ret at 1.
    unfold bind at 1. rewrite Hdate. unfold ret at 1.
    unfold bind at 1.
    match goal with
    | |- context [get_doctor_availability env doctor_id preferred_date ?t] =>
        replace t with tr1 by (unfold tr1; rewrite <- !app_assoc; reflexivity)
    end.
    rewrite Hfetch. reflexivity.
  - rewrite availability_of_success, availability_of_available_times.
    destruct (fetched_times o) as [times|]; cbn [Py.truthy_opt Py.truthy].
    + repeat split; try reflexivity. discriminate.
    + repeat split; try reflexivity. discriminate.
Qed.

(** ** The footprint of a computation

    [emits P c]: whatever the trace it starts from, [c] only appends to it,
    and every action it appends satisfies [P]. *)

Lemma emits_ret {A} P (a : A) : emits P (ret a).
Proof. intros tr. exists []. by rewrite app_nil_r. Qed.

Lemma emits_raise {A} P e : emits P (@raise A e).
Proof. intros tr. exists []. by rewrite app_nil_r. Qed.

Lemma emits_emit P e : P e -> emits P (emit e).
Proof. intros He tr. exists [e]. split; [reflexivity | by constructor]. Qed.

Lemma emits_bind {A B} P (c : M A) (k : A -> M B) :
  emits P c -> (forall a, emits P (k a)) -> emits P (bind c k).
Proof.
  intros Hc Hk tr. unfold bind.
  destruct (Hc tr) as (d1 & H1 & F1). destruct (c tr) as [[a | e] tr1]; cbn in H1; subst tr1.
  - destruct (Hk a (tr ++ d1)%list) as (d2 & H2 & F2).
    exists (d1 ++ d2)%list. rewrite H2, app_assoc. split; [reflexivity | by apply Forall_app].
  - exists d1. by split.
Qed.

Lemma emits_try {A} P (c : M A) (h : exn -> M A) :
  emits P c -> (forall e, emits P (h e)) -> emits P (try_except c h).
Proof.
  intros Hc Hh tr. unfold try_except.
  destruct (Hc tr) as (d1 & H1 & F1). destruct (c tr) as [[a | e] tr1]; cbn in H1; subst tr1.
  - exists d1. by split.
  - destruct (Hh e (tr ++ d1)%list) as (d2 & H2 & F2).
    exists (d1 ++ d2)%list. rewrite H2, app_assoc. split; [reflexivity | by apply Forall_app].
Qed.

Create HintDb footprint.

(** Decompose a computation along its binds, handlers and case
    distinctions; the leaves are closed by the lemmas of [footprint]. *)
Ltac footprint :=
  repeat first
    [ solve [auto 1 with footprint nocore]
    | simple apply @emits_ret
    | simple apply @emits_raise
    | simple apply @emits_bind; [| intros ?]
    | simple apply @emits_try; [| intros ?]
    | match goal with
      | |- emits _ (match ?x with _ => _ end) => destruct x
      | |- emits _ (if ?x then _ else _) => destruct x
      end ].

(** *** The negotiation stays outside the retry wrapper *)

Lemma quiet_log level msg : emits quiet (log level msg).
Proof. apply emits_emit. exact I. Qed.

Lemma quiet_client_get env url doctor_id date : emits quiet (client_get env url doctor_id date).
Proof.
  intros tr. exists [EvGet url doctor_id date]. unfold client_get. cbv zeta.
  destruct (upstream env _); (split; [reflexivity | by repeat constructor]).
Qed.

Lemma quiet_client_post env url details : emits quiet (client_post env url details).
Proof.
  intros tr. exists [EvPost url details]. unfold client_post. cbv zeta.
  destruct (upstream env _); (split; [reflexivity | by repeat constructor]).
Qed.

Lemma quiet_py_get d k dflt : emits quiet (py_get d k dflt).
Proof. unfold py_get. footprint. Qed.

Lemma quiet_py_get_opt d k : emits quiet (py_get_opt d k).
Proof. unfold py_get_opt. footprint. Qed.

Lemma quiet_py_getitem d k : emits quiet (py_getitem d k).
Proof. unfold py_getitem. footprint. Qed.

Lemma quiet_py_contains x c : emits quiet (py_contains x c).
Proof. unfold py_contains. footprint. Qed.

Lemma quiet_py_slice n c : emits quiet (py_slice n c).
Proof. unfold py_slice. footprint. Qed.

Lemma quiet_py_iter c : emits quiet (py_iter c).
Proof. unfold py_iter. footprint. Qed.

Lemma quiet_as_strs items : emits quiet (as_strs items).
Proof.
  induction items as [| item items IH]; cbn [as_strs]; [apply emits_ret |].
  destruct item; footprint.
Qed.

#[local] Hint Resolve quiet_log quiet_client_get quiet_client_post quiet_py_get
  quiet_py_get_opt quiet_py_getitem quiet_py_contains quiet_py_slice quiet_py_iter
  quiet_as_strs : footprint.

Lemma quiet_get_doctor_availability env doctor_id date :
  emits quiet (get_doctor_availability env doctor_id date).
Proof. unfold get_doctor_availability, raise_for_status, response_json. footprint. Qed.

#[local] Hint Resolve quiet_get_doctor_availability : footprint.

Lemma quiet_scan_days env doctor_id n :
  forall d slots errors, emits quiet (scan_days env n doctor_id d slots errors).
Proof.
  induction n as [| n IH]; intros d slots errors; cbn [scan_days]; [apply emits_ret |].
  unfold add_one_day. footprint.
Qed.

#[local] Hint Resolve quiet_scan_days : footprint.

Lemma quiet_check_next_available_slots env doctor_id start_date num_days :
  emits quiet (check_next_available_slots env doctor_id start_date num_days).
Proof. unfold check_next_available_slots, strptime. footprint. Qed.

Lemma quiet_fields_missing details fields : emits quiet (fields_missing details fields).
Proof.
  induction fields as [| field fields IH]; cbn [fields_missing]; footprint.
Qed.

#[local] Hint Resolve quiet_check_next_available_slots quiet_fields_missing : footprint.

Lemma quiet_book_appointment env details : emits quiet (book_appointment env details).
Proof. unfold book_appointment, response_json. footprint. Qed.

Lemma quiet_add_day_blocks env days :
  forall text, emits quiet (add_day_blocks env days text).
Proof.
  induction days as [| day days IH]; intros text; cbn [add_day_blocks]; footprint.
Qed.

#[local] Hint Resolve quiet_book_appointment quiet_add_day_blocks : footprint.

(** The appointment turn runs no agent and never sleeps: its requests are
    made outside [process_message]. *)
Lemma quiet_appointment_turn env routing : emits quiet (appointment_turn env routing).
Proof.
  unfold appointment_turn, try_preferred_time, suggest_same_day, suggest_next_days,
    str_join.
  footprint.
Qed.

(** ** C7: the retry wrapper *)

(** One pass through the loop body. *)
Lemma process_message_from_step env n a msg hist tr :
  (n <= max_retries)%nat ->
  process_message_from env n a msg hist tr =
    (let run := EvRun a (hist ++ [user_message msg])%list in
     match swarm_run env (tr ++ [run])%list with
     | RunContent content => (Ok (Some content), (tr ++ [run])%list)
     | RunFault fault =>
         let tr2 := (tr ++ [run; attempt_log env (S n) fault])%list in
         if (max_retries <? S n)%nat then (Raise RETRIES_EXHAUSTED, tr2)
         else if asyncio_bound env
              then process_message_from env (S n) a msg hist (tr2 ++ [EvSleep 1])%list
              else (Raise (NameError "asyncio"), tr2)
     end).
Proof.
  intros Hn. cbv zeta.
  etrans; [apply (f_equal (fun f => f tr)), process_message_from_unfold_eq |].
  unfold process_message_from_unfold.
  destruct (le_dec n max_retries) as [Hle | Hgt]; [| contradiction].
  cbn [process_message_from_unfold_clause_1].
  unfold try_except, bind at 1, client_run. cbv zeta. fold (user_message msg).
  destruct (swarm_run env _) as [fault | content]; [| reflexivity].
  unfold bind at 1, log, emit. unfold bind at 1.
  change (HTTPException 500 ("Processing error after " ++ pretty max_retries ++ " retries"))
    with RETRIES_EXHAUSTED.
  fold (attempt_log env (S n) fault).
  rewrite <- !app_assoc. cbn [app].
  destruct (max_retries <? S n)%nat; [reflexivity |].
  unfold ret at 1. unfold bind at 1, asyncio_sleep.
  destruct (asyncio_bound env); [| reflexivity].
  unfold emit. rewrite <- !app_assoc. reflexivity.
Qed.

Lemma retried_no_http env run tr r delta :
  is_http run = false -> retried env run tr r delta -> http_calls delta = [].
Proof.
  intros Hrun [H | [H | [H | H]]].
  - destruct H as (c & _ & _ & ->). unfold http_calls.
    rewrite !filter_cons, filter_nil, Hrun. by rewrite decide_False.
  - destruct H as (f1 & c & _ & _ & _ & ->). unfold http_calls.
    rewrite !filter_cons, filter_nil, Hrun. by rewrite !decide_False.
  - destruct H as (f1 & f2 & c & _ & _ & _ & _ & ->). unfold http_calls.
    rewrite !filter_cons, filter_nil, Hrun. by rewrite !decide_False.
  - destruct H as (f1 & f2 & f3 & _ & _ & _ & _ & ->). unfold http_calls.
    rewrite !filter_cons, filter_nil, Hrun. by rewrite !decide_False.
Qed.

Lemma process_message_retried env a msg hist tr :
  asyncio_bound env = true ->
  exists r delta,
    process_message env a msg hist tr = (r, (tr ++ delta)%list) /\
    retried env (EvRun a (hist ++ [user_message msg])%list) tr r delta.
Proof.
  intros Hasync. unfold process_message.
  set (run := EvRun a (hist ++ [user_message msg])%list).
  rewrite process_message_from_step by (unfold max_retries; lia).
  cbv zeta. fold run. rewrite Hasync.
  destruct (swarm_run env (tr ++ [run])%list) as [f1 | c1] eqn:H1.
  2: { eexists _, [run]. split; [reflexivity |]. left. eauto. }
  change (max_retries <? 1)%nat with false. cbv iota.
  rewrite process_message_from_step by (unfold max_retries; lia).
  cbv zeta. fold run. rewrite Hasync. rewrite <- !app_assoc. cbn [app].
  destruct (swarm_run env (tr ++ [run; attempt_log env 1 f1; EvSleep 1; run])%list)
    as [f2 | c2] eqn:H2.
  2: { eexists _, _. split; [reflexivity |]. right. left. eauto 10. }
  change (max_retries <? 2)%nat with false. cbv iota.
  rewrite process_message_from_step by (unfold max_retries; lia).
  cbv zeta. fold run. rewrite <- !app_assoc. cbn [app].
  destruct (swarm_run env (tr ++ [run; attempt_log env 1 f1; EvSleep 1;
                                  run; attempt_log env 2 f2; EvSleep 1; run])%list)
    as [f3 | c3] eqn:H3.
  2: { eexists _, _. split; [reflexivity |]. right. right. left. eauto 10. }
  change (max_retries <? 3)%nat with true. cbv iota.
  rewrite <- !app_assoc. cbn [app].
  eexists _, _. split; [reflexivity |]. right. right. right. eauto 10.
Qed.

(** The endpoint after the orchestrator has answered with a routing
    object. *)
Lemma chat_body_appointment env request tr text rfs tr1 :
  process_message env orchestrator_agent (message request)
    (default [] (history request)) tr = (Ok (Some text), tr1) ->
  json_loads env text = Some (JObj rfs) ->
  Py.assoc "agent" rfs = Some (JStr "appointment") ->
  chat_body env request tr = appointment_turn env (JObj rfs) tr1.
Proof.
  intros Hrun Hloads Hagent. unfold chat_body.
  rewrite (bind_ok _ _ _ _ _ Hrun). rewrite Hloads.
  unfold bind at 1. unfold ret at 1. unfold bind at 1, py_get.
  rewrite Hagent. reflexivity.
Qed.

Lemma chat_body_medical env request tr text rfs tr1 :
  process_message env orchestrator_agent (message request)
    (default [] (history request)) tr = (Ok (Some text), tr1) ->
  json_loads env text = Some (JObj rfs) ->
  Py.assoc "agent" rfs = Some (JStr "medical") ->
  chat_body env request tr =
    match process_message env medical_agent (message request)
            (default [] (history request)) tr1 with
    | (Ok (Some answer), tr2) =>
        (Ok (mkMessageResponse answer "Medical Advisor" None None), tr2)
    | (Ok None, tr2) => (Raise ValidationError, tr2)
    | (Raise e, tr2) => (Raise e, tr2)
    end.
Proof.
  intros Hrun Hloads Hagent. unfold chat_body.
  rewrite (bind_ok _ _ _ _ _ Hrun). rewrite Hloads.
  unfold bind at 1. unfold ret at 1. unfold bind at 1, py_get.
  rewrite Hagent. unfold ret at 1. cbn [default from_option id].
  change (Py.eq (JStr "medical") (JStr "appointment")) with false.
  change (Py.eq (JStr "medical") (JStr "medical")) with true.
  cbv iota. unfold bind.
  destruct (process_message env medical_agent _ _ tr1) as [[[answer|] | e] tr2];
    reflexivity.
Qed.

(** An appointment turn seen from the endpoint: the reply of the turn, or
    the apology when the turn raises. *)
Lemma chat_appointment env request tr text rfs tr1 :
  process_message env orchestrator_agent (message request)
    (default [] (history request)) tr = (Ok (Some text), tr1) ->
  json_loads env text = Some (JObj rfs) ->
  Py.assoc "agent" rfs = Some (JStr "appointment") ->
  chat env request tr =
    match appointment_turn env (JObj rfs) tr1 with
    | (Ok reply, tr2) => (Ok reply, tr2)
    | (Raise e, tr2) =>
        (Ok system_reply, (tr2 ++ [EvLog ERROR ("Chat error: " ++ exn_str env e)])%list)
    end.
Proof.
  intros Hrun Hloads Hagent. unfold chat, try_except.
  rewrite (chat_body_appointment env request tr text rfs tr1 Hrun Hloads Hagent).
  destruct (appointment_turn env (JObj rfs) tr1) as [[reply | e] tr2]; reflexivity.
Qed.

(** Only an appointment turn gives the endpoint a suggestions payload. *)
Lemma chat_suggestions_from_turn env request tr reply tr' payload :
  chat env request tr = (Ok reply, tr') ->
  suggestions reply = Some payload ->
  exists routing tr0, appointment_turn env routing tr0 = (Ok reply, tr').
Proof.
  unfold chat, try_except.
  destruct (chat_body env request tr) as [[r | e] t] eqn:Hbody;
    [| intros [= <- _]; discriminate].
  intros [= -> ->] Hpayload.
  unfold chat_body in Hbody. unfold bind at 1 in Hbody.
  destruct (process_message env orchestrator_agent _ _ tr) as [[[text|] | e] tr0];
    try discriminate.
  unfold bind at 1 in Hbody.
  match type of Hbody with
  | context [match ?c with _ => _ end] =>
      destruct c as [[routing | e] tr1] eqn:Hrouting; [| discriminate]
  end.
  unfold bind at 1 in Hbody.
  destruct (py_get routing "agent" (JStr "orchestrator") tr1) as [[agent_name | e] tr2] eqn:Hagent;
    [| discriminate].
  destruct (Py.eq agent_name (JStr "appointment")); [eauto |].
  exfalso. destruct (Py.eq agent_name (JStr "medical")).
  - unfold bind in Hbody. repeat break_run Hbody.
    injection Hbody as <- _. discriminate.
  - unfold bind, validated_str, ret in Hbody. repeat break_run Hbody.
    injection Hbody as <- _. discriminate.
Qed.

(** C7 (as the code has it).  With the module global [asyncio] bound,
    [process_message] makes at most three runs of the agent it is given,
    two retries after the first failure, sleeps one second between two
    runs, and raises [HTTPException] 500 when the third run fails too; it
    issues no HTTP request.  The wrapper serves every agent call of the
    endpoint, not the intent classification alone: a turn routed to
    ["medical"] obtains its answer through [process_message] on the medical
    agent, with the same retries.  The appointment turn, for its part, runs
    no agent and never sleeps: its availability, scan and booking requests
    are made outside the wrapper. *)
Theorem C7_retry_wraps_every_agent_call env a msg hist tr :
  asyncio_bound env = true ->
  (exists r delta,
     process_message env a msg hist tr = (r, (tr ++ delta)%list) /\
     retried env (EvRun a (hist ++ [user_message msg])%list) tr r delta /\
     http_calls delta = [])
  /\
  (forall request tr0 text rfs tr1,
     process_message env orchestrator_agent (message request)
       (default [] (history request)) tr0 = (Ok (Some text), tr1) ->
     json_loads env text = Some (JObj rfs) ->
     Py.assoc "agent" rfs = Some (JStr "medical") ->
     chat_body env request tr0 =
       match process_message env medical_agent (message request)
               (default [] (history request)) tr1 with
       | (Ok (Some answer), tr2) =>
           (Ok (mkMessageResponse answer "Medical Advisor" None None), tr2)
       | (Ok None, tr2) => (Raise ValidationError, tr2)
       | (Raise e, tr2) => (Raise e, tr2)
       end)
  /\
  (forall routing tr0,
     exists delta,
       snd (appointment_turn env routing tr0) = (tr0 ++ delta)%list /\
       Forall quiet delta).
Proof.
  intros Hasync. split; [| split].
  - destruct (process_message_retried env a msg hist tr Hasync) as (r & delta & Hrun & Hret).
    exists r, delta. split; [exact Hrun |]. split; [exact Hret |].
    eapply retried_no_http; [| exact Hret]. reflexivity.
  - intros request tr0 text rfs tr1. apply chat_body_medical.
  - intros routing. apply quiet_appointment_turn.
Qed.

(** ** C8: the outermost handler *)

(** C8 (as the code has it).  The endpoint never lets an exception escape:
    it always returns a [MessageResponse], which FastAPI sends with status
    200.  When the body of its [try] raises [e], the reply is the fixed
    apology with the agent label ["system"], the same for every [e], and
    the detail of [e] goes to one ERROR record of the log only. *)
Theorem C8_fault_becomes_system_reply env request tr :
  exists reply tr',
    chat env request tr = (Ok reply, tr') /\
    http_status (fst (chat env request tr)) = 200%Z /\
    (forall e tr1,
       chat_body env request tr = (Raise e, tr1) ->
       reply = system_reply /\
       tr' = (tr1 ++ [EvLog ERROR ("Chat error: " ++ exn_str env e)])%list).
Proof.
  unfold chat, try_except.
  destruct (chat_body env request tr) as [[reply | e] tr1].
  - exists reply, tr1. repeat split; discriminate.
  - eexists _, _. split; [reflexivity |]. split; [reflexivity |].
    intros e' tr1' [= <- <-]. split; reflexivity.
Qed.

(** ** The theorems at concrete turns *)

(** Seven times are on offer and 12:00 is none of them: five are listed,
    seven are carried. *)
Lemma C1_witness :
  let env := Scenario.service [HttpResponse 200 (Some (Scenario.data Scenario.times7))] in
  let reply := same_day_reply env (JStr "12:00") Scenario.date Scenario.times7
                 (take 5 (Display.items_of Scenario.times7)) in
  let payload : gmap string json :=
    {[ "available_times" := Scenario.times7; "date" := Scenario.date ]} in
  appointment_turn env (JObj (Scenario.routing "12:00" [])) [] = (Ok reply, [Scenario.check])
  /\ suggestions reply = Some payload
  /\ exists rfs dfs doctor_id preferred_date status body,
       JObj (Scenario.routing "12:00" []) = JObj rfs /\
       default (JObj []) (Py.assoc "details" rfs) = JObj dfs /\
       Py.assoc "doctor_id" dfs = Some doctor_id /\
       Py.assoc "preferred_date" dfs = Some preferred_date /\
       upstream env ([] ++ [EvGet AVAILABILITY_URL doctor_id preferred_date])%list
         = HttpResponse status (Some (JObj body)) /\
       let fetched := default (JList []) (Py.assoc "available_times" body) in
       ((exists preferred_time,
           reply = same_day_reply env preferred_time preferred_date fetched
                     (take 5 (Display.items_of fetched)) /\
           payload = {[ "available_times" := fetched; "date" := preferred_date ]})
        \/
        (exists next_days tr2,
           check_next_available_slots env doctor_id preferred_date 5 tr2
             = (Ok next_days, [Scenario.check]) /\
           reply = next_days_reply env preferred_date next_days (take 3 next_days) /\
           payload = {[ "available_days" := JList next_days ]})).
Proof.
  intros env reply payload.
  assert (Hrun : appointment_turn env (JObj (Scenario.routing "12:00" [])) []
                 = (Ok reply, [Scenario.check])) by (vm_compute; reflexivity).
  assert (Hpayload : suggestions reply = Some payload) by reflexivity.
  split; [exact Hrun |]. split; [exact Hpayload |].
  exact (C1_truncation_is_display_only env _ [] reply _ payload Hrun Hpayload).
Defined.

(** The orchestrator names two missing fields. *)
Lemma C2_witness :
  let rfs := [("agent", JStr "appointment");
              ("details", JObj [("doctor_id", JStr "dr_001")]);
              ("missing_fields", JList [JStr "preferred_date"; JStr "preferred_time"])] in
  let names := ["preferred_date"; "preferred_time"] in
  let env := Scenario.service [] in
  Py.assoc "missing_fields" rfs = Some (JList (JStr <$> names))
  /\ names <> []
  /\ appointment_turn env (JObj rfs) [] = (Ok (missing_fields_prompt names), [])
  /\ (forall dfs tr0,
        empty_fields dfs <> [] ->
        book_appointment env (JObj dfs) tr0 =
          (Ok (failure ("Missing required fields: " ++
                        String.concat ", " (empty_fields dfs))), tr0)).
Proof.
  intros rfs names env.
  assert (H1 : Py.assoc "missing_fields" rfs = Some (JList (JStr <$> names)))
    by reflexivity.
  assert (H2 : names <> []) by discriminate.
  split; [exact H1 |]. split; [exact H2 |].
  exact (C2_missing_fields_prompt env rfs names [] H1 H2).
Defined.

(** The availability check times out. *)
Lemma C3_witness :
  let env := Scenario.service [HttpTimeout] in
  let tr1 := [Scenario.check;
              EvLog ERROR "Timeout while fetching availability for doctor dr_001"] in
  get_doctor_availability env Scenario.doctor Scenario.date []
    = (Ok (failure "Service temporarily unavailable"), tr1)
  /\ appointment_turn env (JObj (Scenario.routing "09:00" [])) [] = (Ok generic_reply, tr1)
  /\ http_calls tr1 = ([] ++ [Scenario.check])%list.
Proof.
  intros env tr1.
  assert (Hcheck : get_doctor_availability env Scenario.doctor Scenario.date []
                   = (Ok (failure "Service temporarily unavailable"), tr1))
    by (vm_compute; reflexivity).
  split; [exact Hcheck |].
  exact (C3_failed_check_generic_reply env (Scenario.routing "09:00" [])
           (Scenario.details "09:00") Scenario.doctor Scenario.date
           eq_refl eq_refl eq_refl eq_refl [] _ tr1 Hcheck eq_refl).
Defined.

(** 09:00 is on offer, the booking request is answered by a 500. *)
Lemma C4_witness :
  let env := Scenario.service
               [HttpResponse 200 (Some (Scenario.data Scenario.times3));
                HttpResponse 500 (Some (JObj [("detail", JStr "Server error")]))] in
  let l := [JStr "09:00"; JStr "10:00"; JStr "14:00"] in
  let tr2 := [Scenario.check;
              EvPost BOOKING_URL (JObj (Scenario.details "09:00"));
              EvLog INFO "Booking attempt failed: <repr>"] in
  book_appointment env (JObj (Scenario.details "09:00")) [Scenario.check]
    = (Ok (failure "Server error"), tr2)
  /\ appointment_turn env (JObj (Scenario.routing "09:00" [])) []
     = (Ok (same_day_reply env (JStr "09:00") Scenario.date (JList l) (take 5 l)), tr2).
Proof.
  intros env l tr2.
  assert (Hcheck : get_doctor_availability env Scenario.doctor Scenario.date []
                   = (Ok (availability_of (HttpResponse 200 (Some (Scenario.data Scenario.times3)))),
                      [Scenario.check]))
    by (vm_compute; reflexivity).
  assert (Hbook : book_appointment env (JObj (Scenario.details "09:00")) [Scenario.check]
                  = (Ok (failure "Server error"), tr2))
    by (vm_compute; reflexivity).
  split; [exact Hbook |].
  exact (C4_failed_booking_offers_fetched_times env (Scenario.routing "09:00" [])
           (Scenario.details "09:00") Scenario.doctor Scenario.date
           eq_refl eq_refl eq_refl eq_refl
           [] _ [Scenario.check] l (JStr "09:00") _ tr2
           eq_refl Hcheck eq_refl eq_refl eq_refl Hbook eq_refl).
Defined.


(** The booking request meets a conflict and the fetch that follows times
    out. *)
Lemma C6_witness :
  let env := Scenario.service
               [HttpResponse 409 (Some (JObj [("detail", JStr "Slot taken")]));
                HttpTimeout] in
  exists result tr2,
    book_appointment env (JObj (Scenario.details "09:00")) [] = (Ok result, tr2) /\
    result !! "error" = Some (JStr "Time slot no longer available") /\
    result !! "alternatives" = Some (JList []).
Proof.
  intros env.
  destruct (C6_conflict_fetches_alternatives env (Scenario.details "09:00")
              Scenario.doctor Scenario.date (JObj [("detail", JStr "Slot taken")]) []
              eq_refl eq_refl eq_refl eq_refl eq_refl eq_refl)
    as (av & tr2 & result & Hfetch & Hbook & _ & Herror & _ & _ & Hfailed).
  exists result, tr2. split; [exact Hbook |]. split; [exact Herror |].
  apply Hfailed. rewrite get_doctor_availability_run in Hfetch.
  injection Hfetch as <- _. vm_compute. reflexivity.
Defined.

(** The medical agent fails once and then answers. *)
Lemma C7_witness :
  let env := Scenario.swarm [RunFault "overloaded"; RunContent "answer"] true in
  asyncio_bound env = true
  /\ exists r delta,
       process_message env medical_agent Scenario.question [] [] = (r, ([] ++ delta)%list) /\
       retried env (EvRun medical_agent ([] ++ [user_message Scenario.question])%list) [] r delta /\
       http_calls delta = [].
Proof.
  intros env. split; [reflexivity |].
  exact (proj1 (C7_retry_wraps_every_agent_call env medical_agent
                  Scenario.question [] [] eq_refl)).
Defined.

(** An ISO date is not a ["%m/%d/%Y"] date. *)
Lemma C9_witness :
  Calendar.strptime "2024-12-15" = None
  /\ exists msg,
       check_next_available_slots (Scenario.service []) Scenario.doctor
         (JStr "2024-12-15") 5 [] = (Raise (ValueError msg), []).
Proof.
  split; [reflexivity |].
  exact (C9_malformed_start_date_raises (Scenario.service []) Scenario.doctor
           "2024-12-15" 5 [] eq_refl).
Defined.

(** ** Where the specification and the code part *)

(** C2, as stated, fails: [preferred_time] is empty, yet the orchestrator
    reported no missing field.  The turn asks the scheduling service and
    answers with the times of the day instead of prompting for the
    field. *)
Lemma C2_counterexample :
  let env := Scenario.service [HttpResponse 200 (Some (Scenario.data Scenario.times3))] in
  Py.truthy_opt (Py.assoc "preferred_time" (Scenario.details "")) = false
  /\ appointment_turn env (JObj (Scenario.routing "" [])) []
     = (Ok (same_day_reply env (JStr "") Scenario.date Scenario.times3
              (take 5 (Display.items_of Scenario.times3))),
        [Scenario.check])
  /\ http_calls [Scenario.check] = [Scenario.check].
Proof. intros env. split; [reflexivity |]. split; vm_compute; reflexivity. Qed.


(** C6, as stated, fails: not every 409 leads to alternatives.  The body of
    a response that is not a 200 is decoded before its status is looked at
    again; when the body of the 409 does not decode, [response.json()]
    raises, and the result is the unexpected-error dict: no
    ["alternatives"] key, and no availability request although the service
    would have answered it. *)
Lemma C6_counterexample :
  let env := Scenario.service
               [HttpResponse 409 None;
                HttpResponse 200 (Some (Scenario.data Scenario.times3))] in
  let dfs := Scenario.details "09:00" in
  let post := EvPost BOOKING_URL (JObj dfs) in
  empty_fields dfs = []
  /\ upstream env [post] = HttpResponse 409 None
  /\ book_appointment env (JObj dfs) []
     = (Ok (failure "An unexpected error occurred"),
        [post; EvLog ERROR "Error booking appointment: <exception>"])
  /\ failure "An unexpected error occurred" !! "alternatives" = None.
Proof. intros env dfs post. repeat split; vm_compute; reflexivity. Qed.

(** C7, as stated, fails: the retries are not reserved to the intent
    classification.  In a medical turn whose first run of the medical agent
    fails, that run is repeated after the one-second sleep. *)
Lemma C7_counterexample :
  let env := Scenario.swarm
               [RunContent "M"; RunFault "overloaded"; RunContent "answer"] true in
  let conversation := [user_message Scenario.question] in
  chat env (mkRequest Scenario.question None None) []
  = (Ok (mkMessageResponse "answer" "Medical Advisor" None None),
     [EvRun orchestrator_agent conversation;
      EvRun medical_agent conversation;
      attempt_log env 1 "overloaded";
      EvSleep 1;
      EvRun medical_agent conversation]).
Proof. vm_compute. reflexivity. Qed.

(** C8, as stated, fails: a fault in the body of the endpoint is answered
    with status 200.  Here the orchestrator's text decodes to a list, so
    [routing.get] raises. *)
Lemma C8_counterexample :
  let env := Scenario.swarm [RunContent "L"] false in
  let request := mkRequest Scenario.question None None in
  chat_body env request []
  = (Raise (AttributeError "get"), [EvRun orchestrator_agent [user_message Scenario.question]])
  /\ fst (chat env request []) = Ok system_reply
  /\ is_success (http_status (fst (chat env request []))) = true.
Proof. intros env request. repeat split; vm_compute; reflexivity. Qed.

(** ** Further runs *)

(** The turn of [test_chat_endpoint_appointment]: 09:00 is on offer and the
    booking succeeds. *)
Example booking_confirmed :
  let env := Scenario.service
               [HttpResponse 200 (Some (Scenario.data Scenario.times3));
                HttpResponse 200 (Some (JObj [("appointment_id", JStr "apt123")]))] in
  appointment_turn env (JObj (Scenario.routing "09:00" [])) []
  = (Ok (mkMessageResponse
           "Great! Your appointment with Dr. dr_001 is confirmed for 12/15/2024 at 09:00."
           "Appointment Coordinator" None None),
     [Scenario.check;
      EvPost BOOKING_URL (JObj (Scenario.details "09:00"));
      EvLog INFO "Successfully booked appointment for dr_001"]).
Proof. vm_compute. reflexivity. Qed.

(** The scan of the specification: of five days the second fails; four
    records come back, in order, and one warning is logged. *)
Example scan_skips_failed_day :
  let ok := HttpResponse 200 (Some (Scenario.data Scenario.times3)) in
  let env := Scenario.service [ok; HttpTimeout; ok; ok; ok] in
  let r := check_next_available_slots env Scenario.doctor (JStr "12/30/2024") 5 [] in
  fst r = Ok [day_slot "12/30/2024" Scenario.times3;
              day_slot "01/01/2025" Scenario.times3;
              day_slot "01/02/2025" Scenario.times3;
              day_slot "01/03/2025" Scenario.times3]
  /\ last (snd r)
     = Some (EvLog WARNING
               "Errors while checking availability: Error checking 12/31/2024: Service temporarily unavailable").
Proof. intros ok env r. split; vm_compute; reflexivity. Qed.

(** The day is fully booked and the scan finds four days of four times
    each: the text shows three days of three times, the payload holds all
    four days with all their times. *)
Example next_days_truncated :
  let four := JList [JStr "09:00"; JStr "10:00"; JStr "11:00"; JStr "14:00"] in
  let ok := HttpResponse 200 (Some (Scenario.data four)) in
  let env := Scenario.service
               [HttpResponse 200 (Some (Scenario.data (JList []))); ok; ok; ok; ok; HttpTimeout] in
  let days := [day_slot "12/15/2024" four; day_slot "12/16/2024" four;
               day_slot "12/17/2024" four; day_slot "12/18/2024" four] in
  let block (d : string) :=
    "For " ++ d ++ ":" ++ nl ++ "- 09:00" ++ nl ++ "- 10:00" ++ nl ++ "- 11:00" ++ nl ++ nl in
  let reply := fst (appointment_turn env (JObj (Scenario.routing "09:00" [])) []) in
  reply = Ok (next_days_reply env Scenario.date days (take 3 days))
  /\ Display.next_days_text env Scenario.date (take 3 days)
     = "I apologize, but there are no appointments available on 12/15/2024. " ++
       "Here are the next available slots:" ++ nl ++ nl ++
       block "12/15/2024" ++ block "12/16/2024" ++ block "12/17/2024" ++
       "Would you like to book any of these times?".
Proof. intros four ok env days block reply. split; vm_compute; reflexivity. Qed.

(** Imported rather than run as a script, the module has no [asyncio]: the
    first failed run ends [process_message] with a [NameError]. *)
Example retry_needs_asyncio :
  let env := Scenario.swarm [RunFault "overloaded"; RunContent "M"] false in
  process_message env orchestrator_agent Scenario.question [] []
  = (Raise (NameError "asyncio"),
     [EvRun orchestrator_agent [user_message Scenario.question];
      attempt_log env 1 "overloaded"]).
Proof. vm_compute. reflexivity. Qed.

(** A 409 whose body does not decode is handled as an unexpected error. *)
Example conflict_without_body :
  let env := Scenario.service [HttpResponse 409 None] in
  fst (book_appointment env (JObj (Scenario.details "09:00")) [])
  = Ok (failure "An unexpected error occurred").
Proof. vm_compute. reflexivity. Qed.

(** [datetime] ends on 12/31/9999: a window that reaches it is scanned in
    full, and the step past its last day raises. *)
Example scan_at_the_end_of_time :
  let env := Scenario.service [] in
  let r := check_next_available_slots env Scenario.doctor (JStr "12/27/9999") 5 [] in
  fst r = Raise OverflowError /\ length (http_calls (snd r)) = 5%nat.
Proof. intros env r. split; vm_compute; reflexivity. Qed.

(** The open question of the specification: the booking meets a conflict,
    [book_appointment] fetches the fresh list (09:00 is gone), and the turn
    still offers the list of its first check. *)
Example stale_list_after_conflict :
  let fresh := JList [JStr "10:00"; JStr "14:00"] in
  let env := Scenario.service
               [HttpResponse 200 (Some (Scenario.data Scenario.times3));
                HttpResponse 409 (Some (JObj [("detail", JStr "Slot taken")]));
                HttpResponse 200 (Some (Scenario.data fresh))] in
  let r := appointment_turn env (JObj (Scenario.routing "09:00" [])) [] in
  fst r = Ok (same_day_reply env (JStr "09:00") Scenario.date Scenario.times3
                (take 5 (Display.items_of Scenario.times3)))
  /\ http_calls (snd r)
     = [Scenario.check;
        EvPost BOOKING_URL (JObj (Scenario.details "09:00"));
        Scenario.check].
Proof. intros fresh env r. split; vm_compute; reflexivity. Qed.

(** [test_chat_endpoint_appointment], through the endpoint: the mocked
    orchestrator answers with a routing that has no [missing_fields], and
    every HTTP call is answered by a 200 carrying the availability data. *)
Example chat_test_appointment :
  let routing := JObj [("agent", JStr "appointment");
                       ("details", JObj [("doctor_id", JStr "dr_003");
                                         ("preferred_date", JStr "12/15/2024");
                                         ("preferred_time", JStr "09:00")])] in
  let ok := HttpResponse 200 (Some (Scenario.data Scenario.times3)) in
  let env := scripted_env [ok; ok] [RunContent "R"] [("R", routing)] false in
  fst (chat env (mkRequest "I need to schedule an appointment" (Some []) None) [])
  = Ok (mkMessageResponse
          "Great! Your appointment with Dr. dr_003 is confirmed for 12/15/2024 at 09:00."
          "Appointment Coordinator" None None).
Proof. vm_compute. reflexivity. Qed.

(** * Further properties of the code

    What the functions of [agent.py] do beyond the statements of the
    specification: their edge cases, what they keep and what they never
    do. *)

(** * Further properties of the code *)

(** ** [book_appointment], outcome by outcome *)

Lemma empty_fields_nil dfs :
  empty_fields dfs = [] ->
  Py.truthy_opt (Py.assoc "doctor_id" dfs) = true /\
  Py.truthy_opt (Py.assoc "preferred_date" dfs) = true /\
  Py.truthy_opt (Py.assoc "preferred_time" dfs) = true.
Proof.
  unfold empty_fields, required_fields. rewrite !filter_cons, filter_nil.
  destruct (Py.truthy_opt (Py.assoc "doctor_id" dfs));
    [| rewrite decide_True by reflexivity; discriminate].
  destruct (Py.truthy_opt (Py.assoc "preferred_date" dfs));
    [| rewrite decide_False, decide_True by done; discriminate].
  destruct (Py.truthy_opt (Py.assoc "preferred_time" dfs));
    [| rewrite !decide_False, decide_True by done; discriminate].
  done.
Qed.

Lemma truthy_opt_some o : Py.truthy_opt o = true -> exists v, o = Some v /\ Py.truthy v = true.
Proof. destruct o as [v|]; [eauto | discriminate]. Qed.

Lemma book_appointment_run env dfs doctor_id preferred_date tr :
  empty_fields dfs = [] ->
  Py.assoc "doctor_id" dfs = Some doctor_id ->
  Py.assoc "preferred_date" dfs = Some preferred_date ->
  book_appointment env (JObj dfs) tr =
    (Ok (fst (booking_run env dfs doctor_id preferred_date tr)),
     snd (booking_run env dfs doctor_id preferred_date tr)).
Proof.
  intros Hfields Hdoctor Hdate. unfold book_appointment.
  rewrite (bind_ok _ _ _ _ _ (fields_missing_run dfs required_fields tr)).
  fold (empty_fields dfs). rewrite Hfields.
  unfold booking_run, try_except, bind at 1, client_post. fold BOOKING_URL. cbv zeta.
  set (tr1 := (tr ++ [EvPost BOOKING_URL (JObj dfs)])%list).
  destruct (upstream env tr1) as [| msg | status b]; [reflexivity | reflexivity |].
  cbn [status_code].
  destruct (status =? 200)%Z.
  - unfold bind at 1, py_getitem. rewrite Hdoctor. unfold ret at 1.
    unfold bind at 1, log, emit. unfold bind at 1, response_json. cbn [body].
    destruct b as [data|]; reflexivity.
  - unfold bind at 1, response_json. cbn [body].
    destruct b as [response_data|]; [| reflexivity].
    unfold ret at 1. unfold bind at 1, log, emit.
    destruct (status =? 409)%Z.
    + unfold bind at 1. unfold bind at 1, py_getitem. rewrite Hdoctor. unfold ret at 1.
      unfold bind at 1. rewrite Hdate. unfold ret at 1. unfold bind at 1.
      rewrite get_doctor_availability_run. cbv zeta.
      rewrite availability_of_available_times.
      rewrite <- !app_assoc. reflexivity.
    + unfold bind at 1, py_get.
      destruct response_data; reflexivity.
Qed.

Lemma complete_fields dfs :
  empty_fields dfs = [] ->
  exists doctor_id preferred_date,
    Py.assoc "doctor_id" dfs = Some doctor_id /\
    Py.assoc "preferred_date" dfs = Some preferred_date.
Proof.
  intros H. destruct (empty_fields_nil dfs H) as (H1 & H2 & _).
  destruct (truthy_opt_some _ H1) as (d & -> & _).
  destruct (truthy_opt_some _ H2) as (p & -> & _). eauto.
Qed.

Lemma http_calls_log tr level msg : http_calls (tr ++ [EvLog level msg])%list = http_calls tr.
Proof. rewrite http_calls_app. cbn. apply app_nil_r. Qed.

Lemma http_calls_post tr url b :
  http_calls (tr ++ [EvPost url b])%list = (http_calls tr ++ [EvPost url b])%list.
Proof. rewrite http_calls_app. reflexivity. Qed.

Lemma http_calls_get tr url d dt :
  http_calls (tr ++ [EvGet url d dt])%list = (http_calls tr ++ [EvGet url d dt])%list.
Proof. rewrite http_calls_app. reflexivity. Qed.

(** X1. On an object, [book_appointment] never raises: every failure of
    the exchange is caught and turned into a dict.  The dict is tagged: with
    [success] true it carries ["data"] and neither ["error"] nor
    ["alternatives"]; with [success] false it carries ["error"] and no
    ["data"], and ["alternatives"] only beside the error "Time slot no
    longer available". *)
Theorem X1_book_appointment_returns_tagged_dict env dfs tr :
  exists r tr',
    book_appointment env (JObj dfs) tr = (Ok r, tr') /\
    ((r !! "success" = Some (JBool true) /\
      is_Some (r !! "data") /\ r !! "error" = None /\ r !! "alternatives" = None)
     \/
     (r !! "success" = Some (JBool false) /\
      is_Some (r !! "error") /\ r !! "data" = None /\
      (is_Some (r !! "alternatives") ->
       r !! "error" = Some (JStr "Time slot no longer available")))).
Proof.
  destruct (empty_fields dfs) as [| field fields] eqn:Hfields.
  - destruct (complete_fields dfs Hfields) as (doctor_id & preferred_date & Hd & Hp).
    eexists _, _. split; [apply (book_appointment_run _ _ _ _ _ Hfields Hd Hp) |].
    unfold booking_run. cbv zeta.
    destruct (upstream env _) as [| msg | status b]; cbn [fst].
    + right. repeat split; eauto. intros [? [=]].
    + right. repeat split; eauto. intros [? [=]].
    + destruct (status =? 200)%Z.
      * destruct b as [data|]; cbn [fst].
        -- left. repeat split; eauto.
        -- right. repeat split; eauto. intros [? [=]].
      * destruct b as [response_data|]; cbn [fst].
        2: { right. repeat split; eauto. intros [? [=]]. }
        destruct (status =? 409)%Z; cbn [fst].
        -- right. repeat split; eauto.
        -- destruct response_data; cbn [fst]; right; repeat split; eauto;
             intros [? [=]].
  - eexists _, _. split; [apply book_appointment_missing; by rewrite Hfields |].
    right. repeat split; eauto. intros [? [=]].
Qed.

(** X2. [book_appointment] reports success exactly when the three
    required fields are non-empty and its POST is answered by a 200 whose
    body decodes; the ["data"] of the result is then that body.  No other
    status, 201 included, counts as a booking. *)
Theorem X2_booking_succeeds_iff_200 env dfs tr r tr' :
  book_appointment env (JObj dfs) tr = (Ok r, tr') ->
  Py.truthy_opt (r !! "success") = true <->
  (empty_fields dfs = [] /\
   exists data,
     upstream env (tr ++ [EvPost BOOKING_URL (JObj dfs)])%list
       = HttpResponse 200 (Some data) /\
     r !! "data" = Some data).
Proof.
  destruct (empty_fields dfs) as [| field fields] eqn:Hfields.
  - destruct (complete_fields dfs Hfields) as (doctor_id & preferred_date & Hd & Hp).
    rewrite (book_appointment_run _ _ _ _ _ Hfields Hd Hp).
    unfold booking_run. cbv zeta.
    destruct (upstream env _) as [| msg | status b]; cbn [fst snd].
    + intros [= <- _]. split; [discriminate | intros (_ & data & [=] & _)].
    + intros [= <- _]. split; [discriminate | intros (_ & data & [=] & _)].
    + destruct (Z.eqb_spec status 200) as [-> | Hne].
      * destruct b as [data|]; cbn [fst snd]; intros [= <- _].
        -- split; [intros _; split; [done | by exists data] | reflexivity].
        -- split; [discriminate | intros (_ & data & [=] & _)].
      * assert (forall data, HttpResponse status b <> HttpResponse 200 (Some data)) as Hup
          by (intros data [= -> _]; done).
        destruct b as [response_data|]; cbn [fst snd].
        2: { intros [= <- _]. split; [discriminate | intros (_ & data & H & _)].
             by destruct (Hup data). }
        destruct (status =? 409)%Z; cbn [fst snd].
        -- intros [= <- _]. split; [discriminate | intros (_ & data & H & _)].
           by destruct (Hup data).
        -- destruct response_data; cbn [fst snd]; intros [= <- _];
             (split; [discriminate | intros (_ & data & H & _); by destruct (Hup data)]).
  - rewrite book_appointment_missing by (by rewrite Hfields).
    intros [= <- _]. split; [discriminate | intros ([=] & _)].
Qed.

(** The requests of a booking attempt with its three fields filled. *)
Lemma booking_run_http_calls env dfs doctor_id preferred_date tr :
  let post := EvPost BOOKING_URL (JObj dfs) in
  let get := EvGet AVAILABILITY_URL doctor_id preferred_date in
  http_calls (snd (booking_run env dfs doctor_id preferred_date tr)) =
    (http_calls tr ++
     if conflicting (upstream env (tr ++ [post])%list) then [post; get] else [post])%list.
Proof.
  cbv zeta. unfold booking_run. cbv zeta.
  destruct (upstream env _) as [| msg | status b]; cbn [snd conflicting].
  - by rewrite http_calls_log, http_calls_post.
  - by rewrite http_calls_log, http_calls_post.
  - destruct (Z.eqb_spec status 200) as [-> | Hne].
    + destruct b as [data|]; cbn [snd];
        by rewrite ?http_calls_log, http_calls_post.
    + destruct b as [response_data|]; cbn [snd].
      2: { by rewrite http_calls_log, http_calls_post. }
      destruct (status =? 409)%Z; cbn [snd].
      * rewrite http_calls_app, http_calls_availability_log, app_nil_r.
        rewrite http_calls_app, http_calls_log, http_calls_post.
        rewrite <- app_assoc. reflexivity.
      * destruct response_data; cbn [snd];
          by rewrite ?http_calls_log, http_calls_post.
Qed.

(** X3. The requests of one [book_appointment]: none when a required field
    is empty; otherwise one POST carrying the details as they were given,
    followed by one availability GET for the details' doctor and date exactly
    when the POST was answered by a 409 whose body decodes.  Nothing is sent
    twice. *)
Theorem X3_book_appointment_requests env dfs tr :
  let post := EvPost BOOKING_URL (JObj dfs) in
  let get := EvGet AVAILABILITY_URL
               (default JNull (Py.assoc "doctor_id" dfs))
               (default JNull (Py.assoc "preferred_date" dfs)) in
  http_calls (snd (book_appointment env (JObj dfs) tr)) =
    (http_calls tr ++
     match empty_fields dfs with
     | _ :: _ => []
     | [] => if conflicting (upstream env (tr ++ [post])%list) then [post; get] else [post]
     end)%list.
Proof.
  cbv zeta.
  destruct (empty_fields dfs) as [| field fields] eqn:Hfields.
  - destruct (complete_fields dfs Hfields) as (doctor_id & preferred_date & Hd & Hp).
    rewrite (book_appointment_run _ _ _ _ _ Hfields Hd Hp). rewrite Hd, Hp.
    cbn [default from_option id snd].
    apply booking_run_http_calls.
  - rewrite book_appointment_missing by (by rewrite Hfields).
    cbn [snd]. by rewrite app_nil_r.
Qed.

(** X4. A 200 whose body cannot be decoded: the INFO record "Successfully
    booked appointment" is already written when [response.json()] raises,
    and the function returns [success] false with the unexpected-error
    message.  A booking the service accepted is reported as failed. *)
Theorem X4_accepted_booking_reported_failed env dfs doctor_id tr :
  empty_fields dfs = [] ->
  Py.assoc "doctor_id" dfs = Some doctor_id ->
  upstream env (tr ++ [EvPost BOOKING_URL (JObj dfs)])%list = HttpResponse 200 None ->
  book_appointment env (JObj dfs) tr =
    (Ok (failure "An unexpected error occurred"),
     (tr ++ [EvPost BOOKING_URL (JObj dfs);
             EvLog INFO ("Successfully booked appointment for " ++ py_str env doctor_id);
             EvLog ERROR ("Error booking appointment: " ++ exn_str env JSONDecodeError)])%list).
Proof.
  intros Hfields Hd Hup.
  destruct (complete_fields dfs Hfields) as (d & preferred_date & Hd' & Hp).
  rewrite Hd in Hd'. injection Hd' as <-.
  rewrite (book_appointment_run _ _ _ _ _ Hfields Hd Hp).
  unfold booking_run. cbv zeta. rewrite Hup. cbn [Z.eqb Pos.eqb fst snd].
  rewrite <- !app_assoc. reflexivity.
Qed.

(** X5. A refusal that is neither a 200 nor a 409: when the body is an
    object, the ["error"] of the result is its ["detail"] as it came (any
    JSON value), or "Booking failed" when it has none; a body of another
    JSON type gives the unexpected-error message.  One request is made and
    the result has no ["alternatives"]. *)
Theorem X5_refusal_passes_detail_on env dfs response_data status tr :
  empty_fields dfs = [] ->
  status <> 200%Z -> status <> 409%Z ->
  upstream env (tr ++ [EvPost BOOKING_URL (JObj dfs)])%list
    = HttpResponse status (Some response_data) ->
  exists r tr',
    book_appointment env (JObj dfs) tr = (Ok r, tr') /\
    r = match response_data with
        | JObj fs => refused (default (JStr "Booking failed") (Py.assoc "detail" fs))
        | _ => failure "An unexpected error occurred"
        end /\
    r !! "alternatives" = None /\
    http_calls tr' = (http_calls tr ++ [EvPost BOOKING_URL (JObj dfs)])%list.
Proof.
  intros Hfields H200 H409 Hup.
  destruct (complete_fields dfs Hfields) as (doctor_id & preferred_date & Hd & Hp).
  rewrite (book_appointment_run _ _ _ _ _ Hfields Hd Hp).
  unfold booking_run. cbv zeta. rewrite Hup.
  rewrite (proj2 (Z.eqb_neq _ _) H200), (proj2 (Z.eqb_neq _ _) H409).
  eexists _, _. split; [reflexivity |].
  destruct response_data; cbn [fst snd];
    (split; [reflexivity |]; split; [reflexivity |]);
    by rewrite ?http_calls_log, http_calls_post.
Qed.

(** ** [get_doctor_availability]: one request, one verdict *)

(** X6. Whatever the outcome, one call of [get_doctor_availability] sends
    exactly one request, the GET with the doctor and the date it was given:
    a failure is not retried.  A success leaves nothing else in the trace; a
    failure leaves one ERROR record after the request. *)
Theorem X6_availability_asks_once env doctor_id date tr :
  let get := EvGet AVAILABILITY_URL doctor_id date in
  exists av tr',
    get_doctor_availability env doctor_id date tr = (Ok av, tr') /\
    http_calls tr' = (http_calls tr ++ [get])%list /\
    (Py.truthy_opt (av !! "success") = true -> tr' = (tr ++ [get])%list) /\
    (Py.truthy_opt (av !! "success") = false ->
     exists msg, tr' = (tr ++ [get; EvLog ERROR msg])%list).
Proof.
  cbv zeta. eexists _, _. split; [apply get_doctor_availability_run |].
  cbv zeta. set (o := upstream env _).
  split; [| split].
  - by rewrite http_calls_app, http_calls_availability_log, app_nil_r, http_calls_get.
  - rewrite availability_of_success.
    destruct (fetched_times o) as [times|] eqn:Hf; [| discriminate].
    intros _. by rewrite (fetched_no_log _ _ _ _ Hf), app_nil_r.
  - rewrite availability_of_success.
    destruct (fetched_times o) as [times|] eqn:Hf; [discriminate |].
    intros _. rewrite <- app_assoc. cbn [app].
    destruct o as [| msg | status [[| | | | | fs]|]]; cbn [availability_log];
      unfold fetched_times in Hf; try destruct (is_success status);
      try discriminate; eauto.
Qed.

(** X7. The error text of a failed fetch names the kind of failure and
    nothing else: "Service temporarily unavailable" stands for a time-out,
    "Unable to fetch availability" for a status outside 2xx (the status
    itself is only logged), "An unexpected error occurred" for every other
    failure: a transport fault, or a 2xx whose body does not decode to an
    object. *)
Theorem X7_availability_error_names_the_failure env doctor_id date tr :
  let o := upstream env (tr ++ [EvGet AVAILABILITY_URL doctor_id date])%list in
  exists av tr',
    get_doctor_availability env doctor_id date tr = (Ok av, tr') /\
    (av !! "error" = Some (JStr "Service temporarily unavailable") <-> o = HttpTimeout) /\
    (av !! "error" = Some (JStr "Unable to fetch availability") <->
     exists status b, o = HttpResponse status b /\ is_success status = false) /\
    (av !! "error" = Some (JStr "An unexpected error occurred") <->
     (exists msg, o = HttpFault msg) \/
     (exists status b, o = HttpResponse status b /\ is_success status = true /\
                       forall fs, b <> Some (JObj fs))).
Proof.
  cbv zeta. eexists _, _. split; [apply get_doctor_availability_run |].
  cbv zeta. set (o := upstream env _).
  destruct o as [| msg | status b]; cbn [availability_of].
  - rewrite failure_error. split; [done |]. split.
    + split; [discriminate | intros (? & ? & [=] & _)].
    + split; [discriminate | intros [(? & [=]) | (? & ? & [=] & _)]].
  - rewrite failure_error. split; [split; discriminate |]. split.
    + split; [discriminate | intros (? & ? & [=] & _)].
    + split; [eauto | done].
  - destruct (is_success status) eqn:Hs.
    + destruct b as [[| | | | | fs]|];
        try (rewrite failure_error; split; [split; discriminate |]; split;
             [split; [discriminate | intros (? & ? & [= -> _] & Hf); congruence]
             | split; [intros _; right; eexists _, _; repeat split; [done | discriminate]
                      | done]]).
      split; [split; discriminate |]. split.
      * split; [discriminate | intros (? & ? & [= -> _] & Hf); congruence].
      * split; [discriminate |].
        intros [(? & [=]) | (? & ? & [= <- <-] & _ & Hb)]. by destruct (Hb fs).
    + rewrite failure_error. split; [split; discriminate |]. split.
      * split; [eauto | done].
      * split; [discriminate |].
        intros [(? & [=]) | (? & ? & [= -> _] & Ht & _)]. congruence.
Qed.

(** ** [check_next_available_slots] at its bounds *)

(** The loop, whether or not the calendar lets it finish. *)
Lemma scan_days_total env doctor_id n :
  forall d slots errors tr,
    scan_days env n doctor_id d slots errors tr =
      let r := Scan.outcomes env doctor_id (Scan.window n d) tr in
      (match Scan.add_days n d with
       | Some _ => Ok ((slots ++ omap Scan.slot_of (fst r))%list,
                       (errors ++ omap (Scan.error_of env) (fst r))%list)
       | None => Raise OverflowError
       end, snd r).
Proof.
  induction n as [| n IH]; intros d slots errors tr.
  - cbn. rewrite !app_nil_r. reflexivity.
  - cbn [scan_days Scan.window Scan.add_days].
    set (ds := Calendar.strftime d).
    rewrite (bind_ok _ _ _ _ _ (get_doctor_availability_run env doctor_id (JStr ds) tr)).
    set (tr1 := (tr ++ [EvGet AVAILABILITY_URL doctor_id (JStr ds)])%list).
    set (o := upstream env tr1).
    rewrite availability_of_success, availability_of_available_times.
    assert (forall acc,
      bind (ret acc) (fun acc : list json * list string =>
         bind (add_one_day d) (fun d' => scan_days env n doctor_id d' (fst acc) (snd acc)))
        (tr1 ++ availability_log env doctor_id o)%list
      = (let r := Scan.outcomes env doctor_id
                    (d :: match Calendar.next_day d with
                          | Some d' => Scan.window n d'
                          | None => []
                          end) tr in
         (match match Calendar.next_day d with
                | Some d' => Scan.add_days n d'
                | None => None
                end with
          | Some _ =>
              Ok ((fst acc ++ omap Scan.slot_of (tail (fst r)))%list,
                  (snd acc ++ omap (Scan.error_of env) (tail (fst r)))%list)
          | None => Raise OverflowError
          end, snd r))) as Hrest.
    { intros acc. unfold bind at 1. unfold ret at 1. unfold bind at 1, add_one_day.
      cbn [Scan.outcomes fst snd tail]. cbv zeta. fold ds. fold tr1. fold o.
      destruct (Calendar.next_day d) as [d'|]; [| reflexivity].
      unfold ret at 1. rewrite IH. reflexivity. }
    cbn [Scan.outcomes fst snd] in Hrest. cbv zeta in Hrest. fold ds tr1 o in Hrest.
    cbn [Scan.outcomes fst snd]. cbv zeta. fold ds tr1 o.
    rewrite !omap_cons. unfold Scan.slot_of at 1. unfold Scan.error_of at 1. cbn [fst snd].
    destruct (fetched_times o) as [times|] eqn:Hf; cbn [Py.truthy_opt Py.truthy].
    + destruct (Py.truthy times).
      * rewrite Hrest. cbn [fst snd tail].
        destruct (match Calendar.next_day d with Some d' => _ | None => _ end);
          [| reflexivity].
        rewrite <- app_assoc. reflexivity.
      * rewrite Hrest. reflexivity.
    + cbv zeta. rewrite Hrest. cbn [fst snd tail].
      destruct (match Calendar.next_day d with Some d' => _ | None => _ end);
        [| reflexivity].
      rewrite <- app_assoc. reflexivity.
Qed.

(** The scanner on a start date that parses. *)
Lemma check_next_available_slots_total env doctor_id s d num_days tr :
  Calendar.strptime s = Some d ->
  check_next_available_slots env doctor_id (JStr s) num_days tr =
    let n := Z.to_nat num_days in
    let r := Scan.outcomes env doctor_id (Scan.window n d) tr in
    match Scan.add_days n d with
    | Some _ => (Ok (omap Scan.slot_of (fst r)), (snd r ++ Scan.warning env (fst r))%list)
    | None => (Raise OverflowError, snd r)
    end.
Proof.
  intros Hparse. unfold check_next_available_slots, strptime. rewrite Hparse.
  unfold bind at 1. unfold ret at 1. unfold bind at 1.
  rewrite scan_days_total. cbv zeta.
  destruct (Scan.add_days _ d); [| reflexivity].
  cbn [fst snd app]. unfold Scan.warning.
  destruct (omap (Scan.error_of env) _) as [| e errors].
  - unfold bind, ret. rewrite app_nil_r. reflexivity.
  - reflexivity.
Qed.

Lemma scan_requests_window env doctor_id s d num_days tr :
  Calendar.strptime s = Some d ->
  http_calls (snd (check_next_available_slots env doctor_id (JStr s) num_days tr)) =
    (http_calls tr ++ scan_requests doctor_id (Scan.window (Z.to_nat num_days) d))%list.
Proof.
  intros Hparse. rewrite (check_next_available_slots_total _ _ _ _ _ _ Hparse). cbv zeta.
  destruct (Scan.add_days _ d); cbn [snd].
  - rewrite http_calls_app, http_calls_warning, app_nil_r. apply outcomes_http_calls.
  - apply outcomes_http_calls.
Qed.

(** X8. The scanner sends a request exactly when its start date is a
    string that parses and [num_days] is positive.  With a start date that
    parses and [num_days] zero or negative it returns the empty list and
    leaves no trace at all. *)
Theorem X8_scan_asks_iff_date_and_days env doctor_id start_date num_days tr :
  (http_calls (snd (check_next_available_slots env doctor_id start_date num_days tr))
     = http_calls tr
   <-> ~ (exists s d, start_date = JStr s /\ Calendar.strptime s = Some d /\
                      (0 < num_days)%Z))
  /\ (forall s d,
        start_date = JStr s -> Calendar.strptime s = Some d -> (num_days <= 0)%Z ->
        check_next_available_slots env doctor_id start_date num_days tr = (Ok [], tr)).
Proof.
  split.
  - destruct start_date as [| | | s | |];
      try (split; [intros _ (s & d & [=] & _) | reflexivity]).
    destruct (Calendar.strptime s) as [d|] eqn:Hparse.
    + rewrite (scan_requests_window _ _ _ _ _ _ Hparse).
      destruct (Z.to_nat num_days) as [| n] eqn:Hn.
      * cbn. rewrite app_nil_r. split; [| reflexivity].
        intros _ (s' & d' & _ & _ & Hpos). lia.
      * split.
        -- intros Heq. apply (f_equal length) in Heq.
           rewrite length_app in Heq. cbn in Heq. lia.
        -- intros Hno. destruct Hno. exists s, d. repeat split; [assumption | lia].
    + unfold check_next_available_slots, strptime, bind. rewrite Hparse. cbn [snd].
      split; [| reflexivity]. intros _ (s' & d' & [= <-] & Hd & _). congruence.
  - intros s d -> Hparse Hle.
    rewrite (check_next_available_slots_total _ _ _ _ _ _ Hparse). cbv zeta.
    replace (Z.to_nat num_days) with 0%nat by lia.
    cbn. by rewrite app_nil_r.
Qed.

Lemma window_succ_length n :
  forall d, is_Some (Scan.add_days n d) -> length (Scan.window (S n) d) = S n.
Proof.
  induction n as [| n IH]; intros d H.
  - cbn. destruct (Calendar.next_day d); reflexivity.
  - cbn [Scan.add_days] in H. cbn [Scan.window length].
    destruct (Calendar.next_day d) as [d'|] eqn:Hn; [| by destruct H].
    f_equal. specialize (IH d' H). cbn [Scan.window] in IH. exact IH.
Qed.

(** X9. The step past the last scanned day is taken even when no day
    follows in the loop.  If [datetime] can reach the last day of a window
    of [n + 1] days but not the day after it, the scanner requests every
    one of the [n + 1] days and then ends in an [OverflowError]: nothing is
    returned and the errors collected so far are not logged. *)
Theorem X9_scan_steps_past_last_day env doctor_id s d n tr :
  Calendar.strptime s = Some d ->
  is_Some (Scan.add_days n d) ->
  Scan.add_days (S n) d = None ->
  let days := Scan.window (S n) d in
  let r := Scan.outcomes env doctor_id days tr in
  check_next_available_slots env doctor_id (JStr s) (Z.of_nat (S n)) tr
    = (Raise OverflowError, snd r)
  /\ length days = S n
  /\ http_calls (snd r) = (http_calls tr ++ scan_requests doctor_id days)%list.
Proof.
  intros Hparse Hlast Hover. cbv zeta. split; [| split].
  - rewrite (check_next_available_slots_total _ _ _ _ _ _ Hparse). cbv zeta.
    rewrite Nat2Z.id, Hover. reflexivity.
  - apply window_succ_length, Hlast.
  - apply outcomes_http_calls.
Qed.

Lemma omap_length_le {A B} (f : A -> option B) (l : list A) :
  (length (omap f l) <= length l)%nat.
Proof.
  induction l as [| x l IH]; [reflexivity |].
  rewrite omap_cons. destruct (f x); cbn [length]; lia.
Qed.

Lemma window_length_le n : forall d, (length (Scan.window n d) <= n)%nat.
Proof.
  induction n as [| n IH]; intros d; [reflexivity |].
  cbn [Scan.window length]. destruct (Calendar.next_day d) as [d'|].
  - specialize (IH d'). lia.
  - cbn. lia.
Qed.

Lemma outcomes_length env doctor_id days :
  forall tr, length (fst (Scan.outcomes env doctor_id days tr)) = length days.
Proof.
  induction days as [| d days IH]; intros tr; [reflexivity |].
  cbn [Scan.outcomes fst length]. cbv zeta. cbn [fst]. by rewrite IH.
Qed.

(** The dates of the records follow the dates of the scanned days. *)
Lemma slots_sublist (outs : list (string * HttpOutcome)) :
  (Display.field "date" <$> omap Scan.slot_of outs) `sublist_of` (JStr <$> (fst <$> outs)).
Proof.
  induction outs as [| [ds o] outs IH]; [constructor |].
  rewrite omap_cons. unfold Scan.slot_of at 1. cbn [fst snd].
  destruct (fetched_times o) as [times|]; [destruct (Py.truthy times) |].
  - cbn [fmap list_fmap]. apply sublist_skip, IH.
  - cbn [fmap list_fmap]. apply sublist_cons, IH.
  - cbn [fmap list_fmap]. apply sublist_cons, IH.
Qed.

(** X10. What a returned scan looks like: at most [num_days] records, each
    a [date]/[times] dict whose [times] is non-empty (truthy), and their
    dates are, in the same order and without repetition of a position, dates
    of the scanned window: at most one record per day, never a day outside
    the window. *)
Theorem X10_scan_result_well_formed env doctor_id s d num_days tr result tr' :
  Calendar.strptime s = Some d ->
  check_next_available_slots env doctor_id (JStr s) num_days tr = (Ok result, tr') ->
  (length result <= Z.to_nat num_days)%nat
  /\ Forall (fun record => exists date_str times,
               record = day_slot date_str times /\ Py.truthy times = true) result
  /\ (Display.field "date" <$> result)
       `sublist_of` (JStr <$> (Calendar.strftime <$> Scan.window (Z.to_nat num_days) d)).
Proof.
  intros Hparse. rewrite (check_next_available_slots_total _ _ _ _ _ _ Hparse). cbv zeta.
  destruct (Scan.add_days _ d); [| discriminate]. intros [= <- _].
  set (outs := fst (Scan.outcomes env doctor_id _ tr)).
  split; [| split].
  - etrans; [apply omap_length_le |]. unfold outs.
    rewrite outcomes_length. apply window_length_le.
  - apply Forall_forall. intros record Hin.
    apply list_elem_of_omap in Hin as ([ds o] & _ & Hslot).
    unfold Scan.slot_of in Hslot. cbn [fst snd] in Hslot.
    destruct (fetched_times o) as [times|]; [| discriminate].
    destruct (Py.truthy times) eqn:Ht; [| discriminate].
    injection Hslot as <-. eauto.
  - rewrite <- (outcomes_dates env doctor_id _ tr). apply slots_sublist.
Qed.

(** ** The dates the scanner sends *)

Lemma months_back :
  forallb (fun m => two_chars_back Calendar.parse_month m (Calendar.pad 2 m)) (seq 1 12) = true.
Proof. vm_compute. reflexivity. Qed.

Lemma days_back :
  forallb (fun n => two_chars_back Calendar.parse_day n (Calendar.pad 2 n)) (seq 1 31) = true.
Proof. vm_compute. reflexivity. Qed.

Lemma in_range (f : nat -> bool) (len n : nat) :
  forallb f (seq 1 len) = true -> (1 <= n <= len)%nat -> f n = true.
Proof.
  intros Hall Hn. rewrite forallb_forall in Hall. apply Hall, in_seq. lia.
Qed.

Lemma pretty_N_char_digit k :
  (k < 10)%N -> Calendar.digit (pretty_N_char k) = Some (N.to_nat k).
Proof.
  intros Hk.
  assert (k = 0 \/ k = 1 \/ k = 2 \/ k = 3 \/ k = 4 \/ k = 5 \/ k = 6 \/ k = 7 \/
          k = 8 \/ k = 9)%N as Hcases by lia.
  repeat (destruct Hcases as [-> | Hcases]; [reflexivity |]). by subst k.
Qed.

Lemma pretty_N_char_not_slash k : Ascii.eqb (pretty_N_char k) "/"%char = false.
Proof. unfold pretty_N_char. by repeat case_match. Qed.

(** [lia] with quotients and remainders by constants. *)
Ltac lia_div := zify; Z.to_euclidean_division_equations; lia.

(** A year is written with its four digits. *)
Lemma pad_year y : (N.of_nat y < 10000)%N -> Calendar.pad 4 y = digits4 (N.of_nat y).
Proof.
  unfold Calendar.pad, pretty, pretty_nat, pretty, pretty_N, digits4.
  generalize (N.of_nat y). intros n Hn.
  destruct (decide (n = 0)%N) as [-> | Hn0]; [reflexivity |].
  rewrite pretty_N_go_step by lia_div.
  destruct (decide (n < 10)%N).
  { replace (n / 10)%N with 0%N by lia_div. rewrite pretty_N_go_0.
    replace (n / 1000)%N with 0%N by lia_div.
    replace (n / 100 mod 10)%N with 0%N by lia_div.
    replace (n / 10 mod 10)%N with 0%N by lia_div. reflexivity. }
  rewrite pretty_N_go_step by lia_div.
  destruct (decide (n < 100)%N).
  { replace (n / 10 / 10)%N with 0%N by lia_div. rewrite pretty_N_go_0.
    replace (n / 1000)%N with 0%N by lia_div.
    replace (n / 100 mod 10)%N with 0%N by lia_div.
    replace (n / 10 mod 10)%N with (n / 10 mod 10)%N by lia_div. reflexivity. }
  rewrite pretty_N_go_step by lia_div.
  destruct (decide (n < 1000)%N).
  { replace (n / 10 / 10 / 10)%N with 0%N by lia_div. rewrite pretty_N_go_0.
    replace (n / 1000)%N with 0%N by lia_div.
    replace (n / 10 / 10 mod 10)%N with (n / 100 mod 10)%N by lia_div.
    reflexivity. }
  rewrite pretty_N_go_step by lia_div.
  replace (n / 10 / 10 / 10 / 10)%N with 0%N by lia_div.
  rewrite pretty_N_go_0.
  replace (n / 10 / 10 / 10 mod 10)%N with (n / 1000)%N by lia_div.
  replace (n / 10 / 10 mod 10)%N with (n / 100 mod 10)%N by lia_div.
  reflexivity.
Qed.

Lemma parse_year_digits n :
  (n < 10000)%N -> Calendar.parse_year (digits4 n) = Some (N.to_nat n).
Proof.
  intros Hn. unfold digits4, Calendar.parse_year.
  rewrite !pretty_N_char_digit by lia_div. f_equal. lia_div.
Qed.

Lemma split_slash_date a1 a2 b1 b2 y :
  not_slash a1 = true -> not_slash a2 = true ->
  not_slash b1 = true -> not_slash b2 = true ->
  (forall k, not_slash (pretty_N_char k) = true) ->
  Calendar.split_slash
    (String a1 (String a2 (String "/" (String b1 (String b2 (String "/" (digits4 y)))))))
  = [String a1 (String a2 EmptyString); String b1 (String b2 EmptyString); digits4 y].
Proof.
  unfold not_slash, digits4. intros Ha1 Ha2 Hb1 Hb2 Hk.
  apply negb_true_iff in Ha1, Ha2, Hb1, Hb2.
  cbn [Calendar.split_slash].
  rewrite Ha1, Ha2, Hb1, Hb2.
  rewrite !(proj1 (negb_true_iff _) (Hk _)).
  reflexivity.
Qed.

Lemma year_below_10000 y : (y <= Calendar.MAXYEAR)%nat -> (N.of_nat y < 10000)%N.
Proof.
  intros Hy.
  assert (N.of_nat y <= N.of_nat Calendar.MAXYEAR)%N as Hle by lia.
  replace (N.of_nat Calendar.MAXYEAR) with 9999%N in Hle by (vm_compute; reflexivity).
  lia.
Qed.

(** A day written by [strftime] is read back by [strptime]. *)
Lemma strptime_strftime d :
  Calendar.valid d = true -> Calendar.strptime (Calendar.strftime d) = Some d.
Proof.
  intros Hvalid. pose proof Hvalid as Hv.
  apply valid_spec in Hv as (Hy & Hm & Hd).
  pose proof (days_in_month_bounds (Calendar.year d) (Calendar.month d)) as Hdim.
  pose proof (in_range _ 12 (Calendar.month d) months_back Hm) as Hmonth.
  assert (1 <= Calendar.day d <= 31)%nat as Hd31 by lia.
  pose proof (in_range _ 31 (Calendar.day d) days_back Hd31) as Hday.
  cbv beta in Hmonth, Hday.
  unfold Calendar.strptime, Calendar.strftime.
  rewrite (pad_year (Calendar.year d)) by (apply year_below_10000; lia).
  destruct (Calendar.pad 2 (Calendar.month d)) as [| a1 [| a2 [| ? ?]]];
    try discriminate Hmonth.
  destruct (Calendar.pad 2 (Calendar.day d)) as [| b1 [| b2 [| ? ?]]];
    try discriminate Hday.
  cbn [two_chars_back] in Hmonth, Hday.
  apply andb_true_iff in Hmonth as [Hmonth Hmonth'].
  apply andb_true_iff in Hmonth as [Ha1 Ha2].
  apply andb_true_iff in Hday as [Hday Hday'].
  apply andb_true_iff in Hday as [Hb1 Hb2].
  change (String a1 (String a2 "") ++ "/" ++ String b1 (String b2 "") ++ "/" ++
          digits4 (N.of_nat (Calendar.year d)))
    with (String a1 (String a2 (String "/" (String b1 (String b2 (String "/"
            (digits4 (N.of_nat (Calendar.year d))))))))).
  rewrite split_slash_date; try assumption;
    [| intros k; unfold not_slash; by rewrite pretty_N_char_not_slash].
  destruct (Calendar.parse_month _) as [m'|]; [| discriminate].
  destruct (Calendar.parse_day _) as [d'|]; [| discriminate].
  apply Nat.eqb_eq in Hmonth', Hday'. subst m' d'.
  rewrite parse_year_digits by (apply year_below_10000; lia).
  rewrite Nat2N.id. destruct d as [y m dd]. cbn [Calendar.year Calendar.month Calendar.day] in *.
  rewrite Hvalid. reflexivity.
Qed.

Lemma strftime_length d :
  Calendar.valid d = true -> String.length (Calendar.strftime d) = 10%nat.
Proof.
  intros Hvalid. pose proof Hvalid as Hv.
  apply valid_spec in Hv as (Hy & Hm & Hd).
  pose proof (days_in_month_bounds (Calendar.year d) (Calendar.month d)) as Hdim.
  pose proof (in_range _ 12 (Calendar.month d) months_back Hm) as Hmonth.
  assert (1 <= Calendar.day d <= 31)%nat as Hd31 by lia.
  pose proof (in_range _ 31 (Calendar.day d) days_back Hd31) as Hday.
  cbv beta in Hmonth, Hday.
  unfold Calendar.strftime.
  rewrite (pad_year (Calendar.year d)) by (apply year_below_10000; lia).
  destruct (Calendar.pad 2 (Calendar.month d)) as [| a1 [| a2 [| ? ?]]];
    try discriminate Hmonth.
  destruct (Calendar.pad 2 (Calendar.day d)) as [| b1 [| b2 [| ? ?]]];
    try discriminate Hday.
  reflexivity.
Qed.

(** X11. Whatever form the start date had ([1/5/2025] parses as well as
    [01/05/2025]), the scanner sends its dates in one form: every request of
    a scan carries the ten characters [MM/DD/YYYY] of the day it asks about,
    a string that [strptime] reads back as that very day, so that a date
    taken from a returned record is a start date the scanner accepts.
    (From the year 1000 on: below it the width of [%Y] is the C library's
    choice.) *)
Theorem X11_scan_dates_read_back env doctor_id s d num_days tr :
  Calendar.strptime s = Some d ->
  (1000 <= Calendar.year d)%nat ->
  let days := Scan.window (Z.to_nat num_days) d in
  http_calls (snd (check_next_available_slots env doctor_id (JStr s) num_days tr))
    = (http_calls tr ++ scan_requests doctor_id days)%list
  /\ Forall (fun day => Calendar.strptime (Calendar.strftime day) = Some day
                        /\ String.length (Calendar.strftime day) = 10%nat) days.
Proof.
  intros Hparse _. cbv zeta. split; [by apply scan_requests_window |].
  apply Forall_lookup. intros i day Hi.
  destruct (window_forward _ _ _ _ (strptime_valid _ _ Hparse) Hi) as [Hv _].
  split; [by apply strptime_strftime | by apply strftime_length].
Qed.

(** ** [process_message], whether or not [asyncio] is bound *)

Lemma process_message_from_done env n a msg hist tr :
  (max_retries < n)%nat -> process_message_from env n a msg hist tr = (Ok None, tr).
Proof.
  intros Hn.
  etrans; [apply (f_equal (fun f => f tr)), process_message_from_unfold_eq |].
  unfold process_message_from_unfold.
  destruct (le_dec n max_retries) as [Hle | Hgt]; [lia | reflexivity].
Qed.

(** The wrapper, run by run. *)
Lemma process_message_run env a msg hist tr :
  process_message env a msg hist tr =
    (let run := EvRun a (hist ++ [user_message msg])%list in
     match swarm_run env (tr ++ [run])%list with
     | RunContent content => (Ok (Some content), (tr ++ [run])%list)
     | RunFault f1 =>
         if asyncio_bound env then
           let tr2 := (tr ++ [run; attempt_log env 1 f1; EvSleep 1; run])%list in
           match swarm_run env tr2 with
           | RunContent content => (Ok (Some content), tr2)
           | RunFault f2 =>
               let tr3 := (tr2 ++ [attempt_log env 2 f2; EvSleep 1; run])%list in
               match swarm_run env tr3 with
               | RunContent content => (Ok (Some content), tr3)
               | RunFault f3 =>
                   (Raise RETRIES_EXHAUSTED, (tr3 ++ [attempt_log env 3 f3])%list)
               end
           end
         else (Raise (NameError "asyncio"), (tr ++ [run; attempt_log env 1 f1])%list)
     end).
Proof.
  unfold process_message. cbv zeta.
  set (run := EvRun a (hist ++ [user_message msg])%list).
  rewrite process_message_from_step by (unfold max_retries; lia).
  cbv zeta. fold run.
  destruct (swarm_run env (tr ++ [run])%list) as [f1 | c1]; [| reflexivity].
  change (max_retries <? 1)%nat with false. cbv iota.
  destruct (asyncio_bound env) eqn:Hasync; [| reflexivity].
  rewrite process_message_from_step by (unfold max_retries; lia).
  cbv zeta. fold run. rewrite Hasync. rewrite <- !app_assoc. cbn [app].
  destruct (swarm_run env _) as [f2 | c2]; [| reflexivity].
  change (max_retries <? 2)%nat with false. cbv iota.
  rewrite process_message_from_step by (unfold max_retries; lia).
  cbv zeta. fold run. rewrite <- !app_assoc. cbn [app].
  destruct (swarm_run env _) as [f3 | c3]; [| reflexivity].
  change (max_retries <? 3)%nat with true. cbv iota.
  rewrite <- !app_assoc. reflexivity.
Qed.

Lemma agent_runs_cons_run a c tr : agent_runs (EvRun a c :: tr) = EvRun a c :: agent_runs tr.
Proof. unfold agent_runs. rewrite filter_cons. by rewrite decide_True. Qed.

Lemma agent_runs_cons_log level m tr : agent_runs (EvLog level m :: tr) = agent_runs tr.
Proof. unfold agent_runs. rewrite filter_cons. by rewrite decide_False. Qed.

Lemma agent_runs_cons_sleep n tr : agent_runs (EvSleep n :: tr) = agent_runs tr.
Proof. unfold agent_runs. rewrite filter_cons. by rewrite decide_False. Qed.

Ltac count_runs :=
  try reflexivity;
  repeat match goal with x := EvRun _ _ |- _ => subst x end;
  unfold attempt_log;
  repeat first [rewrite agent_runs_cons_run | rewrite agent_runs_cons_log
               | rewrite agent_runs_cons_sleep];
  change (agent_runs []) with (@nil Event); cbn [length]; lia.

(** The wrapper starts with a run of its agent, only makes attempts at it,
    and does not return [None]. *)
Lemma process_message_attempts env a msg hist tr :
  let run := EvRun a (hist ++ [user_message msg])%list in
  exists r delta,
    process_message env a msg hist tr = (r, (tr ++ run :: delta)%list) /\
    Forall (attempt run) delta /\
    r <> Ok None.
Proof.
  cbv zeta. rewrite process_message_run. cbv zeta.
  set (run := EvRun a (hist ++ [user_message msg])%list).
  repeat match goal with
         | |- context [match swarm_run env ?t with _ => _ end] => destruct (swarm_run env t)
         | |- context [if asyncio_bound env then _ else _] => destruct (asyncio_bound env)
         end;
    rewrite <- ?app_assoc; cbn [app];
    (eexists _, _; split; [reflexivity |]; split; [by repeat constructor | discriminate]).
Qed.

(** X12. What the retry wrapper does, whether or not [asyncio] is bound.
    It only runs the agent it was given, on the history followed by the
    user's message, at least once and at most three times.  When it
    returns, it returns the content of its last action, a run that
    succeeded; it never returns [None], although the loop could be left by
    its condition.  When it raises, either all three runs failed
    ([HTTPException] 500, which takes [asyncio]), or [asyncio] is unbound
    and the first run failed: the [NameError] of the pause ends the wrapper
    after a single run. *)
Theorem X12_wrapper_answers_with_its_last_run env a msg hist tr :
  let run := EvRun a (hist ++ [user_message msg])%list in
  exists r delta,
    process_message env a msg hist tr = (r, (tr ++ delta)%list) /\
    Forall (attempt run) delta /\
    (1 <= length (agent_runs delta) <= 3)%nat /\
    match r with
    | Ok (Some content) =>
        last delta = Some run /\ swarm_run env (tr ++ delta)%list = RunContent content
    | Ok None => False
    | Raise e =>
        (asyncio_bound env = true /\ e = RETRIES_EXHAUSTED /\
         length (agent_runs delta) = 3%nat)
        \/ (asyncio_bound env = false /\ e = NameError "asyncio" /\
            length (agent_runs delta) = 1%nat)
    end.
Proof.
  cbv zeta. rewrite process_message_run. cbv zeta.
  set (run := EvRun a (hist ++ [user_message msg])%list).
  destruct (swarm_run env (tr ++ [run])%list) as [f1 | c1] eqn:H1.
  2: { exists (Ok (Some c1)), [run]. split; [reflexivity |].
       split; [by repeat constructor |]. split; [count_runs |]. by split. }
  destruct (asyncio_bound env) eqn:Hasync.
  2: { eexists _, _. split; [reflexivity |].
       split; [by repeat constructor |]. split; [count_runs |]. right. repeat split; count_runs. }
  destruct (swarm_run env (tr ++ [run; _; _; run])%list) as [f2 | c2] eqn:H2.
  2: { eexists _, _. split; [reflexivity |].
       split; [by repeat constructor |]. split; [count_runs |]. by split. }
  rewrite <- !app_assoc. cbn [app].
  destruct (swarm_run env (tr ++ [run; _; _; run; _; _; run])%list) as [f3 | c3] eqn:H3.
  2: { eexists _, _. split; [reflexivity |].
       split; [by repeat constructor |]. split; [count_runs |]. by split. }
  rewrite <- !app_assoc. cbn [app].
  eexists _, _. split; [reflexivity |].
  split; [by repeat constructor |]. split; [count_runs |]. left. repeat split; count_runs.
Qed.

(** ** The endpoint, branch by branch *)

Lemma py_eq_str a s : Py.eq a (JStr s) = true -> a = JStr s.
Proof.
  destruct a; try discriminate. cbn [Py.eq]. intros H.
  by apply String.eqb_eq in H as ->.
Qed.

(** The endpoint after the orchestrator has answered. *)
Lemma chat_routed env request tr text tr1 :
  process_message env orchestrator_agent (message request)
    (default [] (history request)) tr = (Ok (Some text), tr1) ->
  chat env request tr =
    match json_loads env text with
    | None =>
        (Ok (mkMessageResponse text "orchestrator" None None),
         (tr1 ++ [invalid_format_log text])%list)
    | Some (JObj rfs) =>
        let agent_name := default (JStr "orchestrator") (Py.assoc "agent" rfs) in
        if Py.eq agent_name (JStr "appointment") then
          handled env (appointment_turn env (JObj rfs) tr1)
        else if Py.eq agent_name (JStr "medical") then
          handled env
            match process_message env medical_agent (message request)
                    (default [] (history request)) tr1 with
            | (Ok (Some answer), tr2) =>
                (Ok (mkMessageResponse answer "Medical Advisor" None None), tr2)
            | (Ok None, tr2) => (Raise ValidationError, tr2)
            | (Raise e, tr2) => (Raise e, tr2)
            end
        else
          handled env
            match default (JStr CLARIFY) (Py.assoc "response" rfs) with
            | JStr answer => (Ok (mkMessageResponse answer "orchestrator" None None), tr1)
            | _ => (Raise ValidationError, tr1)
            end
    | Some _ => handled env (Raise (AttributeError "get"), tr1)
    end.
Proof.
  intros Hrun. unfold chat, try_except, chat_body.
  rewrite (bind_ok _ _ _ _ _ Hrun).
  destruct (json_loads env text) as [routing|].
  - unfold bind at 1. unfold ret at 1. unfold bind at 1.
    destruct routing as [| | | | | rfs]; try reflexivity.
    unfold py_get, ret at 1. cbv zeta.
    destruct (Py.eq _ (JStr "appointment")).
    { unfold handled. by destruct (appointment_turn env (JObj rfs) tr1) as [[reply | e] tr2]. }
    destruct (Py.eq _ (JStr "medical")).
    { unfold bind, handled.
      by destruct (process_message env medical_agent _ _ tr1) as [[[answer|] | e] tr2]. }
    unfold bind, ret, validated_str, handled. fold CLARIFY.
    by destruct (default (JStr CLARIFY) (Py.assoc "response" rfs)).
  - reflexivity.
Qed.

(** The endpoint when the orchestrator could not be reached. *)
Lemma chat_unrouted env request tr e tr1 :
  process_message env orchestrator_agent (message request)
    (default [] (history request)) tr = (Raise e, tr1) ->
  chat env request tr = handled env (Raise e, tr1).
Proof.
  intros Hrun. unfold chat, try_except, chat_body.
  by rewrite (bind_raise _ _ _ _ _ Hrun).
Qed.

(** X13. Served by an ASGI server, the module has no [asyncio]: a single
    failed run of the orchestrator ends the turn.  The pause before the
    retry raises [NameError], the outermost handler records it, and the
    user gets the apology after one run, with no retry. *)
Theorem X13_without_asyncio_one_failure_ends_the_turn env request tr fault :
  let run := EvRun orchestrator_agent (conversation_of request) in
  asyncio_bound env = false ->
  swarm_run env (tr ++ [run])%list = RunFault fault ->
  chat env request tr =
    (Ok system_reply,
     (tr ++ [run; attempt_log env 1 fault;
             EvLog ERROR ("Chat error: " ++ exn_str env (NameError "asyncio"))])%list).
Proof.
  cbv zeta. unfold conversation_of. intros Hasync Hfault.
  rewrite (chat_unrouted env request tr (NameError "asyncio")
             (tr ++ [EvRun orchestrator_agent
                       (default [] (history request) ++ [user_message (message request)])%list;
                     attempt_log env 1 fault])%list).
  - unfold handled. rewrite <- app_assoc. reflexivity.
  - rewrite process_message_run. cbv zeta. by rewrite Hfault, Hasync.
Qed.

(** *** Who is run, and on what *)

Lemma emits_weaken (P Q : Event -> Prop) {A} (c : M A) :
  (forall e, P e -> Q e) -> emits P c -> emits Q c.
Proof.
  intros HPQ Hc tr. destruct (Hc tr) as (delta & Heq & HP).
  exists delta. split; [exact Heq |]. by eapply Forall_impl.
Qed.

(** The handler adds at most its one record. *)
Lemma handled_trace env (P : Event -> Prop) outcome tr delta :
  (forall m, P (EvLog ERROR m)) ->
  snd outcome = (tr ++ delta)%list -> Forall P delta ->
  exists delta', snd (handled env outcome) = (tr ++ delta')%list /\ Forall P delta'.
Proof.
  intros Hlog Heq HP. destruct outcome as [[reply | e] tr1]; cbn [snd] in Heq; subst tr1.
  - exists delta. by split.
  - eexists. cbn [handled snd]. rewrite <- app_assoc. split; [reflexivity |].
    apply Forall_app. split; [exact HP | by repeat constructor].
Qed.

Lemma attempt_turn_action request a :
  a = orchestrator_agent \/ a = medical_agent ->
  forall e, attempt (EvRun a (conversation_of request)) e -> turn_action request e.
Proof.
  intros Ha [| | a' c | |]; cbn; try done. intros [= -> ->]. by split.
Qed.

Lemma quiet_turn_action request e : quiet e -> turn_action request e.
Proof. by destruct e. Qed.

(** X14. A turn starts with a run of the orchestrator, and every agent run
    of the turn is a run of the orchestrator or of the medical agent on one
    and the same conversation: the history of the request followed by the
    user's message.  So the medical agent never sees the orchestrator's
    routing answer, and the appointment agent created at start-up is never
    run by the endpoint. *)
Theorem X14_every_run_is_on_the_request env request tr :
  exists delta,
    snd (chat env request tr)
      = (tr ++ EvRun orchestrator_agent (conversation_of request) :: delta)%list /\
    Forall (turn_action request) delta.
Proof.
  destruct (process_message_attempts env orchestrator_agent (message request)
              (default [] (history request)) tr) as (r & d0 & Hrun & Hd0 & Hsome).
  fold (conversation_of request) in Hrun, Hd0.
  set (run := EvRun orchestrator_agent (conversation_of request)) in *.
  pose proof (Forall_impl _ _ _ Hd0
                (attempt_turn_action request orchestrator_agent (or_introl eq_refl))) as Hd0'.
  assert (forall outcome delta,
            snd outcome = ((tr ++ run :: d0) ++ delta)%list ->
            Forall (turn_action request) delta ->
            exists delta', snd (handled env outcome) = (tr ++ run :: delta')%list /\
                           Forall (turn_action request) delta') as Hhandled.
  { intros outcome delta Heq Hdelta.
    destruct (handled_trace env (turn_action request) outcome _ _ (fun _ => I) Heq Hdelta)
      as (delta' & -> & Hdelta').
    exists (d0 ++ delta')%list. rewrite <- app_assoc. split; [reflexivity |].
    by apply Forall_app. }
  destruct r as [[text|] | e]; [| done |].
  - rewrite (chat_routed env request tr text _ Hrun).
    destruct (json_loads env text) as [[| | | | | rfs]|];
      try (apply (Hhandled (_, _) []); [by rewrite app_nil_r | constructor]).
    + cbv zeta. destruct (Py.eq _ (JStr "appointment")).
      { destruct (quiet_appointment_turn env (JObj rfs) (tr ++ run :: d0)%list)
          as (dq & Hq & Hquiet).
        apply (Hhandled _ dq Hq). eapply Forall_impl; [exact Hquiet |].
        apply quiet_turn_action. }
      destruct (Py.eq _ (JStr "medical")).
      { destruct (process_message_attempts env medical_agent (message request)
                    (default [] (history request)) (tr ++ run :: d0)%list)
          as (r2 & d2 & Hrun2 & Hd2 & _).
        fold (conversation_of request) in Hrun2, Hd2. rewrite Hrun2.
        apply (Hhandled (match r2 with
                         | Ok (Some answer) => _
                         | Ok None => _
                         | Raise e => _
                         end) (EvRun medical_agent (conversation_of request) :: d2)).
        - by destruct r2 as [[answer|] | e].
        - constructor; [by split; [right |] |].
          eapply Forall_impl; [exact Hd2 |].
          apply attempt_turn_action. by right. }
      apply (Hhandled (match default (JStr CLARIFY) (Py.assoc "response" rfs) with
                       | JStr answer => _
                       | _ => _
                       end) []); [| constructor].
      rewrite app_nil_r.
      by destruct (default (JStr CLARIFY) (Py.assoc "response" rfs)).
    + exists (d0 ++ [invalid_format_log text])%list. cbn [snd]. rewrite <- app_assoc.
      split; [reflexivity |]. apply Forall_app. split; [exact Hd0' | by repeat constructor].
  - rewrite (chat_unrouted env request tr e _ Hrun).
    apply (Hhandled (_, _) []); [by rewrite app_nil_r | constructor].
Qed.

(** *** When the scheduling service is contacted *)

Lemma http_calls_nil (P : Event -> Prop) delta :
  (forall e, P e -> is_http e = false) -> Forall P delta -> http_calls delta = [].
Proof.
  intros HP Hall. induction Hall as [| e delta He _ IH]; [reflexivity |].
  unfold http_calls in *. rewrite filter_cons, decide_False; [exact IH |].
  rewrite (HP e He). discriminate.
Qed.

Lemma http_calls_after (P : Event -> Prop) tr delta :
  (forall e, P e -> is_http e = false) -> Forall P delta ->
  http_calls (tr ++ delta)%list = http_calls tr.
Proof.
  intros HP Hall. rewrite http_calls_app, (http_calls_nil P delta HP Hall).
  apply app_nil_r.
Qed.

Lemma attempt_not_http run e : attempt run e -> is_http e = false.
Proof. by destruct e. Qed.

Lemma http_calls_attempts a c tr delta :
  Forall (attempt (EvRun a c)) delta ->
  http_calls (tr ++ EvRun a c :: delta)%list = http_calls tr.
Proof.
  intros Hall. apply (http_calls_after (attempt (EvRun a c))).
  - apply attempt_not_http.
  - constructor; [reflexivity | exact Hall].
Qed.

Lemma as_strs_trace items tr : snd (as_strs items tr) = tr.
Proof.
  induction items as [| item items IH]; [reflexivity |].
  destruct item; try reflexivity. cbn [as_strs]. unfold bind.
  specialize IH. destruct (as_strs items tr) as [[rest | e] tr1]; cbn [snd] in *; by subst.
Qed.

(** With fields missing the turn ends where it began. *)
Lemma appointment_turn_missing env rfs tr :
  Py.truthy (default (JList []) (Py.assoc "missing_fields" rfs)) = true ->
  snd (appointment_turn env (JObj rfs) tr) = tr.
Proof.
  intros Hmissing. unfold appointment_turn.
  cbv beta iota delta [py_get bind ret]. rewrite Hmissing.
  unfold str_join, bind.
  destruct (default (JList []) (Py.assoc "missing_fields" rfs)) as [| | | s | l | fs];
    try reflexivity; cbn [py_iter ret].
  - pose proof (as_strs_trace (JStr <$> Py.chars s) tr) as Htr.
    by destruct (as_strs _ tr) as [[strs | e] tr1]; cbn [snd] in *; subst.
  - pose proof (as_strs_trace l tr) as Htr.
    by destruct (as_strs _ tr) as [[strs | e] tr1]; cbn [snd] in *; subst.
  - pose proof (as_strs_trace ((fun kv => JStr (fst kv)) <$> fs) tr) as Htr.
    by destruct (as_strs _ tr) as [[strs | e] tr1]; cbn [snd] in *; subst.
Qed.

Lemma http_calls_handled env outcome :
  http_calls (snd (handled env outcome)) = http_calls (snd outcome).
Proof.
  destruct outcome as [[reply | e] tr]; [reflexivity |].
  cbn [handled snd]. apply http_calls_log.
Qed.

(** X15. The endpoint contacts the scheduling service in one kind of turn
    only: the orchestrator answered, its answer decodes to an object whose
    [agent] is ["appointment"], and the [missing_fields] of that object are
    empty or absent.  Every other turn (a medical question, a
    clarification, an answer that is not JSON, a failure of the
    orchestrator, a prompt for missing fields) leaves the service
    alone. *)
Theorem X15_only_appointments_reach_the_service env request tr :
  http_calls (snd (chat env request tr)) <> http_calls tr ->
  exists text rfs tr1,
    process_message env orchestrator_agent (message request)
      (default [] (history request)) tr = (Ok (Some text), tr1) /\
    json_loads env text = Some (JObj rfs) /\
    Py.assoc "agent" rfs = Some (JStr "appointment") /\
    Py.truthy (default (JList []) (Py.assoc "missing_fields" rfs)) = false.
Proof.
  intros Hcalls.
  destruct (process_message_attempts env orchestrator_agent (message request)
              (default [] (history request)) tr) as (r & d0 & Hrun & Hd0 & Hsome).
  pose proof (http_calls_attempts _ _ tr _ Hd0) as Hsame.
  destruct r as [[text|] | e]; [| done |].
  2: { exfalso. apply Hcalls.
       rewrite (chat_unrouted env request tr e _ Hrun), http_calls_handled. exact Hsame. }
  rewrite (chat_routed env request tr text _ Hrun) in Hcalls.
  destruct (json_loads env text) as [[| | | | | rfs]|] eqn:Hloads;
    try (exfalso; apply Hcalls; rewrite http_calls_handled; exact Hsame).
  2: { exfalso. apply Hcalls. cbn [snd]. unfold invalid_format_log.
       rewrite http_calls_log. exact Hsame. }
  cbv zeta in Hcalls.
  destruct (Py.eq _ (JStr "appointment")) eqn:Hagent.
  - eexists text, rfs, _. split; [exact Hrun |]. split; [exact Hloads |].
    apply py_eq_str in Hagent. split.
    + destruct (Py.assoc "agent" rfs) as [v|]; [| discriminate]. by f_equal.
    + destruct (Py.truthy _) eqn:Hmissing; [| reflexivity].
      exfalso. apply Hcalls. rewrite http_calls_handled.
      rewrite (appointment_turn_missing env rfs _ Hmissing). exact Hsame.
  - exfalso.
    destruct (Py.eq _ (JStr "medical")); apply Hcalls; rewrite http_calls_handled.
    + destruct (process_message_attempts env medical_agent (message request)
                  (default [] (history request))
                  (tr ++ EvRun orchestrator_agent
                           (default [] (history request) ++
                            [user_message (message request)])%list :: d0)%list)
        as (r2 & d2 & Hrun2 & Hd2 & _).
      rewrite Hrun2.
      pose proof (http_calls_attempts _ _
                    (tr ++ EvRun orchestrator_agent
                             (default [] (history request) ++
                              [user_message (message request)])%list :: d0)%list
                    _ Hd2) as Hmed.
      rewrite Hsame in Hmed. by destruct r2 as [[answer|] | e].
    + by destruct (default (JStr CLARIFY) (Py.assoc "response" rfs)).
Qed.

(** X16. An orchestrator answer that is not JSON is not an error: after one
    WARNING record it is passed to the user word for word, under the label
    ["orchestrator"], with no payload, no further run and no request. *)
Theorem X16_plain_text_answer_is_passed_on env request tr text tr1 :
  process_message env orchestrator_agent (message request)
    (default [] (history request)) tr = (Ok (Some text), tr1) ->
  json_loads env text = None ->
  chat env request tr =
    (Ok (mkMessageResponse text "orchestrator" None None),
     (tr1 ++ [invalid_format_log text])%list).
Proof.
  intros Hrun Hloads. rewrite (chat_routed env request tr text tr1 Hrun).
  by rewrite Hloads.
Qed.

(** *** What the label of a reply tells *)

(** Case analysis on an innermost [match] of a hypothesis about a run. *)
Ltac break_innermost H :=
  match type of H with
  | context [match ?x with _ => _ end] =>
      lazymatch x with
      | context [match _ with _ => _ end] => fail
      | _ => destruct x eqn:?; try discriminate H
      end
  end.

Lemma appointment_turn_label env routing tr reply tr' :
  appointment_turn env routing tr = (Ok reply, tr') ->
  agent reply = "Appointment Coordinator" /\ context reply = None.
Proof.
  unfold appointment_turn, try_preferred_time, suggest_same_day, suggest_next_days.
  cbv beta iota delta [bind ret]. intros H.
  repeat break_innermost H; injection H as <- _; by split.
Qed.

(** X17. The [agent] label of a reply tells where its text comes from, and
    [context] is never set.  ["system"]: the turn raised, the reply is the
    apology and the trace ends with the record of the exception.
    ["Appointment Coordinator"]: the reply is that of the appointment
    branch.  ["Medical Advisor"]: the text is the content the medical agent
    returned through the wrapper, as the last action of the turn.
    ["orchestrator"]: the text is the orchestrator's own, its raw answer
    when that is not JSON and otherwise the [response] string of its
    routing object (or the request to clarify when it has none); such a
    turn made no request to the scheduling service.  The last two carry no
    payload. *)
Theorem X17_label_names_the_source env request tr reply tr' :
  chat env request tr = (Ok reply, tr') ->
  context reply = None /\
  ((reply = system_reply /\
    exists e, last tr' = Some (EvLog ERROR ("Chat error: " ++ exn_str env e)))
   \/ (agent reply = "Appointment Coordinator" /\
       exists routing tr1, appointment_turn env routing tr1 = (Ok reply, tr'))
   \/ (agent reply = "Medical Advisor" /\ suggestions reply = None /\
       exists tr1,
         process_message env medical_agent (message request)
           (default [] (history request)) tr1 = (Ok (Some (response reply)), tr'))
   \/ (agent reply = "orchestrator" /\ suggestions reply = None /\
       http_calls tr' = http_calls tr /\
       exists text tr1,
         process_message env orchestrator_agent (message request)
           (default [] (history request)) tr = (Ok (Some text), tr1) /\
         match json_loads env text with
         | None => response reply = text
         | Some routing =>
             exists rfs, routing = JObj rfs /\
               forall answer,
                 default (JStr CLARIFY) (Py.assoc "response" rfs) = JStr answer ->
                 response reply = answer
         end)).
Proof.
  assert (forall e tr1,
            handled env (Raise e, tr1) = (Ok reply, tr') ->
            context reply = None /\
            (reply = system_reply /\
             exists e, last tr' = Some (EvLog ERROR ("Chat error: " ++ exn_str env e))))
    as Hraised.
  { intros e tr1 [= <- <-]. split; [reflexivity |]. split; [reflexivity |].
    exists e. by rewrite last_snoc. }
  destruct (process_message_attempts env orchestrator_agent (message request)
              (default [] (history request)) tr) as (r & d0 & Hrun & Hd0 & Hsome).
  pose proof (http_calls_attempts _ _ tr _ Hd0) as Hsame.
  destruct r as [[text|] | e]; [| done |].
  2: { rewrite (chat_unrouted env request tr e _ Hrun). intros H.
       destruct (Hraised _ _ H) as [Hc Hs]. split; [exact Hc | by left]. }
  rewrite (chat_routed env request tr text _ Hrun).
  destruct (json_loads env text) as [[| | | | | rfs]|] eqn:Hloads;
    try (intros H; destruct (Hraised _ _ H) as [Hc Hs]; split; [exact Hc | by left]).
  2: { intros [= <- <-]. split; [reflexivity |]. right. right. right.
       split; [reflexivity |]. split; [reflexivity |]. split.
       - unfold invalid_format_log. rewrite http_calls_log. exact Hsame.
       - eexists text, _. split; [exact Hrun |]. by rewrite Hloads. }
  cbv zeta. destruct (Py.eq _ (JStr "appointment")).
  { destruct (appointment_turn env (JObj rfs) _) as [[reply' | e] tr2] eqn:Hturn.
    - intros [= <- <-]. destruct (appointment_turn_label _ _ _ _ _ Hturn) as [Hl Hc].
      split; [exact Hc |]. right. left. split; [exact Hl |]. eauto.
    - intros H. destruct (Hraised _ _ H) as [Hc Hs]. split; [exact Hc | by left]. }
  destruct (Py.eq _ (JStr "medical")).
  { destruct (process_message env medical_agent _ _ _) as [[[answer|] | e] tr2] eqn:Hmed;
      try (intros H; destruct (Hraised _ _ H) as [Hc Hs]; split; [exact Hc | by left]).
    intros [= <- <-]. split; [reflexivity |]. right. right. left.
    split; [reflexivity |]. split; [reflexivity |]. eauto. }
  destruct (default (JStr CLARIFY) (Py.assoc "response" rfs)) as [| | | answer | |] eqn:Hresp;
    try (intros H; destruct (Hraised _ _ H) as [Hc Hs]; split; [exact Hc | by left]).
  intros [= <- <-]. split; [reflexivity |]. right. right. right.
  split; [reflexivity |]. split; [reflexivity |]. split; [exact Hsame |].
  eexists text, _. split; [exact Hrun |]. rewrite Hloads. exists rfs.
  split; [reflexivity |]. intros answer' Heq. cbn [response]. congruence.
Qed.

(** ** The negotiation, step by step *)

(** *** Steps that only read *)

Lemma silent_trace {A} (c : M A) tr : emits (fun _ => False) c -> snd (c tr) = tr.
Proof.
  intros Hc. destruct (Hc tr) as (delta & -> & Hall).
  destruct delta as [| e delta]; [apply app_nil_r |]. by inversion Hall.
Qed.

Lemma emits_py_getitem P d k : emits P (py_getitem d k).
Proof. unfold py_getitem. footprint. Qed.

Lemma emits_py_get P d k dflt : emits P (py_get d k dflt).
Proof. unfold py_get. footprint. Qed.

Lemma emits_py_contains P x c : emits P (py_contains x c).
Proof. unfold py_contains. footprint. Qed.

Lemma emits_py_slice P n c : emits P (py_slice n c).
Proof. unfold py_slice. footprint. Qed.

Lemma emits_py_iter P c : emits P (py_iter c).
Proof. unfold py_iter. footprint. Qed.

#[local] Hint Resolve emits_py_getitem emits_py_get emits_py_contains emits_py_slice
  emits_py_iter : footprint.

Lemma emits_add_day_blocks P env days : forall text, emits P (add_day_blocks env days text).
Proof.
  induction days as [| day days IH]; intros text; cbn [add_day_blocks]; footprint.
Qed.

Lemma reads_log level msg : emits reads (log level msg).
Proof. apply emits_emit. exact I. Qed.

Lemma reads_client_get env url doctor_id date : emits reads (client_get env url doctor_id date).
Proof.
  intros tr. exists [EvGet url doctor_id date]. unfold client_get. cbv zeta.
  destruct (upstream env _); (split; [reflexivity | by repeat constructor]).
Qed.

#[local] Hint Resolve emits_add_day_blocks reads_log reads_client_get : footprint.

Lemma reads_get_doctor_availability env doctor_id date :
  emits reads (get_doctor_availability env doctor_id date).
Proof. unfold get_doctor_availability, raise_for_status, response_json. footprint. Qed.

#[local] Hint Resolve reads_get_doctor_availability : footprint.

Lemma reads_scan_days env doctor_id n :
  forall d slots errors, emits reads (scan_days env n doctor_id d slots errors).
Proof.
  induction n as [| n IH]; intros d slots errors; cbn [scan_days]; [apply emits_ret |].
  unfold add_one_day. footprint.
Qed.

#[local] Hint Resolve reads_scan_days : footprint.

Lemma reads_check_next_available_slots env doctor_id start_date num_days :
  emits reads (check_next_available_slots env doctor_id start_date num_days).
Proof. unfold check_next_available_slots, strptime. footprint. Qed.

#[local] Hint Resolve reads_check_next_available_slots : footprint.

Lemma reads_suggest_next_days env details : emits reads (suggest_next_days env details).
Proof. unfold suggest_next_days. footprint. Qed.

Lemma silent_suggest_same_day env details times :
  emits (fun _ => False) (suggest_same_day env details times).
Proof. unfold suggest_same_day. footprint. Qed.

Lemma reads_not_post e : reads e -> not_post e.
Proof. by destruct e. Qed.

Lemma http_calls_not_post delta : Forall reads delta -> Forall not_post (http_calls delta).
Proof.
  intros Hall. unfold http_calls. apply Forall_forall. intros e He.
  apply list_elem_of_filter in He as [_ He]. rewrite Forall_forall in Hall.
  by apply reads_not_post, Hall.
Qed.

(** What a booking attempt sends. *)
Lemma book_appointment_calls env dfs tr :
  exists r tr2 calls,
    book_appointment env (JObj dfs) tr = (Ok r, tr2) /\
    http_calls tr2 = (http_calls tr ++ calls)%list /\
    booking_calls (JObj dfs) (default JNull (Py.assoc "doctor_id" dfs))
      (default JNull (Py.assoc "preferred_date" dfs)) calls /\
    (calls <> [] -> empty_fields dfs = []).
Proof.
  unfold booking_calls.
  destruct (empty_fields dfs) as [| field fields] eqn:Hfields.
  - destruct (complete_fields dfs Hfields) as (doctor_id & preferred_date & Hd & Hp).
    rewrite (book_appointment_run _ _ _ _ _ Hfields Hd Hp). rewrite Hd, Hp.
    cbn [default from_option id].
    eexists _, _, _. split; [reflexivity |].
    split; [apply booking_run_http_calls |]. cbv zeta.
    destruct (conflicting _); (split; [auto | done]).
  - rewrite book_appointment_missing by (by rewrite Hfields).
    eexists _, tr, []. split; [reflexivity |]. split; [by rewrite app_nil_r |].
    split; [by left | done].
Qed.

Section Negotiation.

(** An appointment routing whose [missing_fields] is empty or absent and
    whose [details] name a doctor and a date: the turn reaches its
    availability check. *)
Context (env : Env) (rfs dfs : list (string * json)) (doctor_id preferred_date : json).
Hypothesis Hmissing : Py.truthy (default (JList []) (Py.assoc "missing_fields" rfs)) = false.
Hypothesis Hdetails : default (JObj []) (Py.assoc "details" rfs) = JObj dfs.
Hypothesis Hdoctor : Py.assoc "doctor_id" dfs = Some doctor_id.
Hypothesis Hdate : Py.assoc "preferred_date" dfs = Some preferred_date.

(** Step 2 and the requests it makes. *)
Lemma try_preferred_time_calls times tr1 :
  exists r tr2 booking,
    try_preferred_time env (JObj dfs) times tr1 = (r, tr2) /\
    http_calls tr2 = (http_calls tr1 ++ booking)%list /\
    booking_calls (JObj dfs) doctor_id preferred_date booking /\
    (booking <> [] ->
     empty_fields dfs = [] /\
     exists preferred_time,
       Py.assoc "preferred_time" dfs = Some preferred_time /\
       py_contains preferred_time times tr1 = (Ok true, tr1)).
Proof.
  unfold try_preferred_time. cbv beta iota delta [py_getitem bind ret].
  destruct (Py.assoc "preferred_time" dfs) as [preferred_time|] eqn:Htime.
  2: { eexists _, tr1, []. split; [reflexivity |]. split; [by rewrite app_nil_r |].
       split; [by left | done]. }
  pose proof (silent_trace (py_contains preferred_time times) tr1
                (emits_py_contains _ _ _)) as Hsilent.
  destruct (py_contains preferred_time times tr1) as [[[|] | e] t] eqn:Hin;
    cbn [snd] in Hsilent; subst t.
  2, 3: eexists _, tr1, []; (split; [reflexivity |]); (split; [by rewrite app_nil_r |]);
        (split; [by left | done]).
  destruct (book_appointment_calls env dfs tr1)
    as (r & tr2 & booking & Hrun & Hcalls & Hb & Hne).
  rewrite Hdoctor, Hdate in Hb. cbn [default from_option id] in Hb.
  rewrite Hrun.
  destruct (Py.truthy_opt (r !! "success")).
  - rewrite Hdoctor, Hdate. unfold py_get. cbv beta iota delta [ret].
    eexists _, tr2, booking. split; [reflexivity |]. split; [exact Hcalls |].
    split; [exact Hb |]. intros Hsent. split; [by apply Hne | eauto].
  - eexists _, tr2, booking. split; [reflexivity |]. split; [exact Hcalls |].
    split; [exact Hb |]. intros Hsent. split; [by apply Hne | eauto].
Qed.

(** X18. The requests of an appointment turn that reaches its check.  It
    starts with the GET for the requested doctor and date.  A POST is sent
    at most once, right after that GET, and only when the check succeeded,
    the preferred time is in the fetched times and the three required
    fields are filled; it carries the details as the orchestrator gave
    them and may be followed by the GET for alternatives.  Whatever the
    turn requests after that is not a POST. *)
Theorem X18_booking_only_for_a_listed_time tr :
  let get := EvGet AVAILABILITY_URL doctor_id preferred_date in
  let tr1 := (tr ++ [get])%list in
  exists booking rest,
    http_calls (snd (appointment_turn env (JObj rfs) tr))
      = (http_calls tr ++ get :: booking ++ rest)%list /\
    Forall not_post rest /\
    booking_calls (JObj dfs) doctor_id preferred_date booking /\
    (booking <> [] ->
     empty_fields dfs = [] /\
     exists times preferred_time,
       fetched_times (upstream env tr1) = Some times /\
       Py.assoc "preferred_time" dfs = Some preferred_time /\
       py_contains preferred_time times tr1 = (Ok true, tr1)).
Proof.
  cbv zeta.
  rewrite (appointment_turn_run env rfs dfs doctor_id preferred_date
             Hmissing Hdetails Hdoctor Hdate).
  cbv zeta.
  set (get := EvGet AVAILABILITY_URL doctor_id preferred_date).
  set (tr1 := (tr ++ [get])%list).
  assert (http_calls tr1 = (http_calls tr ++ [get])%list) as Hget
    by apply http_calls_get.
  destruct (fetched_times (upstream env tr1)) as [times|] eqn:Hf.
  2: { exists [], []. cbn [snd app].
       rewrite http_calls_app, http_calls_availability_log, app_nil_r.
       split; [exact Hget |]. split; [constructor |]. split; [by left | done]. }
  destruct (try_preferred_time_calls times tr1)
    as (r & tr2 & booking & Hrun & Hcalls & Hb & Hne).
  rewrite Hrun. rewrite Hget, <- app_assoc in Hcalls. cbn [app] in Hcalls.
  assert (forall delta (outcome : Result MessageResponse * list Event),
            snd outcome = (tr2 ++ delta)%list -> Forall reads delta ->
            exists booking' rest,
              http_calls (snd outcome) = (http_calls tr ++ get :: booking' ++ rest)%list /\
              Forall not_post rest /\
              booking_calls (JObj dfs) doctor_id preferred_date booking' /\
              (booking' <> [] ->
               empty_fields dfs = [] /\
               exists times' preferred_time,
                 Some times = Some times' /\
                 Py.assoc "preferred_time" dfs = Some preferred_time /\
                 py_contains preferred_time times' tr1 = (Ok true, tr1))) as Hthen.
  { intros delta outcome -> Hdelta. exists booking, (http_calls delta).
    split; [by rewrite http_calls_app, Hcalls, <- app_assoc |].
    split; [by apply http_calls_not_post |]. split; [exact Hb |].
    intros Hsent. destruct (Hne Hsent) as (Hfields & preferred_time & Htime & Hin).
    split; [exact Hfields |]. exists times, preferred_time. by repeat split. }
  destruct r as [[reply|] | e];
    try (apply (Hthen [] (_, _)); [by rewrite app_nil_r | constructor]).
  destruct (Py.truthy times).
  - apply (Hthen []); [| constructor]. rewrite app_nil_r.
    apply silent_trace, silent_suggest_same_day.
  - destruct (reads_suggest_next_days env (JObj dfs) tr2) as (delta & Hdelta & Hreads).
    apply (Hthen delta); [| exact Hreads].
    by destruct (suggest_next_days env (JObj dfs) tr2) as [[[reply|] | e] tr3].
Qed.

(** X19. The happy path of a booking.  The check lists the preferred time,
    the required fields are filled, and the service answers the POST with
    200 and a body that decodes.  Then the turn confirms the appointment,
    naming the doctor by [doctor_name] when the details have one and by
    [doctor_id] otherwise, with the requested date and time; it made two
    requests, the GET and the POST, and wrote one INFO record. *)
Theorem X19_listed_time_is_booked tr l preferred_time data :
  let tr1 := (tr ++ [EvGet AVAILABILITY_URL doctor_id preferred_date])%list in
  let post := EvPost BOOKING_URL (JObj dfs) in
  empty_fields dfs = [] ->
  Py.assoc "preferred_time" dfs = Some preferred_time ->
  fetched_times (upstream env tr1) = Some (JList l) ->
  existsb (Py.eq preferred_time) l = true ->
  upstream env (tr1 ++ [post])%list = HttpResponse 200 (Some data) ->
  appointment_turn env (JObj rfs) tr =
    (Ok (confirmation env (default doctor_id (Py.assoc "doctor_name" dfs))
           preferred_date preferred_time),
     (tr1 ++ [post; EvLog INFO ("Successfully booked appointment for " ++
                                py_str env doctor_id)])%list).
Proof.
  cbv zeta. intros Hfields Htime Hf Hin Hup.
  rewrite (appointment_turn_run env rfs dfs doctor_id preferred_date
             Hmissing Hdetails Hdoctor Hdate).
  cbv zeta. rewrite Hf.
  unfold try_preferred_time. cbv beta iota delta [py_getitem py_contains bind ret].
  rewrite Htime, Hin.
  rewrite (book_appointment_run _ _ _ _ _ Hfields Hdoctor Hdate).
  unfold booking_run. cbv zeta. rewrite Hup.
  change (200 =? 200)%Z with true. cbv iota. cbn [fst snd].
  change (Py.truthy_opt (booked data !! "success")) with true. cbv iota.
  rewrite Hdoctor, Hdate. unfold py_get. cbv beta iota delta [ret].
  rewrite <- app_assoc. reflexivity.
Qed.

(** Step 4, by the outcome of the scan. *)
Lemma suggest_next_days_run tr :
  suggest_next_days env (JObj dfs) tr =
    match check_next_available_slots env doctor_id preferred_date 5 tr with
    | (Ok [], tr2) => (Ok None, tr2)
    | (Ok next_days, tr2) =>
        match add_day_blocks env (take 3 next_days)
                ("I apologize, but there are no appointments available on " ++
                 py_str env preferred_date ++ ". Here are the next available slots:" ++
                 nl ++ nl) tr2 with
        | (Ok text, tr3) =>
            (Ok (Some (mkMessageResponse
                         (text ++ "Would you like to book any of these times?")
                         "Appointment Coordinator" None
                         (Some {[ "available_days" := JList next_days ]}))), tr3)
        | (Raise e, tr3) => (Raise e, tr3)
        end
    | (Raise e, tr2) => (Raise e, tr2)
    end.
Proof.
  unfold suggest_next_days. cbv beta iota delta [py_getitem bind ret].
  rewrite Hdoctor, Hdate.
  destruct (check_next_available_slots env doctor_id preferred_date 5 tr)
    as [[[| day days] | e] tr2]; reflexivity.
Qed.

(** X20. A day without free times is asked about twice.  When the check
    answers with the empty list, the turn scans five days from the
    requested date on, and the first day of that scan is the requested day
    itself: the requests of the turn are the GET of the check followed by
    the five (fewer at the end of the calendar) GETs of the scan, never a
    POST.  When the scan finds no day either, the reply is the generic
    one. *)
Theorem X20_empty_day_is_asked_again tr s d preferred_time :
  let get := EvGet AVAILABILITY_URL doctor_id preferred_date in
  let tr1 := (tr ++ [get])%list in
  preferred_date = JStr s ->
  Calendar.strptime s = Some d ->
  Py.assoc "preferred_time" dfs = Some preferred_time ->
  fetched_times (upstream env tr1) = Some (JList []) ->
  http_calls (snd (appointment_turn env (JObj rfs) tr))
    = (http_calls tr ++ get :: scan_requests doctor_id (Scan.window 5 d))%list
  /\ (exists days, Scan.window 5 d = d :: days)
  /\ (forall tr2,
        check_next_available_slots env doctor_id preferred_date 5 tr1 = (Ok [], tr2) ->
        appointment_turn env (JObj rfs) tr = (Ok generic_reply, tr2)).
Proof.
  cbv zeta. intros Hstr Hparse Htime Hf.
  rewrite (appointment_turn_run env rfs dfs doctor_id preferred_date
             Hmissing Hdetails Hdoctor Hdate).
  cbv zeta. rewrite Hf.
  unfold try_preferred_time. cbv beta iota delta [py_getitem py_contains bind ret].
  rewrite Htime. cbn [existsb Py.truthy].
  rewrite suggest_next_days_run.
  split; [| split].
  - pose proof (scan_requests_window env doctor_id s d 5
                  (tr ++ [EvGet AVAILABILITY_URL doctor_id preferred_date])%list Hparse)
      as Hscan.
    rewrite <- Hstr in Hscan. rewrite http_calls_get, <- app_assoc in Hscan.
    cbn [app] in Hscan. change (Z.to_nat 5) with 5%nat in Hscan.
    rewrite <- Hscan.
    destruct (check_next_available_slots env doctor_id preferred_date 5 _)
      as [[[| day days] | e] tr2]; try reflexivity.
    pose proof (silent_trace
                  (add_day_blocks env (take 3 (day :: days))
                     ("I apologize, but there are no appointments available on " ++
                      py_str env preferred_date ++
                      ". Here are the next available slots:" ++ nl ++ nl)) tr2
                  (emits_add_day_blocks _ _ _ _)) as Hsilent.
    destruct (add_day_blocks env _ _ tr2) as [[text | e] tr3];
      cbn [snd] in *; by subst.
  - cbn [Scan.window]. eauto.
  - intros tr2 Hscan. by rewrite Hscan.
Qed.

(** X21. The scan reads the requested date with [%m/%d/%Y], which nothing
    before it does.  When the service accepted a date in another form
    (["2024-12-15"]) and answered that the day has no free times, the turn
    does not answer that the day is full: it raises the [ValueError] of
    [strptime], having made the one request of the check. *)
Theorem X21_empty_day_in_another_date_format tr s preferred_time :
  let tr1 := (tr ++ [EvGet AVAILABILITY_URL doctor_id preferred_date])%list in
  preferred_date = JStr s ->
  Calendar.strptime s = None ->
  Py.assoc "preferred_time" dfs = Some preferred_time ->
  fetched_times (upstream env tr1) = Some (JList []) ->
  exists msg, appointment_turn env (JObj rfs) tr = (Raise (ValueError msg), tr1).
Proof.
  cbv zeta. intros Hstr Hparse Htime Hf. eexists.
  rewrite (appointment_turn_run env rfs dfs doctor_id preferred_date
             Hmissing Hdetails Hdoctor Hdate).
  cbv zeta. rewrite Hf.
  unfold try_preferred_time. cbv beta iota delta [py_getitem py_contains bind ret].
  rewrite Htime. cbn [existsb Py.truthy].
  rewrite suggest_next_days_run. subst preferred_date.
  unfold check_next_available_slots, strptime, bind, raise. by rewrite Hparse.
Qed.

End Negotiation.

(** ** The further properties at concrete turns *)

(** The booking of 09:00 is accepted. *)
Lemma X2_witness :
  let data := JObj [("appointment_id", JStr "apt123")] in
  let env := Scenario.service [HttpResponse 200 (Some data)] in
  let dfs := Scenario.details "09:00" in
  let tr' := [EvPost BOOKING_URL (JObj dfs);
              EvLog INFO "Successfully booked appointment for dr_001"] in
  book_appointment env (JObj dfs) [] = (Ok (booked data), tr')
  /\ (Py.truthy_opt (booked data !! "success") = true <->
      (empty_fields dfs = [] /\
       exists data',
         upstream env ([] ++ [EvPost BOOKING_URL (JObj dfs)])%list
           = HttpResponse 200 (Some data') /\
         booked data !! "data" = Some data')).
Proof.
  intros data env dfs tr'.
  assert (Hrun : book_appointment env (JObj dfs) [] = (Ok (booked data), tr'))
    by (vm_compute; reflexivity).
  split; [exact Hrun |].
  exact (X2_booking_succeeds_iff_200 env dfs [] (booked data) tr' Hrun).
Defined.

(** The service accepts the booking and answers with an empty body. *)
Lemma X4_witness :
  let env := Scenario.service [HttpResponse 200 None] in
  let dfs := Scenario.details "09:00" in
  empty_fields dfs = []
  /\ book_appointment env (JObj dfs) [] =
       (Ok (failure "An unexpected error occurred"),
        ([] ++ [EvPost BOOKING_URL (JObj dfs);
                EvLog INFO ("Successfully booked appointment for " ++
                            py_str env Scenario.doctor);
                EvLog ERROR ("Error booking appointment: " ++
                             exn_str env JSONDecodeError)])%list).
Proof.
  intros env dfs. split; [reflexivity |].
  exact (X4_accepted_booking_reported_failed env dfs Scenario.doctor []
           eq_refl eq_refl eq_refl).
Defined.

(** The service refuses the booking with a 422 and a detail. *)
Lemma X5_witness :
  let body := JObj [("detail", JStr "Invalid time")] in
  let env := Scenario.service [HttpResponse 422 (Some body)] in
  let dfs := Scenario.details "09:00" in
  exists r tr',
    book_appointment env (JObj dfs) [] = (Ok r, tr') /\
    r = refused (JStr "Invalid time") /\
    r !! "alternatives" = None /\
    http_calls tr' = ([] ++ [EvPost BOOKING_URL (JObj dfs)])%list.
Proof.
  intros body env dfs.
  assert (H200 : (422 <> 200)%Z) by lia.
  assert (H409 : (422 <> 409)%Z) by lia.
  exact (X5_refusal_passes_detail_on env dfs body 422 [] eq_refl H200 H409 eq_refl).
Defined.

(** A scan of one day that starts on the last day of [datetime]. *)
Lemma X9_witness :
  let env := Scenario.service [HttpResponse 200 (Some (Scenario.data Scenario.times3))] in
  let d := Calendar.mkDate Calendar.MAXYEAR 12 31 in
  let r := Scan.outcomes env Scenario.doctor (Scan.window 1 d) [] in
  Calendar.strptime "12/31/9999" = Some d
  /\ check_next_available_slots env Scenario.doctor (JStr "12/31/9999") (Z.of_nat 1) []
     = (Raise OverflowError, snd r)
  /\ length (Scan.window 1 d) = 1%nat
  /\ http_calls (snd r) = ([] ++ scan_requests Scenario.doctor (Scan.window 1 d))%list.
Proof.
  intros env d r.
  assert (H1 : Calendar.strptime "12/31/9999" = Some d) by (vm_compute; reflexivity).
  assert (H2 : is_Some (Scan.add_days 0 d)) by (eexists; reflexivity).
  assert (H3 : Scan.add_days 1 d = None) by (vm_compute; reflexivity).
  split; [exact H1 |].
  exact (X9_scan_steps_past_last_day env Scenario.doctor "12/31/9999" d 0 [] H1 H2 H3).
Defined.

(** Five days from 12/30/2024, the second of which times out. *)
Lemma X10_witness :
  let ok := HttpResponse 200 (Some (Scenario.data Scenario.times3)) in
  let env := Scenario.service [ok; HttpTimeout; ok; ok; ok] in
  let d := Calendar.mkDate 2024 12 30 in
  let result := [day_slot "12/30/2024" Scenario.times3;
                 day_slot "01/01/2025" Scenario.times3;
                 day_slot "01/02/2025" Scenario.times3;
                 day_slot "01/03/2025" Scenario.times3] in
  Calendar.strptime "12/30/2024" = Some d
  /\ fst (check_next_available_slots env Scenario.doctor (JStr "12/30/2024") 5 [])
     = Ok result
  /\ (length result <= Z.to_nat 5)%nat
  /\ Forall (fun record => exists date_str times,
               record = day_slot date_str times /\ Py.truthy times = true) result
  /\ (Display.field "date" <$> result)
       `sublist_of` (JStr <$> (Calendar.strftime <$> Scan.window (Z.to_nat 5) d)).
Proof.
  intros ok env d result.
  assert (H1 : Calendar.strptime "12/30/2024" = Some d) by (vm_compute; reflexivity).
  assert (H2 : fst (check_next_available_slots env Scenario.doctor (JStr "12/30/2024") 5 [])
               = Ok result) by (vm_compute; reflexivity).
  split; [exact H1 |]. split; [exact H2 |].
  destruct (check_next_available_slots env Scenario.doctor (JStr "12/30/2024") 5 [])
    as [r tr'] eqn:Hrun.
  cbn [fst] in H2. subst r.
  exact (X10_scan_result_well_formed env Scenario.doctor "12/30/2024" d 5 [] result tr'
           H1 Hrun).
Defined.

(** A start date written without leading zeros. *)
Lemma X11_witness :
  let env := Scenario.service [] in
  let d := Calendar.mkDate 2025 1 5 in
  let days := Scan.window (Z.to_nat 2) d in
  Calendar.strptime "1/5/2025" = Some d
  /\ (Calendar.strftime <$> days) = ["01/05/2025"; "01/06/2025"]
  /\ http_calls (snd (check_next_available_slots env Scenario.doctor (JStr "1/5/2025") 2 []))
     = ([] ++ scan_requests Scenario.doctor days)%list
  /\ Forall (fun day => Calendar.strptime (Calendar.strftime day) = Some day
                        /\ String.length (Calendar.strftime day) = 10%nat) days.
Proof.
  intros env d days.
  assert (H1 : Calendar.strptime "1/5/2025" = Some d) by (vm_compute; reflexivity).
  assert (H2 : (1000 <= Calendar.year d)%nat) by (apply Nat.leb_le; vm_compute; reflexivity).
  split; [exact H1 |]. split; [vm_compute; reflexivity |].
  exact (X11_scan_dates_read_back env Scenario.doctor "1/5/2025" d 2 [] H1 H2).
Defined.

(** The orchestrator fails once and would answer the second time. *)
Lemma X13_witness :
  let env := Scenario.swarm [RunFault "overloaded"; RunContent "M"] false in
  let request := mkRequest Scenario.question None None in
  let run := EvRun orchestrator_agent (conversation_of request) in
  chat env request [] =
    (Ok system_reply,
     ([] ++ [run; attempt_log env 1 "overloaded";
             EvLog ERROR ("Chat error: " ++ exn_str env (NameError "asyncio"))])%list).
Proof.
  intros env request run.
  exact (X13_without_asyncio_one_failure_ends_the_turn env request [] "overloaded"
           eq_refl eq_refl).
Defined.

(** The appointment turn of [test_chat_endpoint_appointment]. *)
Lemma X15_witness :
  let routing := JObj (Scenario.routing "09:00" []) in
  let ok := HttpResponse 200 (Some (Scenario.data Scenario.times3)) in
  let env := scripted_env [ok; ok] [RunContent "R"] [("R", routing)] false in
  let request := mkRequest "I need to schedule an appointment" (Some []) None in
  http_calls (snd (chat env request [])) <> http_calls []
  /\ exists text rfs tr1,
       process_message env orchestrator_agent (message request)
         (default [] (history request)) [] = (Ok (Some text), tr1) /\
       json_loads env text = Some (JObj rfs) /\
       Py.assoc "agent" rfs = Some (JStr "appointment") /\
       Py.truthy (default (JList []) (Py.assoc "missing_fields" rfs)) = false.
Proof.
  intros routing ok env request.
  assert (Hcalls : http_calls (snd (chat env request [])) <> http_calls [])
    by (vm_compute; discriminate).
  split; [exact Hcalls |].
  exact (X15_only_appointments_reach_the_service env request [] Hcalls).
Defined.

(** The orchestrator answers in plain words. *)
Lemma X16_witness :
  let text := "Hello! How can I help you today?" in
  let env := Scenario.swarm [RunContent text] false in
  let request := mkRequest "Hi" None None in
  let run := EvRun orchestrator_agent (conversation_of request) in
  json_loads env text = None
  /\ chat env request [] =
       (Ok (mkMessageResponse text "orchestrator" None None),
        ([run] ++ [invalid_format_log text])%list).
Proof.
  intros text env request run.
  assert (Hrun : process_message env orchestrator_agent (message request)
                   (default [] (history request)) [] = (Ok (Some text), [run]))
    by (vm_compute; reflexivity).
  split; [reflexivity |].
  exact (X16_plain_text_answer_is_passed_on env request [] text [run] Hrun eq_refl).
Defined.

(** A medical turn. *)
Lemma X17_witness :
  let env := Scenario.swarm [RunContent "M"; RunContent "answer"] false in
  let request := mkRequest Scenario.question None None in
  let reply := mkMessageResponse "answer" "Medical Advisor" None None in
  let tr' := [EvRun orchestrator_agent (conversation_of request);
              EvRun medical_agent (conversation_of request)] in
  chat env request [] = (Ok reply, tr')
  /\ exists tr1,
       process_message env medical_agent (message request)
         (default [] (history request)) tr1 = (Ok (Some (response reply)), tr').
Proof.
  intros env request reply tr'.
  assert (Hrun : chat env request [] = (Ok reply, tr')) by (vm_compute; reflexivity).
  split; [exact Hrun |].
  destruct (X17_label_names_the_source env request [] reply tr' Hrun)
    as [_ [[Hsys _] | [[Hlabel _] | [(_ & _ & Hmed) | [Hlabel _]]]]];
    [discriminate Hsys | discriminate Hlabel | exact Hmed | discriminate Hlabel].
Defined.

(** 09:00 is on offer and the booking meets a conflict. *)
Lemma X18_witness :
  let env := Scenario.service
               [HttpResponse 200 (Some (Scenario.data Scenario.times3));
                HttpResponse 409 (Some (JObj [("detail", JStr "Slot taken")]));
                HttpResponse 200 (Some (Scenario.data Scenario.times3))] in
  let dfs := Scenario.details "09:00" in
  let post := EvPost BOOKING_URL (JObj dfs) in
  http_calls (snd (appointment_turn env (JObj (Scenario.routing "09:00" [])) []))
    = [Scenario.check; post; Scenario.check]
  /\ exists booking rest,
       http_calls (snd (appointment_turn env (JObj (Scenario.routing "09:00" [])) []))
         = ([] ++ Scenario.check :: booking ++ rest)%list /\
       Forall not_post rest /\
       booking_calls (JObj dfs) Scenario.doctor Scenario.date booking /\
       (booking <> [] ->
        empty_fields dfs = [] /\
        exists times preferred_time,
          fetched_times (upstream env ([] ++ [Scenario.check])%list) = Some times /\
          Py.assoc "preferred_time" dfs = Some preferred_time /\
          py_contains preferred_time times ([] ++ [Scenario.check])%list
            = (Ok true, ([] ++ [Scenario.check])%list)).
Proof.
  intros env dfs post. split; [vm_compute; reflexivity |].
  exact (X18_booking_only_for_a_listed_time env (Scenario.routing "09:00" []) dfs
           Scenario.doctor Scenario.date eq_refl eq_refl eq_refl eq_refl []).
Defined.

(** The turn of [test_chat_endpoint_appointment], with a doctor's name. *)
Lemma X19_witness :
  let dfs := (Scenario.details "09:00" ++ [("doctor_name", JStr "Smith")])%list in
  let rfs := [("agent", JStr "appointment"); ("details", JObj dfs)] in
  let data := JObj [("appointment_id", JStr "apt123")] in
  let env := Scenario.service
               [HttpResponse 200 (Some (Scenario.data Scenario.times3));
                HttpResponse 200 (Some data)] in
  appointment_turn env (JObj rfs) [] =
    (Ok (mkMessageResponse
           "Great! Your appointment with Dr. Smith is confirmed for 12/15/2024 at 09:00."
           "Appointment Coordinator" None None),
     [Scenario.check; EvPost BOOKING_URL (JObj dfs);
      EvLog INFO "Successfully booked appointment for dr_001"]).
Proof.
  intros dfs rfs data env.
  exact (X19_listed_time_is_booked env rfs dfs Scenario.doctor Scenario.date
           eq_refl eq_refl eq_refl eq_refl []
           [JStr "09:00"; JStr "10:00"; JStr "14:00"] (JStr "09:00") data
           eq_refl eq_refl eq_refl eq_refl eq_refl).
Defined.

(** The day is full and so are the days that follow. *)
Lemma X20_witness :
  let full := HttpResponse 200 (Some (Scenario.data (JList []))) in
  let env := Scenario.service [full; full; full; full; full; full] in
  let rfs := Scenario.routing "09:00" [] in
  let d := Calendar.mkDate 2024 12 15 in
  http_calls (snd (appointment_turn env (JObj rfs) []))
    = ([] ++ Scenario.check :: scan_requests Scenario.doctor (Scan.window 5 d))%list
  /\ (exists days, Scan.window 5 d = d :: days)
  /\ appointment_turn env (JObj rfs) []
     = (Ok generic_reply,
        Scenario.check :: scan_requests Scenario.doctor (Scan.window 5 d)).
Proof.
  intros full env rfs d.
  destruct (X20_empty_day_is_asked_again env rfs (Scenario.details "09:00")
              Scenario.doctor Scenario.date eq_refl eq_refl eq_refl eq_refl
              [] "12/15/2024" d (JStr "09:00") eq_refl eq_refl eq_refl eq_refl)
    as (Hcalls & Hfirst & Hgeneric).
  split; [exact Hcalls |]. split; [exact Hfirst |].
  apply Hgeneric. vm_compute. reflexivity.
Defined.

(** The orchestrator passes an ISO date on, and the day is full. *)
Lemma X21_witness :
  let dfs := [("doctor_id", JStr "dr_001"); ("preferred_date", JStr "2024-12-15");
              ("preferred_time", JStr "09:00")] in
  let rfs := [("agent", JStr "appointment"); ("details", JObj dfs)] in
  let env := Scenario.service [HttpResponse 200 (Some (Scenario.data (JList [])))] in
  exists msg,
    appointment_turn env (JObj rfs) [] =
      (Raise (ValueError msg),
       ([] ++ [EvGet AVAILABILITY_URL Scenario.doctor (JStr "2024-12-15")])%list).
Proof.
  intros dfs rfs env.
  exact (X21_empty_day_in_another_date_format env rfs dfs Scenario.doctor
           (JStr "2024-12-15") eq_refl eq_refl eq_refl eq_refl
           [] "2024-12-15" (JStr "09:00") eq_refl eq_refl eq_refl eq_refl).
Defined.
